(** * Layout arithmetic of [generate_figures_modular.py]

    A shallow embedding of the figure-generation script: the aggregate
    computations ([calculate_interest_career_stats], the count-to-percentage
    conversion) and the four chart constructors ([create_figure1],
    [create_figure2], [create_figure3], [create_figure3_red]), written against
    a small model of the pyplot state machine that records what is drawn.

    Numbers.  Python floats and numpy [float64] values are modelled by the
    type [float] below: a finite value is an exact rational, and the three
    IEEE special values (+inf, -inf, nan) are kept, because numpy's division
    produces them where Python's scalar division raises.  Rounding and the
    sign of zero are not modelled by [float]: an equation between values of
    this type is an equation of exact arithmetic.  Where rounding decides
    what is drawn (whether two bars of the satisfaction chart meet, whether
    a total exceeds the labelling threshold), the layout is embedded a second
    time, in the module [Parametric], with the type of the numbers and
    their operations as parameters; binary64 is then one instance, built on
    the primitive floats of the kernel.

    Inputs.  The script has no inputs: its tables are literals, and the
    [data] argument of the chart constructors is only handed to
    [calculate_interest_career_stats], which ignores it.  Each constructor is
    therefore embedded twice: with its table (and the sample size) as an
    argument, which is what the properties quantify over, and applied to the
    literal table of the source.  A table is a list of rows, so that the
    columns the source writes as parallel arrays have one length.

    Drawing.  A call on an axes object is recorded on that object, with its
    keyword arguments as written; [savefig] stores the figure with its axes
    resolved.  Reading the spreadsheet ([load_data]) and the [__main__] block
    are not embedded. *)

From Stdlib Require Import ZArith QArith Qabs Qminmax Lqa Lia List String Bool.
From Stdlib Require Import Permutation Sorted.
From Stdlib Require PrimFloat FloatOps SpecFloat.
Import ListNotations.

Local Open Scope Q_scope.

(* ===================================================================== *)
(** ** Floating-point values *)
(* ===================================================================== *)

Inductive float : Type :=
| Fin (q : Q)
| PInf
| NInf
| NaN.

Declare Scope float_scope.
Delimit Scope float_scope with float.
Bind Scope float_scope with float.

(** Equality of float values up to the representation of the rational. *)
Definition feq (x y : float) : Prop :=
  match x, y with
  | Fin a, Fin b => a == b
  | PInf, PInf => True
  | NInf, NInf => True
  | NaN, NaN => True
  | _, _ => False
  end.

Definition is_finite (x : float) : bool :=
  match x with Fin _ => true | _ => false end.

Definition Qsign_inf (q : Q) : float :=
  match Qcompare q 0 with
  | Gt => PInf
  | Lt => NInf
  | Eq => NaN
  end.

Definition fneg (x : float) : float :=
  match x with
  | Fin a => Fin (- a)
  | PInf => NInf
  | NInf => PInf
  | NaN => NaN
  end.

Definition fadd (x y : float) : float :=
  match x, y with
  | NaN, _ | _, NaN => NaN
  | Fin a, Fin b => Fin (a + b)
  | PInf, NInf | NInf, PInf => NaN
  | PInf, _ | _, PInf => PInf
  | NInf, _ | _, NInf => NInf
  end.

Definition fsub (x y : float) : float := fadd x (fneg y).

Definition fmul (x y : float) : float :=
  match x, y with
  | NaN, _ | _, NaN => NaN
  | Fin a, Fin b => Fin (a * b)
  | PInf, Fin b | Fin b, PInf => Qsign_inf b
  | NInf, Fin b | Fin b, NInf => Qsign_inf (- b)
  | PInf, PInf | NInf, NInf => PInf
  | PInf, NInf | NInf, PInf => NInf
  end.

(** IEEE division, as numpy's [true_divide] performs it: a zero divisor
    gives an infinity (or nan for 0/0) instead of an exception. *)
Definition fdiv (x y : float) : float :=
  match x, y with
  | NaN, _ | _, NaN => NaN
  | Fin a, Fin b => if Qeq_bool b 0 then Qsign_inf a else Fin (a / b)
  | Fin _, (PInf | NInf) => Fin 0
  | PInf, Fin b => if Qle_bool 0 b then PInf else NInf
  | NInf, Fin b => if Qle_bool 0 b then NInf else PInf
  | (PInf | NInf), (PInf | NInf) => NaN
  end.

Definition fabs (x : float) : float :=
  match x with
  | Fin a => Fin (Qabs a)
  | PInf | NInf => PInf
  | NaN => NaN
  end.

(** [x < y]; every comparison with nan is false. *)
Definition fltb (x y : float) : bool :=
  match x, y with
  | NaN, _ | _, NaN => false
  | Fin a, Fin b => negb (Qle_bool b a)
  | NInf, NInf => false
  | NInf, _ => true
  | _, NInf => false
  | PInf, _ => false
  | Fin _, PInf => true
  end.

Definition fgtb (x y : float) : bool := fltb y x.

Definition fmin (x y : float) : float := if fltb y x then y else x.
Definition fmax (x y : float) : float := if fltb x y then y else x.

Definition of_Z (n : Z) : float := Fin (inject_Z n).
Definition of_nat (n : nat) : float := of_Z (Z.of_nat n).

Notation "x + y" := (fadd x y) : float_scope.
Notation "x - y" := (fsub x y) : float_scope.
Notation "x * y" := (fmul x y) : float_scope.
Notation "x / y" := (fdiv x y) : float_scope.
Notation "- x" := (fneg x) : float_scope.

(* ===================================================================== *)
(** ** Exceptions *)
(* ===================================================================== *)

Inductive exn : Type :=
| ZeroDivisionError
| IndexError
| InvalidInputError
| RuntimeError.

Inductive result (A : Type) : Type :=
| Ok (a : A)
| Raise (e : exn).
Arguments Ok {A} a.
Arguments Raise {A} e.

Definition rbind {A B} (r : result A) (k : A -> result B) : result B :=
  match r with
  | Ok a => k a
  | Raise e => Raise e
  end.

(** Python's scalar [/]: a zero divisor raises. *)
Definition py_truediv (x y : float) : result float :=
  match y with
  | Fin b => if Qeq_bool b 0 then Raise ZeroDivisionError else Ok (fdiv x y)
  | _ => Ok (fdiv x y)
  end.

(** The built-in [sum]: left to right, starting from the integer 0. *)
Definition py_sum (l : list float) : float := fold_left fadd l (Fin 0).

(** The built-in [zip] stops at the end of the shorter sequence. *)
Fixpoint zip {A B} (l : list A) (l' : list B) : list (A * B) :=
  match l, l' with
  | a :: t, b :: t' => (a, b) :: zip t t'
  | _, _ => []
  end.

(* ===================================================================== *)
(** ** Configuration section *)
(* ===================================================================== *)

Definition TOTAL_PROGRAMS : Z := 27.

(* ===================================================================== *)
(** ** Data processing functions *)
(* ===================================================================== *)

(** The expression of lines 73 and 74,
    [sum([m * c for m, c in zip(midpoints, counts)]) / TOTAL_PROGRAMS],
    with the two lists and the sample size as arguments. *)
Definition weighted_midpoint_average
    (midpoints : list float) (counts : list Z) (sample_size : Z) : result float :=
  py_truediv
    (py_sum (map (fun mc => fmul (fst mc) (of_Z (snd mc))) (zip midpoints counts)))
    (of_Z sample_size).

Definition midpoints : list float := [Fin 12.5; Fin 37.5; Fin 62.5; Fin 87.5].
Definition interest_counts : list Z := [11; 10; 5; 1]%Z.
Definition career_counts : list Z := [20; 4; 3; 0]%Z.

Definition calculate_interest_career_stats_with (total : Z) : result (float * float) :=
  rbind (weighted_midpoint_average midpoints interest_counts total) (fun avg_interest =>
  rbind (weighted_midpoint_average midpoints career_counts total) (fun avg_career =>
  Ok (avg_interest, avg_career))).

Definition calculate_interest_career_stats : result (float * float) :=
  calculate_interest_career_stats_with TOTAL_PROGRAMS.

(** numpy's [counts / total * 100] on an integer array and an integer scalar
    (lines 154 to 158): elementwise true division, then scaling. *)
Definition percentage_of_total (count total : Z) : float :=
  fmul (fdiv (of_Z count) (of_Z total)) (Fin 100).

Definition np_percentage (counts : list Z) (total : Z) : list float :=
  map (fun c => percentage_of_total c total) counts.

(* ===================================================================== *)
(** ** The drawing backend: a recording model of pyplot *)
(* ===================================================================== *)

(** Keyword arguments are kept as written at the call site. *)
#[local] Unset Elimination Schemes.
Inductive value : Type :=
| VNum (x : float)
| VInt (z : Z)
| VStr (s : string)
| VBool (b : bool)
| VTuple (vs : list value)
| VDict (kw : list (string * value)).
#[local] Set Elimination Schemes.

Definition kwargs : Type := list (string * value).

Fixpoint kw_lookup (k : string) (kw : kwargs) : option value :=
  match kw with
  | [] => None
  | (k', v) :: t => if String.eqb k k' then Some v else kw_lookup k t
  end.

(** An f-string: literal pieces and numbers formatted with [:.Nf]. *)
Inductive piece : Type :=
| Lit (s : string)
| FmtF (prec : nat) (x : float).

Definition text_content : Type := list piece.

(** The rectangle of one bar: lower-left corner, width and height. *)
Record rectangle : Type := mkRect {
  rect_x : float;
  rect_y : float;
  rect_width : float;
  rect_height : float
}.

Inductive legend_handle : Type :=
| LPatch (kw : kwargs)
| LLine2D (xs ys : list float) (kw : kwargs).

(** What an axes object has been asked to draw or set, in call order. *)
Inductive ax_call : Type :=
| AxisMode (mode : string)
| SetXlim (lo hi : float)
| SetYlim (lo hi : float)
| Text (x y : float) (s : text_content) (kw : kwargs)
| FancyBboxPatch (xy : float * float) (w h : float) (kw : kwargs)
| FancyArrowPatch (posA posB : float * float) (kw : kwargs)
| BarContainer (rects : list rectangle) (kw : kwargs)
| Line2D (xs ys : list float) (fmt : string) (kw : kwargs)
| AxVLine (kw : kwargs)
| SetYticks (ticks : list float)
| SetYticklabels (labels : list string) (kw : kwargs)
| SetXlabel (s : string) (kw : kwargs)
| SetTitle (s : string) (kw : kwargs)
| TickParams (kw : kwargs)
| Grid (kw : kwargs)
| SetAxisBelow (b : bool)
| Legend (handles : list legend_handle) (kw : kwargs).

Definition subplot_spec : Type := (nat * nat * nat)%type.

Record figure : Type := mkFigure {
  fig_kw : kwargs;
  fig_axes : list (subplot_spec * nat);
  fig_tight : bool
}.

(** What [savefig] writes: the figure with its axes resolved. *)
Record document : Type := mkDocument {
  doc_fig_kw : kwargs;
  doc_axes : list (subplot_spec * list ax_call);
  doc_tight : bool;
  doc_save_kw : kwargs
}.

(** The process-wide state: pyplot's registry of figures and the current
    figure, the axes objects (referred to by handle), the files written and
    the standard output. *)
Record pyplot : Type := mkPyplot {
  axes_store : list (list ax_call);
  fig_store : list figure;
  gcf : option nat;
  files : list (string * document);
  stdout : list string
}.

Definition empty_pyplot : pyplot := mkPyplot [] [] None [] [].

Definition set_axes_store (f : list (list ax_call) -> list (list ax_call)) (s : pyplot) :=
  mkPyplot (f (axes_store s)) (fig_store s) (gcf s) (files s) (stdout s).
Definition set_fig_store (f : list figure -> list figure) (s : pyplot) :=
  mkPyplot (axes_store s) (f (fig_store s)) (gcf s) (files s) (stdout s).
Definition set_gcf (g : option nat) (s : pyplot) :=
  mkPyplot (axes_store s) (fig_store s) g (files s) (stdout s).
Definition set_files (f : list (string * document) -> list (string * document)) (s : pyplot) :=
  mkPyplot (axes_store s) (fig_store s) (gcf s) (f (files s)) (stdout s).
Definition set_stdout (f : list string -> list string) (s : pyplot) :=
  mkPyplot (axes_store s) (fig_store s) (gcf s) (files s) (f (stdout s)).

(** Apply [f] to the element at index [i]; nothing happens out of range. *)
Fixpoint update_at {A} (i : nat) (f : A -> A) (l : list A) : list A :=
  match l, i with
  | [], _ => []
  | a :: t, O => f a :: t
  | a :: t, S j => a :: update_at j f t
  end.

Fixpoint read_file (path : string) (fs : list (string * document)) : option document :=
  match fs with
  | [] => None
  | (p, d) :: t => if String.eqb path p then Some d else read_file path t
  end.

(** *** The monad of the script: state and exceptions *)

Definition M (A : Type) : Type := pyplot -> result (A * pyplot).

Definition ret {A} (a : A) : M A := fun s => Ok (a, s).

Definition bind {A B} (m : M A) (k : A -> M B) : M B :=
  fun s => match m s with
           | Ok (a, s') => k a s'
           | Raise e => Raise e
           end.

Definition lift {A} (r : result A) : M A :=
  fun s => match r with
           | Ok a => Ok (a, s)
           | Raise e => Raise e
           end.

Declare Scope py_scope.
Delimit Scope py_scope with py.
Notation "x <- m ;; k" := (bind m (fun x => k))
  (at level 61, m at next level, right associativity) : py_scope.
Notation "m ;; k" := (bind m (fun _ => k))
  (at level 61, right associativity) : py_scope.
Notation "' pat <- m ;; k" := (bind m (fun x => match x with pat => k end))
  (at level 61, pat pattern, m at next level, right associativity) : py_scope.

Local Open Scope py_scope.

(** [for x in l: body x] *)
Fixpoint for_ {A} (l : list A) (body : A -> M unit) : M unit :=
  match l with
  | [] => ret tt
  | x :: t => body x ;; for_ t body
  end.

(** [if b: body] *)
Definition when (b : bool) (body : M unit) : M unit :=
  if b then body else ret tt.

(** [a[i]] on a list or array: out of range raises. *)
Definition index {A} (a : list A) (i : nat) : M A :=
  match nth_error a i with
  | Some x => ret x
  | None => lift (Raise IndexError)
  end.

(** [a[idx]] with an index array, and [[a[i] for i in idx]]. *)
Fixpoint take {A} (a : list A) (idx : list nat) : M (list A) :=
  match idx with
  | [] => ret []
  | i :: t => x <- index a i ;; r <- take a t ;; ret (x :: r)
  end.

(** *** pyplot and axes operations *)

Definition plt_figure (kw : kwargs) : M nat :=
  fun s =>
    let n := List.length (fig_store s) in
    Ok (n, set_gcf (Some n) (set_fig_store (fun fs => fs ++ [mkFigure kw [] false]) s)).

(** [plt.gcf()]: the current figure, created when there is none. *)
Definition plt_gcf : M nat :=
  fun s => match gcf s with
           | Some n => Ok (n, s)
           | None => plt_figure [] s
           end.

Definition add_subplot (f : nat) (spec : subplot_spec) : M nat :=
  fun s =>
    let h := List.length (axes_store s) in
    Ok (h, set_fig_store
             (update_at f (fun fg => mkFigure (fig_kw fg) (fig_axes fg ++ [(spec, h)]) (fig_tight fg)))
             (set_axes_store (fun st => st ++ [[]]) s)).

Definition plt_subplot (r c k : nat) : M nat :=
  f <- plt_gcf ;; add_subplot f (r, c, k).

Definition plt_subplots (kw : kwargs) : M (nat * nat) :=
  f <- plt_figure kw ;; ax <- add_subplot f (1, 1, 1)%nat ;; ret (f, ax).

Definition plt_tight_layout : M unit :=
  f <- plt_gcf ;;
  fun s => Ok (tt, set_fig_store
                     (update_at f (fun fg => mkFigure (fig_kw fg) (fig_axes fg) true)) s).

Definition resolve_axes (st : list (list ax_call)) (fa : subplot_spec * nat)
  : subplot_spec * list ax_call :=
  (fst fa, nth (snd fa) st []).

Definition snapshot (s : pyplot) (fg : figure) (save_kw : kwargs) : document :=
  mkDocument (fig_kw fg) (map (resolve_axes (axes_store s)) (fig_axes fg))
             (fig_tight fg) save_kw.

Definition plt_savefig (path : string) (kw : kwargs) : M unit :=
  f <- plt_gcf ;;
  fun s => match nth_error (fig_store s) f with
           | Some fg => Ok (tt, set_files (fun fs => (path, snapshot s fg kw) :: fs) s)
           | None => Raise RuntimeError
           end.

Definition print (line : string) : M unit :=
  fun s => Ok (tt, set_stdout (fun out => out ++ [line]) s).

(** Append calls to the axes with handle [h]. *)
Definition append_calls (h : nat) (cs : list ax_call) (s : pyplot) : pyplot :=
  set_axes_store (update_at h (fun old => old ++ cs)) s.

(** Every method of an axes object records its call on that object. *)
Definition ax_emit (h : nat) (c : ax_call) : M unit :=
  fun s => if Nat.ltb h (List.length (axes_store s))
           then Ok (tt, append_calls h [c] s)
           else Raise RuntimeError.

Definition ax_text (h : nat) (x y : float) (s : text_content) (kw : kwargs) : M unit :=
  ax_emit h (Text x y s kw).

(** [ax.barh(y, width, height, left=left, **kw)]: one rectangle per entry,
    vertically centred on [y]; returns the container of rectangles.  Without
    [left] the bars start at 0. *)
Fixpoint barh_rects (y width : list float) (height : float) (left : list float)
  : list rectangle :=
  match y, width, left with
  | yi :: y', wi :: width', li :: left' =>
      mkRect li (fsub yi (fdiv height (Fin 2))) wi height
        :: barh_rects y' width' height left'
  | _, _, _ => []
  end.

Definition ax_barh (h : nat) (y width : list float) (height : float)
    (left : option (list float)) (kw : kwargs) : M (list rectangle) :=
  let left' := match left with
               | Some l => l
               | None => repeat (Fin 0) (List.length y)
               end in
  let rects := barh_rects y width height left' in
  ax_emit h (BarContainer rects kw) ;; ret rects.

Definition get_width (bar : rectangle) : float := rect_width bar.
Definition get_y (bar : rectangle) : float := rect_y bar.
Definition get_height (bar : rectangle) : float := rect_height bar.

(** [ax.plot(xs, ys, fmt, **kw)] *)
Definition ax_plot (h : nat) (xs ys : list float) (fmt : string) (kw : kwargs) : M unit :=
  ax_emit h (Line2D xs ys fmt kw).

(** [np.arange(n)] *)
Definition np_arange (n : nat) : list float := map of_nat (seq 0 n).

(** Elementwise numpy operations on arrays of one shape. *)
Fixpoint map2 {A B C} (f : A -> B -> C) (l : list A) (l' : list B) : list C :=
  match l, l' with
  | a :: t, b :: t' => f a b :: map2 f t t'
  | _, _ => []
  end.

(* ===================================================================== *)
(** ** Styling constants of the configuration section *)
(* ===================================================================== *)

Local Open Scope string_scope.

Definition OUTPUT_DIR : string := "/home/david/projects/asp_curriculum/".

Definition COLOR_POSITIVE : string := "#2C7BB6".
Definition COLOR_NEGATIVE : string := "#D7191C".
Definition COLOR_NEUTRAL : string := "#FFFFBF".
Definition COLOR_POSITIVE_LIGHT : string := "#ABD9E9".
Definition COLOR_POSITIVE_LIGHTER : string := "#D1E5F0".
Definition COLOR_NEGATIVE_LIGHT : string := "#FDAE61".
Definition COLOR_GRAY : string := "#666666".

Definition TITLE_SIZE : Z := 14.
Definition SUBTITLE_SIZE : Z := 12.
Definition LABEL_SIZE : Z := 11.
Definition TICK_SIZE : Z := 10.
Definition ANNOTATION_SIZE : Z := 9.

Definition DPI : Z := 300.

(** The newline character of the Python string escapes. *)
Definition nl : string := String (Ascii.ascii_of_nat 10) EmptyString.

(* ===================================================================== *)
(** ** Figure 1: leadership preparedness gap *)
(* ===================================================================== *)

(** Part A, the career funnel, drawn on [ax1] (lines 89 to 135). *)
Definition career_funnel (ax1 : nat) (total : Z) : M unit :=
  ax_emit ax1 (AxisMode "off") ;;
  ax_emit ax1 (SetXlim (Fin 0) (Fin 10)) ;;
  ax_emit ax1 (SetYlim (Fin 0) (Fin 10)) ;;
  ' (avg_interest, avg_career) <- lift (calculate_interest_career_stats_with total) ;;
  let gap_size := fsub avg_interest avg_career in
  ax_text ax1 (Fin 5) (Fin 9.5)
    [Lit "A. The Career Funnel: Interest vs. Leadership Placement"]
    [("fontsize", VInt TITLE_SIZE); ("fontweight", VStr "bold"); ("ha", VStr "center")] ;;
  ax_emit ax1 (FancyBboxPatch (Fin 1, Fin 5.5) (Fin 8) (Fin 2.5)
    [("boxstyle", VStr "round,pad=0.1"); ("edgecolor", VStr COLOR_POSITIVE);
     ("facecolor", VStr COLOR_POSITIVE_LIGHTER); ("linewidth", VInt 3)]) ;;
  ax_text ax1 (Fin 5) (Fin 7.2) [FmtF 0 avg_interest; Lit "%"]
    [("fontsize", VInt 48); ("ha", VStr "center"); ("fontweight", VStr "bold");
     ("color", VStr COLOR_POSITIVE)] ;;
  ax_text ax1 (Fin 5) (Fin 6.3) [Lit "of fellows interested in AS"]
    [("fontsize", VInt SUBTITLE_SIZE); ("ha", VStr "center")] ;;
  ax_text ax1 (Fin 5) (Fin 5.8) [Lit "at start of fellowship"]
    [("fontsize", VInt SUBTITLE_SIZE); ("ha", VStr "center")] ;;
  ax_emit ax1 (FancyArrowPatch (Fin 5, Fin 5.3) (Fin 5, Fin 3.7)
    [("arrowstyle", VStr "->"); ("lw", VInt 4); ("color", VStr COLOR_GRAY);
     ("mutation_scale", VInt 30)]) ;;
  ax_emit ax1 (FancyBboxPatch (Fin 2, Fin 1) (Fin 6) (Fin 2.5)
    [("boxstyle", VStr "round,pad=0.1"); ("edgecolor", VStr COLOR_NEGATIVE);
     ("facecolor", VStr COLOR_NEGATIVE_LIGHT); ("linewidth", VInt 3)]) ;;
  ax_text ax1 (Fin 5) (Fin 2.7) [FmtF 0 avg_career; Lit "%"]
    [("fontsize", VInt 48); ("ha", VStr "center"); ("fontweight", VStr "bold");
     ("color", VStr COLOR_NEGATIVE)] ;;
  ax_text ax1 (Fin 5) (Fin 1.8) [Lit "secured AS leadership"]
    [("fontsize", VInt SUBTITLE_SIZE); ("ha", VStr "center")] ;;
  ax_text ax1 (Fin 5) (Fin 1.3) [Lit "positions upon graduation"]
    [("fontsize", VInt SUBTITLE_SIZE); ("ha", VStr "center")] ;;
  ax_text ax1 (Fin 9) (Fin 4.5) [FmtF 0 gap_size; Lit ("%" ++ nl ++ "GAP")]
    [("fontsize", VInt 20); ("ha", VStr "center"); ("fontweight", VStr "bold");
     ("color", VStr COLOR_NEGATIVE);
     ("bbox", VDict [("boxstyle", VStr "round,pad=0.5"); ("facecolor", VStr "white");
                     ("edgecolor", VStr COLOR_NEGATIVE); ("linewidth", VInt 2)])].

(** One category of the satisfaction table: its label and the five bucket
    values (counts before the conversion, percentages after it). *)
Record satisfaction (num : Type) : Type := mkSatisfaction {
  category : string;
  very_satisfied : num;
  somewhat_satisfied : num;
  neither : num;
  somewhat_dissatisfied : num;
  very_dissatisfied : num
}.
Arguments mkSatisfaction {num}.
Arguments category {num}.
Arguments very_satisfied {num}.
Arguments somewhat_satisfied {num}.
Arguments neither {num}.
Arguments somewhat_dissatisfied {num}.
Arguments very_dissatisfied {num}.

(** The label loop of lines 223 to 248, for the category at index [i]. *)
Definition satisfaction_labels (ax2 : nat)
    (neither_pct somewhat_dissatisfied_pct very_dissatisfied_pct
     pos_somewhat pos_very : list float) (i : nat) : M unit :=
  n_i <- index neither_pct i ;;
  let neutral_half_i := fdiv n_i (Fin 2) in
  sd_i <- index somewhat_dissatisfied_pct i ;;
  vd_i <- index very_dissatisfied_pct i ;;
  let dissatisfied_total_i := fadd sd_i vd_i in
  when (fgtb dissatisfied_total_i (Fin 5))
    (let dissatisfied_left := fneg (fadd neutral_half_i dissatisfied_total_i) in
     let dissatisfied_center := fadd dissatisfied_left (fdiv dissatisfied_total_i (Fin 2)) in
     ax_text ax2 dissatisfied_center (of_nat i) [FmtF 0 dissatisfied_total_i; Lit "%"]
       [("ha", VStr "center"); ("va", VStr "center"); ("fontsize", VInt ANNOTATION_SIZE);
        ("fontweight", VStr "bold")]) ;;
  n_i' <- index neither_pct i ;;
  when (fgtb n_i' (Fin 5))
    (n_i'' <- index neither_pct i ;;
     ax_text ax2 (Fin 0) (of_nat i) [FmtF 0 n_i''; Lit "%"]
       [("ha", VStr "center"); ("va", VStr "center"); ("fontsize", VInt ANNOTATION_SIZE);
        ("fontweight", VStr "bold")]) ;;
  ps_i <- index pos_somewhat i ;;
  pv_i <- index pos_very i ;;
  let satisfied_total_i := fadd ps_i pv_i in
  when (fgtb satisfied_total_i (Fin 5))
    (let satisfied_center := fadd neutral_half_i (fdiv satisfied_total_i (Fin 2)) in
     ax_text ax2 satisfied_center (of_nat i) [FmtF 0 satisfied_total_i; Lit "%"]
       [("ha", VStr "center"); ("va", VStr "center"); ("fontsize", VInt ANNOTATION_SIZE);
        ("fontweight", VStr "bold")]).

(** Part B from line 160 on: the diverging layout of the five percentage
    columns, drawn on [ax2]. *)
Definition diverging_layout (ax2 : nat) (rows : list (satisfaction float)) : M unit :=
  let categories := map category rows in
  let very_satisfied_pct := map very_satisfied rows in
  let somewhat_satisfied_pct := map somewhat_satisfied rows in
  let neither_pct := map neither rows in
  let somewhat_dissatisfied_pct := map somewhat_dissatisfied rows in
  let very_dissatisfied_pct := map very_dissatisfied rows in
  let y_pos := np_arange (List.length categories) in
  let bar_height := Fin 0.6 in
  let neg_very := map fneg very_dissatisfied_pct in
  let neg_somewhat := map fneg somewhat_dissatisfied_pct in
  let pos_somewhat := somewhat_satisfied_pct in
  let pos_very := very_satisfied_pct in
  let neutral_half := map (fun x => fdiv x (Fin 2)) neither_pct in
  let dissatisfied_total := map2 fadd somewhat_dissatisfied_pct very_dissatisfied_pct in
  let very_dissatisfied_start := map fneg (map2 fadd neutral_half dissatisfied_total) in
  _ <- ax_barh ax2 y_pos very_dissatisfied_pct bar_height (Some very_dissatisfied_start)
    [("label", VStr "Very Dissatisfied"); ("color", VStr COLOR_NEGATIVE);
     ("edgecolor", VStr "black"); ("linewidth", VNum (Fin 0.5))] ;;
  let somewhat_dissatisfied_start := map2 fadd very_dissatisfied_start very_dissatisfied_pct in
  _ <- ax_barh ax2 y_pos somewhat_dissatisfied_pct bar_height (Some somewhat_dissatisfied_start)
    [("label", VStr "Somewhat Dissatisfied"); ("color", VStr COLOR_NEGATIVE_LIGHT);
     ("edgecolor", VStr "black"); ("linewidth", VNum (Fin 0.5))] ;;
  _ <- ax_barh ax2 y_pos neither_pct bar_height (Some (map fneg neutral_half))
    [("label", VStr "Neither"); ("color", VStr COLOR_NEUTRAL);
     ("edgecolor", VStr "black"); ("linewidth", VNum (Fin 0.5))] ;;
  _ <- ax_barh ax2 y_pos pos_somewhat bar_height (Some neutral_half)
    [("label", VStr "Somewhat Satisfied"); ("color", VStr COLOR_POSITIVE_LIGHT);
     ("edgecolor", VStr "black"); ("linewidth", VNum (Fin 0.5))] ;;
  _ <- ax_barh ax2 y_pos pos_very bar_height (Some (map2 fadd neutral_half pos_somewhat))
    [("label", VStr "Very Satisfied"); ("color", VStr COLOR_POSITIVE);
     ("edgecolor", VStr "black"); ("linewidth", VNum (Fin 0.5))] ;;
  ax_emit ax2 (SetYticks y_pos) ;;
  ax_emit ax2 (SetYticklabels categories [("fontsize", VInt TICK_SIZE)]) ;;
  ax_emit ax2 (AxVLine [("x", VInt 0); ("color", VStr "black"); ("linestyle", VStr "-");
                        ("linewidth", VInt 2)]) ;;
  ax_emit ax2 (SetXlabel "Percentage (%)"
                 [("fontsize", VInt LABEL_SIZE); ("fontweight", VStr "bold")]) ;;
  ax_emit ax2 (SetTitle "B. The Satisfaction Gap: Preparedness Across Competency Levels"
                 [("fontsize", VInt TITLE_SIZE); ("fontweight", VStr "bold"); ("pad", VInt 15)]) ;;
  ax_emit ax2 (SetXlim (Fin (-60)) (Fin 100)) ;;
  ax_emit ax2 (TickParams [("labelsize", VInt TICK_SIZE)]) ;;
  ax_emit ax2 (Legend
    [LPatch [("facecolor", VStr COLOR_NEGATIVE); ("label", VStr "Very Dissatisfied")];
     LPatch [("facecolor", VStr COLOR_NEGATIVE_LIGHT); ("label", VStr "Somewhat Dissatisfied")];
     LPatch [("facecolor", VStr COLOR_NEUTRAL); ("label", VStr "Neither")];
     LPatch [("facecolor", VStr COLOR_POSITIVE_LIGHT); ("label", VStr "Somewhat Satisfied")];
     LPatch [("facecolor", VStr COLOR_POSITIVE); ("label", VStr "Very Satisfied")]]
    [("loc", VStr "lower left"); ("frameon", VBool true); ("fontsize", VInt ANNOTATION_SIZE)]) ;;
  for_ (seq 0 (List.length categories))
    (satisfaction_labels ax2 neither_pct somewhat_dissatisfied_pct very_dissatisfied_pct
       pos_somewhat pos_very).

(** Lines 154 to 158: counts to percentages of the sample size. *)
Definition to_percentages (total : Z) (r : satisfaction Z) : satisfaction float :=
  mkSatisfaction (category r)
    (percentage_of_total (very_satisfied r) total)
    (percentage_of_total (somewhat_satisfied r) total)
    (percentage_of_total (neither r) total)
    (percentage_of_total (somewhat_dissatisfied r) total)
    (percentage_of_total (very_dissatisfied r) total).

Definition figure1_path : string := OUTPUT_DIR ++ "Figure1_Leadership_Gap.pdf".

(** [create_figure1], with the sample size and the satisfaction table that
    the source writes as literals taken as arguments. *)
Definition create_figure1_with (total : Z) (counts : list (satisfaction Z)) : M unit :=
  _ <- plt_figure [("figsize", VTuple [VInt 12; VInt 8])] ;;
  ax1 <- plt_subplot 2 1 1 ;;
  career_funnel ax1 total ;;
  ax2 <- plt_subplot 2 1 2 ;;
  diverging_layout ax2 (map (to_percentages total) counts) ;;
  plt_tight_layout ;;
  plt_savefig figure1_path [("dpi", VInt DPI); ("bbox_inches", VStr "tight")] ;;
  print "✓ Figure 1 created: Leadership Preparedness Gap".

(** The satisfaction table of lines 141 to 151. *)
Definition satisfaction_counts : list (satisfaction Z) :=
  [ mkSatisfaction ("General education/" ++ nl ++ "background knowledge") 9 14 1 2 1;
    mkSatisfaction ("Ability to use AS in" ++ nl ++ "clinical practice") 10 15 0 2 0;
    mkSatisfaction ("Ability to assume a" ++ nl ++ "leadership role in AS") 3 12 8 3 1 ]%Z.

Definition create_figure1 : M unit :=
  create_figure1_with TOTAL_PROGRAMS satisfaction_counts.

(* ===================================================================== *)
(** ** Sorting: [np.argsort] *)
(* ===================================================================== *)

Definition is_nan (x : float) : bool :=
  match x with NaN => true | _ => false end.

(** The order numpy sorts floats by: [<], with nan after everything else. *)
Definition sort_ltb (x y : float) : bool :=
  fltb x y || (is_nan y && negb (is_nan x)).

(** [a[i]] for an index known to be in range. *)
Definition at_index (a : list float) (i : nat) : float := nth i a NaN.

(** What the script relies on from [np.argsort(a)]: a function returning the
    indices of [a], each once, in an order in which the values ascend.
    numpy's default kind does not promise an order among equal values. *)
Class Argsort : Type := {
  np_argsort : list float -> list nat;
  np_argsort_perm : forall a, Permutation (np_argsort a) (seq 0 (List.length a));
  np_argsort_sorted : forall a,
    StronglySorted (fun i j => sort_ltb (at_index a j) (at_index a i) = false)
                   (np_argsort a)
}.

(** One function with that contract, insertion sort on indices: each index
    in turn moves left past the indices whose value is strictly greater.  It
    keeps equal values in input order, which the contract does not ask for
    and which numpy's default kind does not promise. *)
Fixpoint insert_index (a : list float) (i : nat) (sorted : list nat) : list nat :=
  match sorted with
  | [] => [i]
  | j :: t => if sort_ltb (at_index a i) (at_index a j)
              then i :: j :: t
              else j :: insert_index a i t
  end.

Definition insertion_argsort (a : list float) : list nat :=
  fold_left (fun sorted i => insert_index a i sorted) (seq 0 (List.length a)) [].

(* ===================================================================== *)
(** ** Figure 2: dumbbell plot for ASP interventions *)
(* ===================================================================== *)

Record intervention : Type := mkIntervention {
  intervention_name : string;
  with_curriculum : float;
  without_curriculum : float
}.

Section Figures23.

Context {numpy_sort : Argsort}.

(** Lines 279 to 330: ordering by gap, the dumbbells, the formatting and the
    gap annotations, drawn on [ax]. *)
Definition dumbbell_layout (ax : nat) (rows : list intervention) : M unit :=
  let interventions := map intervention_name rows in
  let with_curriculum := map with_curriculum rows in
  let without_curriculum := map without_curriculum rows in
  let gaps := map fabs (map2 fsub with_curriculum without_curriculum) in
  let sorted_indices := rev (np_argsort gaps) in
  interventions_sorted <- take interventions sorted_indices ;;
  with_sorted <- take with_curriculum sorted_indices ;;
  without_sorted <- take without_curriculum sorted_indices ;;
  gaps_sorted <- take gaps sorted_indices ;;
  let y_pos := np_arange (List.length interventions_sorted) in
  for_ (seq 0 (List.length interventions_sorted)) (fun i =>
    wo_i <- index without_sorted i ;;
    w_i <- index with_sorted i ;;
    ax_plot ax [wo_i; w_i] [of_nat i; of_nat i] "o-"
      [("color", VStr COLOR_GRAY); ("linewidth", VInt 2); ("markersize", VInt 10);
       ("markerfacecolor", VStr "white"); ("markeredgewidth", VInt 2)] ;;
    w_i' <- index with_sorted i ;;
    ax_plot ax [w_i'] [of_nat i] "o"
      [("markersize", VInt 12); ("color", VStr COLOR_POSITIVE); ("zorder", VInt 3)] ;;
    wo_i' <- index without_sorted i ;;
    ax_plot ax [wo_i'] [of_nat i] "o"
      [("markersize", VInt 12); ("color", VStr COLOR_NEGATIVE); ("zorder", VInt 3)]) ;;
  ax_emit ax (SetYticks y_pos) ;;
  ax_emit ax (SetYticklabels interventions_sorted [("fontsize", VInt TICK_SIZE)]) ;;
  ax_emit ax (SetXlabel "Percentage of Fellows Participating (%)"
                [("fontsize", VInt LABEL_SIZE); ("fontweight", VStr "bold")]) ;;
  ax_emit ax (SetTitle ("Impact of a Formal Curriculum on Fellow Participation" ++ nl
                          ++ "in AS Interventions")
                [("fontsize", VInt TITLE_SIZE); ("fontweight", VStr "bold"); ("pad", VInt 20)]) ;;
  ax_emit ax (SetXlim (Fin (-5)) (Fin 85)) ;;
  ax_emit ax (Grid [("axis", VStr "x"); ("alpha", VNum (Fin 0.3)); ("linestyle", VStr "--")]) ;;
  ax_emit ax (SetAxisBelow true) ;;
  ax_emit ax (TickParams [("labelsize", VInt TICK_SIZE)]) ;;
  ax_emit ax (Legend
    [LLine2D [Fin 0] [Fin 0]
       [("marker", VStr "o"); ("color", VStr "w"); ("label", VStr "With Formal Curriculum");
        ("markerfacecolor", VStr COLOR_POSITIVE); ("markersize", VInt 10)];
     LLine2D [Fin 0] [Fin 0]
       [("marker", VStr "o"); ("color", VStr "w"); ("label", VStr "Without Formal Curriculum");
        ("markerfacecolor", VStr COLOR_NEGATIVE); ("markersize", VInt 10)]]
    [("loc", VStr "upper left"); ("frameon", VBool true); ("fontsize", VInt TICK_SIZE)]) ;;
  for_ (seq 0 (List.length interventions_sorted)) (fun i =>
    gap <- index gaps_sorted i ;;
    w_i <- index with_sorted i ;;
    wo_i <- index without_sorted i ;;
    let mid_point := fdiv (fadd w_i wo_i) (Fin 2) in
    ax_text ax mid_point (fadd (of_nat i) (Fin 0.35)) [Lit "Δ"; FmtF 1 gap; Lit "%"]
      [("ha", VStr "center"); ("fontsize", VInt ANNOTATION_SIZE); ("style", VStr "italic")]).

Definition figure2_path : string := OUTPUT_DIR ++ "Figure2_ASP_Interventions_Dumbbell.pdf".

Definition create_figure2_with (rows : list intervention) : M unit :=
  ' (_, ax) <- plt_subplots [("figsize", VTuple [VInt 10; VInt 8])] ;;
  dumbbell_layout ax rows ;;
  plt_tight_layout ;;
  plt_savefig figure2_path [("dpi", VInt DPI); ("bbox_inches", VStr "tight")] ;;
  print "✓ Figure 2 created: ASP Interventions Dumbbell Plot".

(** The table of lines 265 to 277. *)
Definition interventions_data : list intervention :=
  [ mkIntervention "Education of residents/faculty" (Fin 76.47) (Fin 50);
    mkIntervention "Antibiotic Approval" (Fin 70.59) (Fin 60);
    mkIntervention "Guideline Creation" (Fin 58.82) (Fin 60);
    mkIntervention "Audit and Feedback" (Fin 58.82) (Fin 50);
    mkIntervention "Handshake Rounds" (Fin 52.94) (Fin 50);
    mkIntervention "Antibiotic Allergy Assessment" (Fin 35.29) (Fin 30);
    mkIntervention "Antibiotic Timeout" (Fin 17.65) (Fin 0);
    mkIntervention "None of the above" (Fin 5.88) (Fin 10) ].

Definition create_figure2 : M unit := create_figure2_with interventions_data.

(* ===================================================================== *)
(** ** Figure 3: barriers to education *)
(* ===================================================================== *)

Definition figure3_path : string := OUTPUT_DIR ++ "Figure3_Barriers.pdf".
Definition figure3_red_path : string := OUTPUT_DIR ++ "Figure3_Barriers_Red.pdf".

(** [create_figure3] (lines 341 to 390), with the two literal columns as
    one table of (barrier, percentage) rows. *)
Definition create_figure3_with (rows : list (string * float)) : M unit :=
  ' (_, ax) <- plt_subplots [("figsize", VTuple [VInt 10; VInt 6])] ;;
  let barriers := map fst rows in
  let percentages := map snd rows in
  let sorted_indices := np_argsort percentages in
  barriers_sorted <- take barriers sorted_indices ;;
  percentages_sorted <- take percentages sorted_indices ;;
  let y_pos := np_arange (List.length barriers_sorted) in
  bars <- ax_barh ax y_pos percentages_sorted (Fin 0.7) None
    [("color", VStr COLOR_POSITIVE); ("edgecolor", VStr "black");
     ("linewidth", VNum (Fin 1.2))] ;;
  ax_emit ax (SetYticks y_pos) ;;
  ax_emit ax (SetYticklabels barriers_sorted [("fontsize", VInt TICK_SIZE)]) ;;
  ax_emit ax (SetXlabel "Percentage of Programs Reporting Barrier (%)"
                [("fontsize", VInt LABEL_SIZE); ("fontweight", VStr "bold")]) ;;
  ax_emit ax (SetTitle ("Limited Educator Time is the Primary Barrier" ++ nl
                          ++ "to AS Education")
                [("fontsize", VInt TITLE_SIZE); ("fontweight", VStr "bold"); ("pad", VInt 20)]) ;;
  ax_emit ax (SetXlim (Fin 0) (Fin 55)) ;;
  ax_emit ax (Grid [("axis", VStr "x"); ("alpha", VNum (Fin 0.3)); ("linestyle", VStr "--")]) ;;
  ax_emit ax (SetAxisBelow true) ;;
  ax_emit ax (TickParams [("labelsize", VInt TICK_SIZE)]) ;;
  for_ (zip bars percentages_sorted) (fun bar_pct =>
    let bar := fst bar_pct in
    let pct := snd bar_pct in
    let width := get_width bar in
    ax_text ax (fadd width (Fin 1.5)) (fadd (get_y bar) (fdiv (get_height bar) (Fin 2)))
      [FmtF 1 pct; Lit "%"]
      [("ha", VStr "left"); ("va", VStr "center"); ("fontsize", VInt TICK_SIZE);
       ("fontweight", VStr "bold")]) ;;
  plt_tight_layout ;;
  plt_savefig figure3_path [("dpi", VInt DPI); ("bbox_inches", VStr "tight")] ;;
  print "✓ Figure 3 created: Barriers to Education".

(** [create_figure3_red] (lines 392 to 441). *)
Definition create_figure3_red_with (rows : list (string * float)) : M unit :=
  ' (_, ax) <- plt_subplots [("figsize", VTuple [VInt 10; VInt 6])] ;;
  let barriers := map fst rows in
  let percentages := map snd rows in
  let sorted_indices := np_argsort percentages in
  barriers_sorted <- take barriers sorted_indices ;;
  percentages_sorted <- take percentages sorted_indices ;;
  let y_pos := np_arange (List.length barriers_sorted) in
  bars <- ax_barh ax y_pos percentages_sorted (Fin 0.7) None
    [("color", VStr COLOR_NEGATIVE); ("edgecolor", VStr "black");
     ("linewidth", VNum (Fin 1.2))] ;;
  ax_emit ax (SetYticks y_pos) ;;
  ax_emit ax (SetYticklabels barriers_sorted [("fontsize", VInt TICK_SIZE)]) ;;
  ax_emit ax (SetXlabel "Percentage of Programs Reporting Barrier (%)"
                [("fontsize", VInt LABEL_SIZE); ("fontweight", VStr "bold")]) ;;
  ax_emit ax (SetTitle ("Limited Educator Time is the Primary Barrier" ++ nl
                          ++ "to AS Education")
                [("fontsize", VInt TITLE_SIZE); ("fontweight", VStr "bold"); ("pad", VInt 20)]) ;;
  ax_emit ax (SetXlim (Fin 0) (Fin 55)) ;;
  ax_emit ax (Grid [("axis", VStr "x"); ("alpha", VNum (Fin 0.3)); ("linestyle", VStr "--")]) ;;
  ax_emit ax (SetAxisBelow true) ;;
  ax_emit ax (TickParams [("labelsize", VInt TICK_SIZE)]) ;;
  for_ (zip bars percentages_sorted) (fun bar_pct =>
    let bar := fst bar_pct in
    let pct := snd bar_pct in
    let width := get_width bar in
    ax_text ax (fadd width (Fin 1.5)) (fadd (get_y bar) (fdiv (get_height bar) (Fin 2)))
      [FmtF 1 pct; Lit "%"]
      [("ha", VStr "left"); ("va", VStr "center"); ("fontsize", VInt TICK_SIZE);
       ("fontweight", VStr "bold")]) ;;
  plt_tight_layout ;;
  plt_savefig figure3_red_path [("dpi", VInt DPI); ("bbox_inches", VStr "tight")] ;;
  print "✓ Figure 3 (Red version) created: Barriers to Education".

(** The table of lines 347 to 356. *)
Definition barriers_data : list (string * float) :=
  [ ("Lack of educator time", Fin 44.44);
    ("Lack of materials", Fin 33.33);
    ("None of the above", Fin 22.22);
    ("Lack of AS projects", Fin 14.81);
    ("Lack of time from fellow", Fin 18.52);
    ("Lack of AS interventions", Fin 7.41) ].

(** The table of lines 398 to 407. *)
Definition barriers_data_red : list (string * float) :=
  [ ("Lack of educator time", Fin 44.44);
    ("Lack of materials", Fin 33.33);
    ("None of the above", Fin 22.22);
    ("Lack of AS projects", Fin 14.81);
    ("Lack of time from fellow", Fin 18.52);
    ("Lack of AS interventions", Fin 7.41) ].

Definition create_figure3 : M unit := create_figure3_with barriers_data.
Definition create_figure3_red : M unit := create_figure3_red_with barriers_data_red.

End Figures23.

Local Close Scope string_scope.
Local Close Scope py_scope.

(* ===================================================================== *)
(** * Properties *)
(* ===================================================================== *)

(** ** Arithmetic on finite values *)

Lemma feq_refl (x : float) : feq x x.
Proof. destruct x; simpl; auto. reflexivity. Qed.

Lemma feq_sym (x y : float) : feq x y -> feq y x.
Proof. destruct x, y; simpl; auto. intros H; symmetry; exact H. Qed.

Lemma feq_trans (x y z : float) : feq x y -> feq y z -> feq x z.
Proof.
  destruct x, y, z; simpl; auto; try contradiction.
  intros H1 H2; rewrite H1; exact H2.
Qed.

Lemma Qeq_bool_false_iff (a b : Q) : Qeq_bool a b = false <-> ~ a == b.
Proof.
  split.
  - intros H E. apply Qeq_bool_iff in E. congruence.
  - intros H. destruct (Qeq_bool a b) eqn:E; auto.
    apply Qeq_bool_iff in E. contradiction.
Qed.

Lemma inject_Z_nonzero (n : Z) : n <> 0%Z -> Qeq_bool (inject_Z n) 0 = false.
Proof.
  intros H. apply Qeq_bool_false_iff. intros E.
  apply H. unfold Qeq in E. simpl in E. lia.
Qed.

Lemma fltb_Fin (a b : Q) : fltb (Fin a) (Fin b) = true <-> a < b.
Proof.
  simpl. rewrite negb_true_iff. split.
  - intros H. apply Qnot_le_lt. intros L. apply Qle_bool_iff in L. congruence.
  - intros H. destruct (Qle_bool b a) eqn:E; auto.
    apply Qle_bool_iff in E. apply Qle_not_lt in E. contradiction.
Qed.

Lemma fltb_Fin_false (a b : Q) : fltb (Fin a) (Fin b) = false <-> b <= a.
Proof.
  simpl. rewrite negb_false_iff. apply Qle_bool_iff.
Qed.

Lemma fgtb_Fin (a b : Q) : fgtb (Fin a) (Fin b) = true <-> b < a.
Proof. unfold fgtb. apply fltb_Fin. Qed.

(** ** The weighted midpoint average *)

(** The sum the contract names, [Σ counts[i] * midpoints[i]], over the pairs
    that exist in both sequences. *)
Fixpoint sum_products (counts : list Z) (mids : list Q) : Q :=
  match counts, mids with
  | c :: cs, m :: ms => inject_Z c * m + sum_products cs ms
  | _, _ => 0
  end.

Lemma py_sum_products_acc (mids : list Q) (counts : list Z) (acc : Q) :
  exists v,
    fold_left fadd
      (map (fun mc => fmul (fst mc) (of_Z (snd mc))) (zip (map Fin mids) counts))
      (Fin acc) = Fin v
    /\ v == acc + sum_products counts mids.
Proof.
  revert counts acc. induction mids as [|m ms IH]; intros counts acc.
  - simpl. exists acc. split; [reflexivity|]. destruct counts; simpl; ring.
  - destruct counts as [|c cs].
    + simpl. exists acc. split; [reflexivity | ring].
    + simpl. destruct (IH cs (acc + m * inject_Z c)) as [v [Hv Ev]].
      exists v. split; [exact Hv|]. rewrite Ev. ring.
Qed.

Lemma py_sum_products (mids : list Q) (counts : list Z) :
  exists v,
    py_sum (map (fun mc => fmul (fst mc) (of_Z (snd mc))) (zip (map Fin mids) counts)) = Fin v
    /\ v == sum_products counts mids.
Proof.
  destruct (py_sum_products_acc mids counts 0) as [v [Hv Ev]].
  exists v. split; [exact Hv|]. rewrite Ev. ring.
Qed.

Lemma weighted_midpoint_average_value (mids : list Q) (counts : list Z) (n : Z) :
  n <> 0%Z ->
  exists v,
    weighted_midpoint_average (map Fin mids) counts n = Ok (Fin v)
    /\ v == sum_products counts mids / inject_Z n.
Proof.
  intros Hn. unfold weighted_midpoint_average.
  destruct (py_sum_products mids counts) as [v [Hv Ev]].
  rewrite Hv. unfold py_truediv, of_Z. simpl.
  rewrite (inject_Z_nonzero n Hn).
  exists (v / inject_Z n). split; [reflexivity|]. rewrite Ev. reflexivity.
Qed.

Lemma weighted_midpoint_average_zero (mids : list float) (counts : list Z) :
  weighted_midpoint_average mids counts 0 = Raise ZeroDivisionError.
Proof. reflexivity. Qed.

Lemma sum_products_firstn (counts : list Z) (mids : list Q) :
  sum_products counts mids
  = sum_products (firstn (Nat.min (List.length counts) (List.length mids)) counts)
                 (firstn (Nat.min (List.length counts) (List.length mids)) mids).
Proof.
  revert mids. induction counts as [|c cs IH]; intros [|m ms]; simpl; auto.
  f_equal. apply IH.
Qed.

(** C4. For non-negative integer counts, midpoints of the same length and a
    positive sample size, the weighted average returns a value, and the value
    is exactly [Σ counts[i] * midpoints[i] / sample_size]; for the midpoints
    (12.5, 37.5, 62.5, 87.5), the interest counts (11, 10, 5, 1) and sample
    size 27 it returns (11*12.5 + 10*37.5 + 5*62.5 + 1*87.5)/27. *)
Theorem weighted_midpoint_average_contract :
  (forall (counts : list Z) (mids : list Q) (sample_size : Z),
      Forall (fun c => (0 <= c)%Z) counts ->
      List.length counts = List.length mids ->
      (0 < sample_size)%Z ->
      exists v,
        weighted_midpoint_average (map Fin mids) counts sample_size = Ok (Fin v)
        /\ v == sum_products counts mids / inject_Z sample_size)
  /\ exists v,
       weighted_midpoint_average midpoints interest_counts TOTAL_PROGRAMS = Ok (Fin v)
       /\ v == (11 * 12.5 + 10 * 37.5 + 5 * 62.5 + 1 * 87.5) / 27.
Proof.
  split.
  - intros counts mids n _ _ Hn.
    apply weighted_midpoint_average_value. lia.
  - eexists. split; [reflexivity|]. vm_compute. reflexivity.
Qed.

Lemma weighted_midpoint_average_contract_witness :
  exists v,
    weighted_midpoint_average (map Fin [12.5; 37.5; 62.5; 87.5]) [20; 4; 3; 0]%Z 27
    = Ok (Fin v)
    /\ v == sum_products [20; 4; 3; 0]%Z [12.5; 37.5; 62.5; 87.5] / inject_Z 27.
Proof.
  apply (proj1 weighted_midpoint_average_contract).
  - repeat constructor; lia.
  - reflexivity.
  - lia.
Defined.

(** C5, as the code has it.  The pairing is [zip]'s: when the two sequences
    differ in length the average is taken over the pairs up to the end of the
    shorter one, and no [InvalidInputError] is raised, for any input. *)
Theorem weighted_midpoint_average_truncates :
  forall (counts : list Z) (mids : list Q) (sample_size : Z),
    List.length counts <> List.length mids ->
    (0 < sample_size)%Z ->
    let k := Nat.min (List.length counts) (List.length mids) in
    weighted_midpoint_average (map Fin mids) counts sample_size
      <> Raise InvalidInputError
    /\ exists v,
         weighted_midpoint_average (map Fin mids) counts sample_size = Ok (Fin v)
         /\ v == sum_products (firstn k counts) (firstn k mids) / inject_Z sample_size.
Proof.
  intros counts mids n _ Hn k.
  destruct (weighted_midpoint_average_value mids counts n) as [v [Hv Ev]]; [lia|].
  split.
  - rewrite Hv. discriminate.
  - exists v. split; [exact Hv|]. rewrite Ev.
    unfold k. rewrite <- sum_products_firstn. reflexivity.
Qed.

Lemma weighted_midpoint_average_truncates_witness :
  weighted_midpoint_average (map Fin [12.5; 37.5; 62.5; 87.5]) [11; 10; 5]%Z 27
    <> Raise InvalidInputError
  /\ exists v,
       weighted_midpoint_average (map Fin [12.5; 37.5; 62.5; 87.5]) [11; 10; 5]%Z 27
       = Ok (Fin v)
       /\ v == sum_products (firstn 3 [11; 10; 5]%Z) (firstn 3 [12.5; 37.5; 62.5; 87.5])
               / inject_Z 27.
Proof.
  apply (weighted_midpoint_average_truncates [11; 10; 5]%Z [12.5; 37.5; 62.5; 87.5] 27).
  - simpl. lia.
  - lia.
Defined.

(** Four midpoints against three counts: the lengths differ and the call
    returns the average over the first three pairs, 825/27. *)
Lemma weighted_midpoint_average_mismatch_returns :
  List.length midpoints <> List.length [11; 10; 5]%Z
  /\ exists v,
       weighted_midpoint_average midpoints [11; 10; 5]%Z 27 = Ok (Fin v)
       /\ v == 825 / 27
       /\ weighted_midpoint_average midpoints [11; 10; 5]%Z 27 <> Raise InvalidInputError.
Proof.
  split; [simpl; lia|].
  eexists. split; [reflexivity|]. split; [vm_compute; reflexivity | discriminate].
Qed.

(** ** Division by a zero sample size *)

Lemma percentage_of_total_zero (count : Z) :
  percentage_of_total count 0
  = match Z.compare count 0 with
    | Gt => PInf
    | Lt => NInf
    | Eq => NaN
    end.
Proof.
  unfold percentage_of_total, of_Z. simpl.
  unfold Qsign_inf. unfold Qcompare. simpl. rewrite Z.mul_1_r.
  destruct (Z.compare count 0); reflexivity.
Qed.

(** C6, as the code has it.  With a zero sample size the weighted average
    raises [ZeroDivisionError] whatever the counts are; the conversion to
    percentages is numpy's array division, which raises nothing: it yields
    +inf for a positive count, nan for a zero count and -inf for a negative
    one. *)
Theorem zero_sample_size :
  (forall (mids : list float) (counts : list Z),
      weighted_midpoint_average mids counts 0 = Raise ZeroDivisionError)
  /\ (forall count : Z,
        percentage_of_total count 0
        = match Z.compare count 0 with
          | Gt => PInf
          | Lt => NInf
          | Eq => NaN
          end)
  /\ (forall (counts : list Z),
        List.length (np_percentage counts 0) = List.length counts
        /\ Forall (fun x => is_finite x = false) (np_percentage counts 0)).
Proof.
  split; [|split].
  - intros. apply weighted_midpoint_average_zero.
  - apply percentage_of_total_zero.
  - intros counts. unfold np_percentage. split; [apply length_map|].
    apply Forall_forall. intros x Hx. apply in_map_iff in Hx.
    destruct Hx as [c [Hc _]]. subst x. rewrite percentage_of_total_zero.
    destruct (Z.compare c 0); reflexivity.
Qed.

(** The count 9 over a zero total: the conversion returns +inf, a value. *)
Lemma percentage_of_total_zero_returns :
  percentage_of_total 9 0 = PInf
  /\ np_percentage [9; 10; 3]%Z 0 = [PInf; PInf; PInf]
  /\ np_percentage [1; 0; 8]%Z 0 = [PInf; NaN; PInf].
Proof. repeat split. Qed.

(** ** Drawing on an axes object *)

Lemma update_at_length {A} (i : nat) (f : A -> A) (l : list A) :
  List.length (update_at i f l) = List.length l.
Proof.
  revert i. induction l as [|a t IH]; intros [|i]; simpl; auto.
Qed.

Lemma update_at_compose {A} (i : nat) (f g : A -> A) (l : list A) :
  update_at i g (update_at i f l) = update_at i (fun a => g (f a)) l.
Proof.
  revert i. induction l as [|a t IH]; intros [|i]; simpl; auto.
  f_equal. apply IH.
Qed.

Lemma update_at_ext {A} (i : nat) (f g : A -> A) (l : list A) :
  (forall a, f a = g a) -> update_at i f l = update_at i g l.
Proof.
  intros E. revert i. induction l as [|a t IH]; intros [|i]; simpl; auto.
  - f_equal. apply E.
  - f_equal. apply IH.
Qed.

Lemma update_at_id {A} (i : nat) (f : A -> A) (l : list A) :
  (forall a, f a = a) -> update_at i f l = l.
Proof.
  intros E. revert i. induction l as [|a t IH]; intros [|i]; simpl; auto.
  - f_equal. apply E.
  - f_equal. apply IH.
Qed.

Lemma update_at_app_length {A} (f : A -> A) (l : list A) (x : A) (r : list A) :
  update_at (List.length l) f (l ++ x :: r) = l ++ f x :: r.
Proof. induction l as [|a t IH]; simpl; auto. f_equal. exact IH. Qed.

Lemma nth_error_app_length {A} (l : list A) (x : A) (r : list A) :
  nth_error (l ++ x :: r) (List.length l) = Some x.
Proof. induction l as [|a t IH]; simpl; auto. Qed.

Lemma nth_app_length {A} (l : list A) (x : A) (r : list A) (d : A) :
  nth (List.length l) (l ++ x :: r) d = x.
Proof. induction l as [|a t IH]; simpl; auto. Qed.

(** The handle [h] names an axes object of the state. *)
Definition valid_ax (h : nat) (s : pyplot) : Prop :=
  (h < List.length (axes_store s))%nat.

(** [m] returns [a] and its only effect is to append the calls [cs] to the
    axes [h], from every state in which [h] is an axes object. *)
Definition draws {A} (h : nat) (m : M A) (a : A) (cs : list ax_call) : Prop :=
  forall s, valid_ax h s -> m s = Ok (a, append_calls h cs s).

Lemma append_calls_nil (h : nat) (s : pyplot) : append_calls h [] s = s.
Proof.
  destruct s as [st fs g fl out]. unfold append_calls, set_axes_store. simpl.
  f_equal. apply update_at_id. intros a. apply app_nil_r.
Qed.

Lemma append_calls_app (h : nat) (cs1 cs2 : list ax_call) (s : pyplot) :
  append_calls h cs2 (append_calls h cs1 s) = append_calls h (cs1 ++ cs2) s.
Proof.
  unfold append_calls, set_axes_store. simpl. f_equal.
  rewrite update_at_compose. apply update_at_ext. intros a. symmetry. apply app_assoc.
Qed.

Lemma valid_ax_append (h h' : nat) (cs : list ax_call) (s : pyplot) :
  valid_ax h s -> valid_ax h (append_calls h' cs s).
Proof.
  unfold valid_ax, append_calls, set_axes_store. simpl.
  rewrite update_at_length. auto.
Qed.

Lemma draws_ret {A} (h : nat) (a : A) : draws h (ret a) a [].
Proof. intros s _. unfold ret. rewrite append_calls_nil. reflexivity. Qed.

Lemma draws_bind {A B} (h : nat) (m : M A) (k : A -> M B) a b cs1 cs2 :
  draws h m a cs1 -> draws h (k a) b cs2 -> draws h (bind m k) b (cs1 ++ cs2).
Proof.
  intros Hm Hk s Hs. unfold bind. rewrite (Hm s Hs).
  rewrite (Hk _ (valid_ax_append h h cs1 s Hs)).
  rewrite append_calls_app. reflexivity.
Qed.

Lemma draws_emit (h : nat) (c : ax_call) : draws h (ax_emit h c) tt [c].
Proof.
  intros s Hs. unfold ax_emit. unfold valid_ax in Hs.
  apply Nat.ltb_lt in Hs. rewrite Hs. reflexivity.
Qed.

Lemma draws_text (h : nat) x y t kw : draws h (ax_text h x y t kw) tt [Text x y t kw].
Proof. apply draws_emit. Qed.

Lemma draws_plot (h : nat) xs ys fmt kw :
  draws h (ax_plot h xs ys fmt kw) tt [Line2D xs ys fmt kw].
Proof. apply draws_emit. Qed.

Lemma draws_barh (h : nat) y w ht left kw :
  draws h (ax_barh h y w ht left kw)
    (barh_rects y w ht
       (match left with Some l => l | None => repeat (Fin 0) (List.length y) end))
    [BarContainer
       (barh_rects y w ht
          (match left with Some l => l | None => repeat (Fin 0) (List.length y) end)) kw].
Proof.
  unfold ax_barh.
  rewrite <- (app_nil_r [BarContainer _ kw]).
  eapply draws_bind; [apply draws_emit | apply draws_ret].
Qed.

Lemma draws_lift {A} (h : nat) (r : result A) (a : A) :
  r = Ok a -> draws h (lift r) a [].
Proof. intros -> s _. unfold lift. rewrite append_calls_nil. reflexivity. Qed.

Lemma draws_index {A} (h : nat) (l : list A) (i : nat) (x : A) :
  nth_error l i = Some x -> draws h (index l i) x [].
Proof. intros E. unfold index. rewrite E. apply draws_ret. Qed.

Lemma draws_when (h : nat) (b : bool) (m : M unit) (cs : list ax_call) :
  (b = true -> draws h m tt cs) ->
  draws h (when b m) tt (if b then cs else []).
Proof.
  intros H. unfold when. destruct b; [apply H; reflexivity | apply draws_ret].
Qed.

Lemma draws_for {A} (h : nat) (l : list A) (body : A -> M unit)
    (g : A -> list ax_call) :
  (forall x, In x l -> draws h (body x) tt (g x)) ->
  draws h (for_ l body) tt (flat_map g l).
Proof.
  induction l as [|x t IH]; intros H; simpl.
  - apply draws_ret.
  - eapply draws_bind.
    + apply H. left; reflexivity.
    + apply IH. intros y Hy. apply H. right; exact Hy.
Qed.

(** Indexing by an index array whose entries are in range. *)
Lemma draws_take {A} (h : nat) (a : list A) (idx : list nat) (d : A) :
  Forall (fun i => (i < List.length a)%nat) idx ->
  draws h (take a idx) (map (fun i => nth i a d) idx) [].
Proof.
  induction idx as [|i t IH]; intros H; simpl.
  - apply draws_ret.
  - inversion H as [|? ? Hi Ht]; subst.
    change (@nil ax_call) with (@nil ax_call ++ ([] ++ [])).
    eapply draws_bind.
    + apply draws_index. apply nth_error_nth'. exact Hi.
    + eapply draws_bind; [apply IH; exact Ht | apply draws_ret].
Qed.

Lemma draws_eq {A} (h : nat) (m : M A) (a : A) (cs cs' : list ax_call) :
  draws h m a cs -> cs = cs' -> draws h m a cs'.
Proof. intros H <-. exact H. Qed.

Ltac draw_step :=
  first [ apply draws_ret
        | apply draws_emit
        | apply draws_text
        | apply draws_plot
        | apply draws_barh
        | eapply draws_index; eassumption
        | eapply draws_when; intros _
        | eapply draws_bind ].

Ltac draw := repeat (cbv beta iota zeta; draw_step).

(** ** What the diverging layout draws *)

Definition bar_containers (cs : list ax_call) : list (list rectangle) :=
  flat_map (fun c => match c with BarContainer r _ => [r] | _ => [] end) cs.

Definition is_text (c : ax_call) : bool :=
  match c with Text _ _ _ _ => true | _ => false end.

Definition texts (cs : list ax_call) : list ax_call := filter is_text cs.

Definition is_line (c : ax_call) : bool :=
  match c with Line2D _ _ _ _ => true | _ => false end.

Definition lines (cs : list ax_call) : list ax_call := filter is_line cs.

Lemma bar_containers_app (cs cs' : list ax_call) :
  bar_containers (cs ++ cs') = bar_containers cs ++ bar_containers cs'.
Proof. apply flat_map_app. Qed.

Lemma texts_app (cs cs' : list ax_call) : texts (cs ++ cs') = texts cs ++ texts cs'.
Proof. apply filter_app. Qed.

Lemma lines_app (cs cs' : list ax_call) : lines (cs ++ cs') = lines cs ++ lines cs'.
Proof. apply filter_app. Qed.

Lemma texts_flat_map {A} (g : A -> list ax_call) (l : list A) :
  texts (flat_map g l) = flat_map (fun x => texts (g x)) l.
Proof.
  induction l as [|x t IH]; simpl; auto.
  rewrite texts_app, IH. reflexivity.
Qed.

Lemma lines_flat_map {A} (g : A -> list ax_call) (l : list A) :
  lines (flat_map g l) = flat_map (fun x => lines (g x)) l.
Proof.
  induction l as [|x t IH]; simpl; auto.
  rewrite lines_app, IH. reflexivity.
Qed.

Lemma bar_containers_flat_map_nil {A} (g : A -> list ax_call) (l : list A) :
  (forall x, bar_containers (g x) = []) -> bar_containers (flat_map g l) = [].
Proof.
  intros H. induction l as [|x t IH]; simpl; auto.
  rewrite bar_containers_app, H, IH. reflexivity.
Qed.

Lemma flat_map_nil_all {A B} (g : A -> list B) (l : list A) :
  (forall x, g x = []) -> flat_map g l = [].
Proof.
  intros H. induction l as [|x t IH]; simpl; auto. rewrite H, IH. reflexivity.
Qed.

Lemma flat_map_flat_map_nil {A B C} (f : B -> list C) (g : A -> list B) (l : list A) :
  (forall x, flat_map f (g x) = []) -> flat_map f (flat_map g l) = [].
Proof.
  intros H. induction l as [|x t IH]; simpl; auto.
  rewrite flat_map_app, H, IH. reflexivity.
Qed.

Definition label_kw : kwargs :=
  [("ha"%string, VStr "center"); ("va"%string, VStr "center");
   ("fontsize"%string, VInt ANNOTATION_SIZE); ("fontweight"%string, VStr "bold")].

(** The labels of one category, at vertical position [i]: the dissatisfied
    total, the neutral share and the satisfied total, each only above the
    threshold. *)
Definition satisfaction_label_calls (r : satisfaction float) (i : nat) : list ax_call :=
  let neutral_half := fdiv (neither r) (Fin 2) in
  let dissatisfied_total := fadd (somewhat_dissatisfied r) (very_dissatisfied r) in
  let satisfied_total := fadd (somewhat_satisfied r) (very_satisfied r) in
  (if fgtb dissatisfied_total (Fin 5)
   then [Text (fadd (fneg (fadd neutral_half dissatisfied_total))
                    (fdiv dissatisfied_total (Fin 2)))
              (of_nat i) [FmtF 0 dissatisfied_total; Lit "%"] label_kw]
   else [])
  ++ (if fgtb (neither r) (Fin 5)
      then [Text (Fin 0) (of_nat i) [FmtF 0 (neither r); Lit "%"] label_kw]
      else [])
  ++ (if fgtb satisfied_total (Fin 5)
      then [Text (fadd neutral_half (fdiv satisfied_total (Fin 2)))
                 (of_nat i) [FmtF 0 satisfied_total; Lit "%"] label_kw]
      else []).

Lemma satisfaction_labels_draws (ax : nat) (rows : list (satisfaction float))
    (i : nat) (r : satisfaction float) :
  nth_error rows i = Some r ->
  draws ax
    (satisfaction_labels ax (map neither rows) (map somewhat_dissatisfied rows)
       (map very_dissatisfied rows) (map somewhat_satisfied rows)
       (map very_satisfied rows) i)
    tt (satisfaction_label_calls r i).
Proof.
  intros Hr.
  assert (Hn : nth_error (map neither rows) i = Some (neither r))
    by (rewrite nth_error_map, Hr; reflexivity).
  assert (Hsd : nth_error (map somewhat_dissatisfied rows) i = Some (somewhat_dissatisfied r))
    by (rewrite nth_error_map, Hr; reflexivity).
  assert (Hvd : nth_error (map very_dissatisfied rows) i = Some (very_dissatisfied r))
    by (rewrite nth_error_map, Hr; reflexivity).
  assert (Hss : nth_error (map somewhat_satisfied rows) i = Some (somewhat_satisfied r))
    by (rewrite nth_error_map, Hr; reflexivity).
  assert (Hvs : nth_error (map very_satisfied rows) i = Some (very_satisfied r))
    by (rewrite nth_error_map, Hr; reflexivity).
  unfold satisfaction_labels.
  eapply draws_eq; [draw|].
  unfold satisfaction_label_calls, label_kw. simpl.
  destruct (fgtb (neither r) (Fin 5)); reflexivity.
Qed.

(** The five bar containers of the diverging layout, in drawing order: very
    dissatisfied, somewhat dissatisfied, neither, somewhat satisfied, very
    satisfied. *)
Definition diverging_rects (rows : list (satisfaction float)) : list (list rectangle) :=
  let y_pos := np_arange (List.length (map category rows)) in
  let bar_height := Fin 0.6 in
  let neutral_half := map (fun x => fdiv x (Fin 2)) (map neither rows) in
  let dissatisfied_total :=
    map2 fadd (map somewhat_dissatisfied rows) (map very_dissatisfied rows) in
  let very_dissatisfied_start := map fneg (map2 fadd neutral_half dissatisfied_total) in
  [ barh_rects y_pos (map very_dissatisfied rows) bar_height very_dissatisfied_start;
    barh_rects y_pos (map somewhat_dissatisfied rows) bar_height
      (map2 fadd very_dissatisfied_start (map very_dissatisfied rows));
    barh_rects y_pos (map neither rows) bar_height (map fneg neutral_half);
    barh_rects y_pos (map somewhat_satisfied rows) bar_height neutral_half;
    barh_rects y_pos (map very_satisfied rows) bar_height
      (map2 fadd neutral_half (map somewhat_satisfied rows)) ].

Definition label_calls_at (rows : list (satisfaction float)) (i : nat) : list ax_call :=
  match nth_error rows i with
  | Some r => satisfaction_label_calls r i
  | None => []
  end.

Lemma texts_label_calls_at (rows : list (satisfaction float)) (i : nat) :
  texts (label_calls_at rows i) = label_calls_at rows i.
Proof.
  unfold label_calls_at. destruct (nth_error rows i) as [r|]; [|reflexivity].
  unfold satisfaction_label_calls. cbv zeta.
  repeat match goal with |- context [if ?b then _ else _] => destruct b end;
    reflexivity.
Qed.

Lemma bar_containers_label_calls_at (rows : list (satisfaction float)) (i : nat) :
  bar_containers (label_calls_at rows i) = [].
Proof.
  unfold label_calls_at. destruct (nth_error rows i) as [r|]; [|reflexivity].
  unfold satisfaction_label_calls. cbv zeta.
  repeat match goal with |- context [if ?b then _ else _] => destruct b end;
    reflexivity.
Qed.

Lemma diverging_layout_draws (rows : list (satisfaction float)) :
  exists cs,
    (forall ax, draws ax (diverging_layout ax rows) tt cs)
    /\ bar_containers cs = diverging_rects rows
    /\ texts cs = flat_map (label_calls_at rows) (seq 0 (List.length rows)).
Proof.
  eexists. split; [|split].
  - intros ax. unfold diverging_layout. draw.
    apply draws_for with (g := label_calls_at rows).
    intros i Hi. apply in_seq in Hi. rewrite length_map in Hi.
    unfold label_calls_at.
    destruct (nth_error rows i) as [r|] eqn:Hr.
    + apply satisfaction_labels_draws. exact Hr.
    + apply nth_error_None in Hr. lia.
  - repeat rewrite bar_containers_app.
    rewrite (bar_containers_flat_map_nil (label_calls_at rows)
               _ (bar_containers_label_calls_at rows)).
    reflexivity.
  - repeat rewrite texts_app. rewrite texts_flat_map.
    rewrite length_map. simpl.
    apply flat_map_ext. intros i. apply texts_label_calls_at.
Qed.

Lemma nth_error_map2 {A B C} (f : A -> B -> C) (l : list A) (l' : list B) i a b :
  nth_error l i = Some a -> nth_error l' i = Some b ->
  nth_error (map2 f l l') i = Some (f a b).
Proof.
  revert l' i. induction l as [|x t IH]; intros [|y t'] [|i]; simpl;
    try discriminate.
  - intros [= ->] [= ->]. reflexivity.
  - apply IH.
Qed.

Lemma nth_error_np_arange (n i : nat) :
  (i < n)%nat -> nth_error (np_arange n) i = Some (of_nat i).
Proof.
  intros H. unfold np_arange. rewrite nth_error_map.
  rewrite nth_error_seq. apply Nat.ltb_lt in H. rewrite H. reflexivity.
Qed.

Lemma barh_rects_nth (y w : list float) (h : float) (left : list float) i yi wi li :
  nth_error y i = Some yi -> nth_error w i = Some wi -> nth_error left i = Some li ->
  nth_error (barh_rects y w h left) i
  = Some (mkRect li (fsub yi (fdiv h (Fin 2))) wi h).
Proof.
  revert w left i. induction y as [|y0 y' IH]; intros [|w0 w'] [|l0 l'] [|i]; simpl;
    try discriminate.
  - intros [= ->] [= ->] [= ->]. reflexivity.
  - apply IH.
Qed.

(** The rectangles of category [i] in the five containers. *)
Lemma diverging_rects_nth (rows : list (satisfaction float)) (i : nat)
    (r : satisfaction float) :
  nth_error rows i = Some r ->
  let nh := fdiv (neither r) (Fin 2) in
  let start := fneg (fadd nh (fadd (somewhat_dissatisfied r) (very_dissatisfied r))) in
  let y := fsub (of_nat i) (fdiv (Fin 0.6) (Fin 2)) in
  map (fun b => nth_error b i) (diverging_rects rows)
  = [ Some (mkRect start y (very_dissatisfied r) (Fin 0.6));
      Some (mkRect (fadd start (very_dissatisfied r)) y (somewhat_dissatisfied r) (Fin 0.6));
      Some (mkRect (fneg nh) y (neither r) (Fin 0.6));
      Some (mkRect nh y (somewhat_satisfied r) (Fin 0.6));
      Some (mkRect (fadd nh (somewhat_satisfied r)) y (very_satisfied r) (Fin 0.6)) ].
Proof.
  intros Hr nh start y.
  assert (Hi : (i < List.length rows)%nat) by (apply nth_error_Some; congruence).
  assert (Hy : nth_error (np_arange (List.length (map category rows))) i
               = Some (of_nat i))
    by (apply nth_error_np_arange; rewrite length_map; exact Hi).
  assert (Hcol : forall f : satisfaction float -> float,
             nth_error (map f rows) i = Some (f r))
    by (intros f; rewrite nth_error_map, Hr; reflexivity).
  assert (Hnh : nth_error (map (fun x => fdiv x (Fin 2)) (map neither rows)) i = Some nh)
    by (rewrite nth_error_map, Hcol; reflexivity).
  assert (Hstart : nth_error
             (map fneg
                (map2 fadd (map (fun x => fdiv x (Fin 2)) (map neither rows))
                   (map2 fadd (map somewhat_dissatisfied rows)
                      (map very_dissatisfied rows)))) i = Some start).
  { rewrite nth_error_map.
    rewrite (nth_error_map2 fadd _ _ i nh
               (fadd (somewhat_dissatisfied r) (very_dissatisfied r)) Hnh).
    - reflexivity.
    - apply nth_error_map2; apply Hcol. }
  unfold diverging_rects. cbv zeta. cbn [map].
  repeat f_equal.
  - apply barh_rects_nth; auto.
  - apply barh_rects_nth; auto. apply nth_error_map2; auto.
  - apply barh_rects_nth; auto. rewrite nth_error_map, Hnh. reflexivity.
  - apply barh_rects_nth; auto.
  - apply barh_rects_nth; auto. apply nth_error_map2; auto.
Qed.

(** The bar of category [i] in a container starts at [start] and is [width]
    wide. *)
Definition segment_at (bars : list rectangle) (i : nat) (start width : Q) : Prop :=
  exists r, nth_error bars i = Some r
            /\ feq (rect_x r) (Fin start) /\ feq (rect_width r) (Fin width).

(** A state holding one empty axes object, for concrete runs. *)
Definition one_axes : pyplot := mkPyplot [[]] [] None [] [].

Definition drawn_on_blank (m : nat -> M unit) : list ax_call :=
  match m O one_axes with
  | Ok (_, st) => nth O (axes_store st) []
  | Raise _ => []
  end.

Definition within_tol (x : float) (target tol : Q) : bool :=
  match x with
  | Fin q => Qle_bool (Qabs (q - target)) tol
  | _ => false
  end.

(** The input of the end-to-end example of Mode A. *)
Definition example_row : satisfaction float :=
  mkSatisfaction "example" (Fin 33.33) (Fin 51.85) (Fin 29.63) (Fin 7.41) (Fin 3.70).

(** The geometry of the five bars of category [i], for finite inputs. *)
Lemma diverging_layout_segments (rows : list (satisfaction float)) (ax : nat) (s : pyplot) :
  valid_ax ax s ->
  exists cs very_neg_bars somewhat_neg_bars neutral_bars somewhat_pos_bars very_pos_bars,
    diverging_layout ax rows s = Ok (tt, append_calls ax cs s)
    /\ bar_containers cs
       = [very_neg_bars; somewhat_neg_bars; neutral_bars; somewhat_pos_bars; very_pos_bars]
    /\ forall (i : nat) (r : satisfaction float) (very_neg somewhat_neg neutral
                 somewhat_pos very_pos : Q),
        nth_error rows i = Some r ->
        very_dissatisfied r = Fin very_neg ->
        somewhat_dissatisfied r = Fin somewhat_neg ->
        neither r = Fin neutral ->
        somewhat_satisfied r = Fin somewhat_pos ->
        very_satisfied r = Fin very_pos ->
        let neutral_half := neutral / 2 in
        let very_neg_start := - (neutral_half + very_neg + somewhat_neg) in
        segment_at very_neg_bars i very_neg_start very_neg
        /\ segment_at somewhat_neg_bars i (very_neg_start + very_neg) somewhat_neg
        /\ segment_at neutral_bars i (- neutral_half) neutral
        /\ segment_at somewhat_pos_bars i neutral_half somewhat_pos
        /\ segment_at very_pos_bars i (neutral_half + somewhat_pos) very_pos.
Proof.
  intros Hs.
  destruct (diverging_layout_draws rows) as [cs [Hdraw [Hbars _]]].
  exists cs.
  unfold diverging_rects in Hbars. cbv zeta in Hbars.
  do 5 eexists. split; [apply Hdraw; exact Hs|]. split; [exact Hbars|].
  intros i r vn sn n sp vp Hr Hvn Hsn Hn Hsp Hvp nh start.
  pose proof (diverging_rects_nth rows i r Hr) as Hnth.
  unfold diverging_rects in Hnth. cbv zeta in Hnth. cbn [map] in Hnth.
  rewrite Hvn, Hsn, Hn, Hsp, Hvp in Hnth.
  injection Hnth as H1 H2 H3 H4 H5.
  unfold segment_at.
  repeat split; eexists; (split; [eassumption|]); simpl; split;
    try reflexivity; unfold start, nh; try field.
Qed.

(** C1. For every category whose five percentages are non-negative numbers,
    the diverging layout draws five bars: very_neg with start
    -(neutral_half + very_neg + somewhat_neg) and width very_neg,
    somewhat_neg with start very_neg_start + very_neg, neutral with start
    -neutral_half, somewhat_pos with start neutral_half and very_pos with
    start neutral_half + somewhat_pos, each with its own percentage as width;
    for the input (3.70, 7.41, 29.63, 51.85, 33.33) the very_neg bar has
    start -25.93 and width 3.70 and the somewhat_pos bar has start 14.815
    and width 51.85, within 1e-2. *)
Theorem mode_a_segments :
  (forall (rows : list (satisfaction float)) (ax : nat) (s : pyplot),
      valid_ax ax s ->
      exists cs very_neg_bars somewhat_neg_bars neutral_bars somewhat_pos_bars very_pos_bars,
        diverging_layout ax rows s = Ok (tt, append_calls ax cs s)
        /\ bar_containers cs
           = [very_neg_bars; somewhat_neg_bars; neutral_bars; somewhat_pos_bars; very_pos_bars]
        /\ forall (i : nat) (r : satisfaction float) (very_neg somewhat_neg neutral
                     somewhat_pos very_pos : Q),
            nth_error rows i = Some r ->
            very_dissatisfied r = Fin very_neg ->
            somewhat_dissatisfied r = Fin somewhat_neg ->
            neither r = Fin neutral ->
            somewhat_satisfied r = Fin somewhat_pos ->
            very_satisfied r = Fin very_pos ->
            0 <= very_neg -> 0 <= somewhat_neg -> 0 <= neutral ->
            0 <= somewhat_pos -> 0 <= very_pos ->
            let neutral_half := neutral / 2 in
            let very_neg_start := - (neutral_half + very_neg + somewhat_neg) in
            segment_at very_neg_bars i very_neg_start very_neg
            /\ segment_at somewhat_neg_bars i (very_neg_start + very_neg) somewhat_neg
            /\ segment_at neutral_bars i (- neutral_half) neutral
            /\ segment_at somewhat_pos_bars i neutral_half somewhat_pos
            /\ segment_at very_pos_bars i (neutral_half + somewhat_pos) very_pos)
  /\ match bar_containers (drawn_on_blank (fun ax => diverging_layout ax [example_row])) with
     | [[very_neg_bar]; _; _; [somewhat_pos_bar]; _] =>
         within_tol (rect_x very_neg_bar) (-25.93) 0.01 = true
         /\ within_tol (rect_width very_neg_bar) 3.70 0.01 = true
         /\ within_tol (rect_x somewhat_pos_bar) 14.815 0.01 = true
         /\ within_tol (rect_width somewhat_pos_bar) 51.85 0.01 = true
     | _ => False
     end.
Proof.
  split.
  - intros rows ax s Hs.
    destruct (diverging_layout_segments rows ax s Hs)
      as (cs & b1 & b2 & b3 & b4 & b5 & Hrun & Hb & Hseg).
    exists cs, b1, b2, b3, b4, b5.
    split; [exact Hrun|]. split; [exact Hb|].
    intros i r vn sn n sp vp Hr Hvn Hsn Hn Hsp Hvp _ _ _ _ _.
    apply (Hseg i r vn sn n sp vp); assumption.
  - vm_compute. repeat split.
Qed.

Lemma mode_a_segments_witness :
  exists cs b1 b2 b3 b4 b5,
    diverging_layout 0 [example_row] one_axes = Ok (tt, append_calls 0 cs one_axes)
    /\ bar_containers cs = [b1; b2; b3; b4; b5]
    /\ segment_at b1 0 (- (29.63 / 2 + 3.70 + 7.41)) 3.70
    /\ segment_at b2 0 (- (29.63 / 2 + 3.70 + 7.41) + 3.70) 7.41
    /\ segment_at b3 0 (- (29.63 / 2)) 29.63
    /\ segment_at b4 0 (29.63 / 2) 51.85
    /\ segment_at b5 0 (29.63 / 2 + 51.85) 33.33.
Proof.
  destruct (proj1 mode_a_segments [example_row] 0%nat one_axes)
    as (cs & b1 & b2 & b3 & b4 & b5 & Hrun & Hb & Hseg).
  { unfold valid_ax. simpl. lia. }
  exists cs, b1, b2, b3, b4, b5.
  split; [exact Hrun|]. split; [exact Hb|].
  apply (Hseg 0%nat example_row 3.70 7.41 29.63 51.85 33.33);
    try reflexivity; unfold Qle; simpl; lia.
Defined.

(** A category whose five percentages sum to 100. *)
Definition tiling_row : satisfaction float :=
  mkSatisfaction "tiling" (Fin 30) (Fin 40) (Fin 20) (Fin 7) (Fin 3).

(** ** Labels of the diverging layout *)

Definition midpoint (a b : Q) : Q := (a + b) / 2.

(** What the labelling rule asks of one category: for each of the three
    spans (the dissatisfied side, the neutral block, the satisfied side) a
    label exactly when the span is wider than 5, at the midpoint of the span,
    showing the width. *)
Definition expected_labels (very_neg somewhat_neg neutral somewhat_pos very_pos : Q)
  : list (Q * Q) :=
  let neutral_half := neutral / 2 in
  let dissatisfied := somewhat_neg + very_neg in
  let satisfied := somewhat_pos + very_pos in
  (if Qlt_le_dec 5 dissatisfied
   then [(midpoint (- (neutral_half + dissatisfied)) (- neutral_half), dissatisfied)]
   else [])
  ++ (if Qlt_le_dec 5 neutral
      then [(midpoint (- neutral_half) neutral_half, neutral)]
      else [])
  ++ (if Qlt_le_dec 5 satisfied
      then [(midpoint neutral_half (neutral_half + satisfied), satisfied)]
      else []).

(** The call [c] is a label at vertical position [i], horizontally centred
    on [fst xv] and showing the number [snd xv] followed by a percent sign. *)
Definition is_label (i : nat) (c : ax_call) (xv : Q * Q) : Prop :=
  match c with
  | Text x y [FmtF O v; Lit "%"] kw =>
      feq x (Fin (fst xv)) /\ y = of_nat i /\ feq v (Fin (snd xv))
      /\ kw_lookup "ha" kw = Some (VStr "center")
  | _ => False
  end.

(** The call [c] is a text at a vertical position other than [i]. *)
Definition label_elsewhere (i : nat) (c : ax_call) : Prop :=
  match c with
  | Text _ y _ _ => exists j, j <> i /\ y = of_nat j
  | _ => False
  end.

Lemma label_calls_at_position (rows : list (satisfaction float)) (j : nat) (c : ax_call) :
  In c (label_calls_at rows j) -> exists x t kw, c = Text x (of_nat j) t kw.
Proof.
  unfold label_calls_at. destruct (nth_error rows j) as [r|]; [|intros []].
  unfold satisfaction_label_calls. cbv zeta. intros H.
  repeat (apply in_app_or in H; destruct H as [H|H]);
    match type of H with
    | In _ (if ?b then _ else _) => destruct b
    end;
    simpl in H; try contradiction;
    destruct H as [<-|[]]; eauto.
Qed.

Lemma labels_elsewhere (rows : list (satisfaction float)) (i : nat) (l : list nat) :
  ~ In i l -> Forall (label_elsewhere i) (flat_map (label_calls_at rows) l).
Proof.
  intros Hi. apply Forall_forall. intros c Hc.
  apply in_flat_map in Hc. destruct Hc as [j [Hj Hc]].
  apply label_calls_at_position in Hc. destruct Hc as (x & t & kw & ->).
  simpl. exists j. split; [|reflexivity]. intros ->. contradiction.
Qed.

Lemma satisfaction_label_calls_expected (r : satisfaction float) (i : nat)
    (vn sn n sp vp : Q) :
  very_dissatisfied r = Fin vn ->
  somewhat_dissatisfied r = Fin sn ->
  neither r = Fin n ->
  somewhat_satisfied r = Fin sp ->
  very_satisfied r = Fin vp ->
  Forall2 (is_label i) (satisfaction_label_calls r i) (expected_labels vn sn n sp vp).
Proof.
  intros Hvn Hsn Hn Hsp Hvp.
  unfold satisfaction_label_calls, expected_labels. cbv zeta.
  rewrite Hvn, Hsn, Hn, Hsp, Hvp.
  repeat apply Forall2_app.
  - destruct (Qlt_le_dec 5 (sn + vn)) as [L|L].
    + apply fgtb_Fin in L. simpl fadd. rewrite L.
      constructor; [|constructor]. simpl.
      repeat split; try reflexivity. unfold midpoint. field.
    + apply fltb_Fin_false in L. unfold fgtb. simpl fadd. rewrite L. constructor.
  - destruct (Qlt_le_dec 5 n) as [L|L].
    + apply fgtb_Fin in L. rewrite L.
      constructor; [|constructor]. simpl.
      repeat split; try reflexivity. unfold midpoint. field.
    + apply fltb_Fin_false in L. unfold fgtb. rewrite L. constructor.
  - destruct (Qlt_le_dec 5 (sp + vp)) as [L|L].
    + apply fgtb_Fin in L. simpl fadd. rewrite L.
      constructor; [|constructor]. simpl.
      repeat split; try reflexivity. unfold midpoint. field.
    + apply fltb_Fin_false in L. unfold fgtb. simpl fadd. rewrite L. constructor.
Qed.

Lemma seq_split_at (n i : nat) :
  (i < n)%nat -> seq 0 n = seq 0 i ++ i :: seq (S i) (n - S i).
Proof.
  intros H. replace n with (i + S (n - S i))%nat at 1 by lia.
  rewrite seq_app. reflexivity.
Qed.

(** The labels of category [i] among the texts of the diverging layout. *)
Lemma diverging_layout_labels (rows : list (satisfaction float)) (ax : nat) (s : pyplot) :
  valid_ax ax s ->
  exists cs,
    diverging_layout ax rows s = Ok (tt, append_calls ax cs s)
    /\ forall (i : nat) (r : satisfaction float),
        nth_error rows i = Some r ->
        exists before after,
          texts cs = before ++ satisfaction_label_calls r i ++ after
          /\ Forall (label_elsewhere i) before
          /\ Forall (label_elsewhere i) after.
Proof.
  intros Hs.
  destruct (diverging_layout_draws rows) as [cs [Hdraw [_ Htexts]]].
  exists cs. split; [apply Hdraw; exact Hs|].
  intros i r Hr.
  assert (Hi : (i < List.length rows)%nat) by (apply nth_error_Some; congruence).
  exists (flat_map (label_calls_at rows) (seq 0 i)),
         (flat_map (label_calls_at rows) (seq (S i) (List.length rows - S i))).
  split; [|split].
  - rewrite Htexts, (seq_split_at _ i Hi), flat_map_app. simpl.
    unfold label_calls_at at 2. rewrite Hr. reflexivity.
  - apply labels_elsewhere. intros H. apply in_seq in H. lia.
  - apply labels_elsewhere. intros H. apply in_seq in H. lia.
Qed.

(** A category whose dissatisfied total and neutral share are both 5. *)
Definition row_at_threshold : satisfaction float :=
  mkSatisfaction "at threshold" (Fin 50) (Fin 40) (Fin 5) (Fin 3) (Fin 2).

(** ** The satisfaction chart in the arithmetic of the machine *)

(** The equations proved so far are equations of exact arithmetic.  The
    script computes in binary64, where every sum is rounded, so that a
    property which compares two sums, or a sum with a threshold, need not
    hold of the run.  For the satisfaction chart such properties are proved
    of a second embedding of lines 154 to 248, in which the type of the
    numbers and their operations are parameters of which nothing is assumed:
    what is proved of it holds in exact arithmetic (the instance
    [exact_arithmetic]) and in binary64 (the instance [binary64_arithmetic],
    on the primitive floats of the kernel, which round to nearest, ties to
    even, as numpy does). *)

(** The operations that lines 154 to 248 apply to numbers. *)
Record arithmetic (num : Type) : Type := mkArithmetic {
  of_int : Z -> num;           (* an [int] where a float is expected *)
  literal : Q -> num;          (* a decimal literal of the source *)
  add : num -> num -> num;
  sub : num -> num -> num;
  mul : num -> num -> num;
  div : num -> num -> num;     (* [/] of numpy: no exception *)
  neg : num -> num;
  gtb : num -> num -> bool     (* [>] *)
}.
Arguments of_int {num}.
Arguments literal {num}.
Arguments add {num}.
Arguments sub {num}.
Arguments mul {num}.
Arguments div {num}.
Arguments neg {num}.
Arguments gtb {num}.


Definition binary64 : Type := PrimFloat.float.

(** The binary64 value nearest to an integer. *)
Definition b64_of_Z (z : Z) : binary64 :=
  FloatOps.SF2Prim (SpecFloat.binary_normalize FloatOps.prec FloatOps.emax z 0 false).

(** The binary64 value nearest to a decimal literal of a few digits: the
    quotient of two integers that binary64 holds exactly, rounded once. *)
Definition b64_literal (q : Q) : binary64 :=
  PrimFloat.div (b64_of_Z (Qnum q)) (b64_of_Z (Zpos (Qden q))).

Definition binary64_arithmetic : arithmetic binary64 :=
  mkArithmetic binary64 b64_of_Z b64_literal PrimFloat.add PrimFloat.sub PrimFloat.mul
    PrimFloat.div PrimFloat.opp (fun x y => PrimFloat.ltb y x).



Module Parametric.

Local Open Scope string_scope.
Local Open Scope list_scope.

Section Layout.

Variable num : Type.
Variable A : arithmetic num.

(** *** The calls recorded on the axes of the chart *)

#[local] Unset Elimination Schemes.
Inductive value : Type :=
| VNum (x : num)
| VInt (z : Z)
| VStr (s : string)
| VBool (b : bool)
| VTuple (vs : list value)
| VDict (kw : list (string * value)).
#[local] Set Elimination Schemes.

Definition kwargs : Type := list (string * value).

Fixpoint kw_lookup (k : string) (kw : kwargs) : option value :=
  match kw with
  | [] => None
  | (k', v) :: t => if String.eqb k k' then Some v else kw_lookup k t
  end.

Inductive piece : Type :=
| Lit (s : string)
| FmtF (prec : nat) (x : num).

Definition text_content : Type := list piece.

Record rectangle : Type := mkRect {
  rect_x : num;
  rect_y : num;
  rect_width : num;
  rect_height : num
}.

Inductive legend_handle : Type :=
| LPatch (kw : kwargs).

(** What the axes of the satisfaction chart are asked to draw or set. *)
Inductive ax_call : Type :=
| SetXlim (lo hi : num)
| Text (x y : num) (s : text_content) (kw : kwargs)
| BarContainer (rects : list rectangle) (kw : kwargs)
| AxVLine (kw : kwargs)
| SetYticks (ticks : list num)
| SetYticklabels (labels : list string) (kw : kwargs)
| SetXlabel (s : string) (kw : kwargs)
| SetTitle (s : string) (kw : kwargs)
| TickParams (kw : kwargs)
| Legend (handles : list legend_handle) (kw : kwargs).

(** *** State and exceptions *)

(** The layout only touches axes objects: its state is the store of axes,
    each with the calls recorded on it. *)
Definition axes_store : Type := list (list ax_call).

Definition M (R : Type) : Type := axes_store -> result (R * axes_store).

Definition ret {R} (a : R) : M R := fun st => Ok (a, st).

Definition bind {R S} (m : M R) (k : R -> M S) : M S :=
  fun st => match m st with
            | Ok (a, st') => k a st'
            | Raise e => Raise e
            end.

Definition raise {R} (e : exn) : M R := fun _ => Raise e.

Declare Scope layout_scope.
Delimit Scope layout_scope with layout.
Notation "x <- m ;; k" := (bind m (fun x => k))
  (at level 61, m at next level, right associativity) : layout_scope.
Notation "m ;; k" := (bind m (fun _ => k))
  (at level 61, right associativity) : layout_scope.

Local Open Scope layout_scope.

Fixpoint for_ {R} (l : list R) (body : R -> M unit) : M unit :=
  match l with
  | [] => ret tt
  | x :: t => body x ;; for_ t body
  end.

Definition when (b : bool) (body : M unit) : M unit :=
  if b then body else ret tt.

Definition index {R} (a : list R) (i : nat) : M R :=
  match nth_error a i with
  | Some x => ret x
  | None => raise IndexError
  end.

(** The store after the calls [cs] have been recorded on the axes [h]. *)
Definition append_calls (h : nat) (cs : list ax_call) (st : axes_store) : axes_store :=
  update_at h (fun old => old ++ cs) st.

Definition ax_emit (h : nat) (c : ax_call) : M unit :=
  fun st => if Nat.ltb h (List.length st)
            then Ok (tt, append_calls h [c] st)
            else Raise RuntimeError.

Definition ax_text (h : nat) (x y : num) (s : text_content) (kw : kwargs) : M unit :=
  ax_emit h (Text x y s kw).

Fixpoint barh_rects (y width : list num) (height : num) (left : list num)
  : list rectangle :=
  match y, width, left with
  | yi :: y', wi :: width', li :: left' =>
      mkRect li (sub A yi (div A height (of_int A 2))) wi height
        :: barh_rects y' width' height left'
  | _, _, _ => []
  end.

Definition ax_barh (h : nat) (y width : list num) (height : num)
    (left : option (list num)) (kw : kwargs) : M (list rectangle) :=
  let left' := match left with
               | Some l => l
               | None => repeat (of_int A 0) (List.length y)
               end in
  let rects := barh_rects y width height left' in
  ax_emit h (BarContainer rects kw) ;; ret rects.

Definition np_arange (n : nat) : list num :=
  map (fun k => of_int A (Z.of_nat k)) (seq 0 n).

(** *** Lines 154 to 248 *)

Definition percentage_of_total (count total : Z) : num :=
  mul A (div A (of_int A count) (of_int A total)) (of_int A 100).

Definition to_percentages (total : Z) (r : satisfaction Z) : satisfaction num :=
  mkSatisfaction (category r)
    (percentage_of_total (very_satisfied r) total)
    (percentage_of_total (somewhat_satisfied r) total)
    (percentage_of_total (neither r) total)
    (percentage_of_total (somewhat_dissatisfied r) total)
    (percentage_of_total (very_dissatisfied r) total).

(** The label loop of lines 223 to 248, for the category at index [i]. *)
Definition satisfaction_labels (ax2 : nat)
    (neither_pct somewhat_dissatisfied_pct very_dissatisfied_pct
     pos_somewhat pos_very : list num) (i : nat) : M unit :=
  n_i <- index neither_pct i ;;
  let neutral_half_i := div A n_i (of_int A 2) in
  sd_i <- index somewhat_dissatisfied_pct i ;;
  vd_i <- index very_dissatisfied_pct i ;;
  let dissatisfied_total_i := add A sd_i vd_i in
  when (gtb A dissatisfied_total_i (of_int A 5))
    (let dissatisfied_left := neg A (add A neutral_half_i dissatisfied_total_i) in
     let dissatisfied_center :=
       add A dissatisfied_left (div A dissatisfied_total_i (of_int A 2)) in
     ax_text ax2 dissatisfied_center (of_int A (Z.of_nat i))
       [FmtF 0 dissatisfied_total_i; Lit "%"]
       [("ha", VStr "center"); ("va", VStr "center"); ("fontsize", VInt ANNOTATION_SIZE);
        ("fontweight", VStr "bold")]) ;;
  n_i' <- index neither_pct i ;;
  when (gtb A n_i' (of_int A 5))
    (n_i'' <- index neither_pct i ;;
     ax_text ax2 (of_int A 0) (of_int A (Z.of_nat i)) [FmtF 0 n_i''; Lit "%"]
       [("ha", VStr "center"); ("va", VStr "center"); ("fontsize", VInt ANNOTATION_SIZE);
        ("fontweight", VStr "bold")]) ;;
  ps_i <- index pos_somewhat i ;;
  pv_i <- index pos_very i ;;
  let satisfied_total_i := add A ps_i pv_i in
  when (gtb A satisfied_total_i (of_int A 5))
    (let satisfied_center := add A neutral_half_i (div A satisfied_total_i (of_int A 2)) in
     ax_text ax2 satisfied_center (of_int A (Z.of_nat i))
       [FmtF 0 satisfied_total_i; Lit "%"]
       [("ha", VStr "center"); ("va", VStr "center"); ("fontsize", VInt ANNOTATION_SIZE);
        ("fontweight", VStr "bold")]).

(** Part B from line 160 on, drawn on [ax2]. *)
Definition diverging_layout (ax2 : nat) (rows : list (satisfaction num)) : M unit :=
  let categories := map category rows in
  let very_satisfied_pct := map very_satisfied rows in
  let somewhat_satisfied_pct := map somewhat_satisfied rows in
  let neither_pct := map neither rows in
  let somewhat_dissatisfied_pct := map somewhat_dissatisfied rows in
  let very_dissatisfied_pct := map very_dissatisfied rows in
  let y_pos := np_arange (List.length categories) in
  let bar_height := literal A 0.6 in
  let neg_very := map (neg A) very_dissatisfied_pct in
  let neg_somewhat := map (neg A) somewhat_dissatisfied_pct in
  let pos_somewhat := somewhat_satisfied_pct in
  let pos_very := very_satisfied_pct in
  let neutral_half := map (fun x => div A x (of_int A 2)) neither_pct in
  let dissatisfied_total := map2 (add A) somewhat_dissatisfied_pct very_dissatisfied_pct in
  let very_dissatisfied_start := map (neg A) (map2 (add A) neutral_half dissatisfied_total) in
  _ <- ax_barh ax2 y_pos very_dissatisfied_pct bar_height (Some very_dissatisfied_start)
    [("label", VStr "Very Dissatisfied"); ("color", VStr COLOR_NEGATIVE);
     ("edgecolor", VStr "black"); ("linewidth", VNum (literal A 0.5))] ;;
  let somewhat_dissatisfied_start :=
    map2 (add A) very_dissatisfied_start very_dissatisfied_pct in
  _ <- ax_barh ax2 y_pos somewhat_dissatisfied_pct bar_height (Some somewhat_dissatisfied_start)
    [("label", VStr "Somewhat Dissatisfied"); ("color", VStr COLOR_NEGATIVE_LIGHT);
     ("edgecolor", VStr "black"); ("linewidth", VNum (literal A 0.5))] ;;
  _ <- ax_barh ax2 y_pos neither_pct bar_height (Some (map (neg A) neutral_half))
    [("label", VStr "Neither"); ("color", VStr COLOR_NEUTRAL);
     ("edgecolor", VStr "black"); ("linewidth", VNum (literal A 0.5))] ;;
  _ <- ax_barh ax2 y_pos pos_somewhat bar_height (Some neutral_half)
    [("label", VStr "Somewhat Satisfied"); ("color", VStr COLOR_POSITIVE_LIGHT);
     ("edgecolor", VStr "black"); ("linewidth", VNum (literal A 0.5))] ;;
  _ <- ax_barh ax2 y_pos pos_very bar_height (Some (map2 (add A) neutral_half pos_somewhat))
    [("label", VStr "Very Satisfied"); ("color", VStr COLOR_POSITIVE);
     ("edgecolor", VStr "black"); ("linewidth", VNum (literal A 0.5))] ;;
  ax_emit ax2 (SetYticks y_pos) ;;
  ax_emit ax2 (SetYticklabels categories [("fontsize", VInt TICK_SIZE)]) ;;
  ax_emit ax2 (AxVLine [("x", VInt 0); ("color", VStr "black"); ("linestyle", VStr "-");
                        ("linewidth", VInt 2)]) ;;
  ax_emit ax2 (SetXlabel "Percentage (%)"
                 [("fontsize", VInt LABEL_SIZE); ("fontweight", VStr "bold")]) ;;
  ax_emit ax2 (SetTitle "B. The Satisfaction Gap: Preparedness Across Competency Levels"
                 [("fontsize", VInt TITLE_SIZE); ("fontweight", VStr "bold"); ("pad", VInt 15)]) ;;
  ax_emit ax2 (SetXlim (of_int A (-60)) (of_int A 100)) ;;
  ax_emit ax2 (TickParams [("labelsize", VInt TICK_SIZE)]) ;;
  ax_emit ax2 (Legend
    [LPatch [("facecolor", VStr COLOR_NEGATIVE); ("label", VStr "Very Dissatisfied")];
     LPatch [("facecolor", VStr COLOR_NEGATIVE_LIGHT); ("label", VStr "Somewhat Dissatisfied")];
     LPatch [("facecolor", VStr COLOR_NEUTRAL); ("label", VStr "Neither")];
     LPatch [("facecolor", VStr COLOR_POSITIVE_LIGHT); ("label", VStr "Somewhat Satisfied")];
     LPatch [("facecolor", VStr COLOR_POSITIVE); ("label", VStr "Very Satisfied")]]
    [("loc", VStr "lower left"); ("frameon", VBool true); ("fontsize", VInt ANNOTATION_SIZE)]) ;;
  for_ (seq 0 (List.length categories))
    (satisfaction_labels ax2 neither_pct somewhat_dissatisfied_pct very_dissatisfied_pct
       pos_somewhat pos_very).

(** *** What the layout records *)

(** [m] returns [a] and its only effect is to record the calls [cs] on the
    axes [h], from every store that holds [h]. *)
Definition emits {R} (h : nat) (m : M R) (a : R) (cs : list ax_call) : Prop :=
  forall st, (h < List.length st)%nat -> m st = Ok (a, append_calls h cs st).

Lemma emits_ret {R} (h : nat) (a : R) : emits h (ret a) a [].
Proof.
  intros st _. unfold ret, append_calls. rewrite update_at_id; [reflexivity|].
  intros l. apply app_nil_r.
Qed.

Lemma emits_bind {R S} (h : nat) (m : M R) (k : R -> M S) a b cs1 cs2 :
  emits h m a cs1 -> emits h (k a) b cs2 -> emits h (bind m k) b (cs1 ++ cs2).
Proof.
  intros Hm Hk st Hst. unfold bind. rewrite (Hm st Hst).
  rewrite Hk by (unfold append_calls; rewrite update_at_length; exact Hst).
  unfold append_calls. rewrite update_at_compose. do 2 f_equal.
  apply update_at_ext. intros l. symmetry. apply app_assoc.
Qed.

Lemma emits_emit (h : nat) (c : ax_call) : emits h (ax_emit h c) tt [c].
Proof.
  intros st Hst. unfold ax_emit. apply Nat.ltb_lt in Hst. rewrite Hst. reflexivity.
Qed.

Lemma emits_text (h : nat) x y t kw : emits h (ax_text h x y t kw) tt [Text x y t kw].
Proof. apply emits_emit. Qed.

Lemma emits_barh (h : nat) y w ht left kw :
  emits h (ax_barh h y w ht (Some left) kw)
    (barh_rects y w ht left) [BarContainer (barh_rects y w ht left) kw].
Proof.
  unfold ax_barh.
  rewrite <- (app_nil_r [BarContainer _ kw]).
  eapply emits_bind; [apply emits_emit | apply emits_ret].
Qed.

Lemma emits_index {R} (h : nat) (l : list R) (i : nat) (x : R) :
  nth_error l i = Some x -> emits h (index l i) x [].
Proof. intros E. unfold index. rewrite E. apply emits_ret. Qed.

Lemma emits_when (h : nat) (b : bool) (m : M unit) (cs : list ax_call) :
  (b = true -> emits h m tt cs) ->
  emits h (when b m) tt (if b then cs else []).
Proof.
  intros H. unfold when. destruct b; [apply H; reflexivity | apply emits_ret].
Qed.

Lemma emits_for {R} (h : nat) (l : list R) (body : R -> M unit)
    (g : R -> list ax_call) :
  (forall x, In x l -> emits h (body x) tt (g x)) ->
  emits h (for_ l body) tt (flat_map g l).
Proof.
  induction l as [|x t IH]; intros H; simpl.
  - apply emits_ret.
  - eapply emits_bind.
    + apply H. left; reflexivity.
    + apply IH. intros y Hy. apply H. right; exact Hy.
Qed.

Lemma emits_eq {R} (h : nat) (m : M R) (a : R) (cs cs' : list ax_call) :
  emits h m a cs -> cs = cs' -> emits h m a cs'.
Proof. intros H <-. exact H. Qed.

Ltac emit_step :=
  first [ apply emits_ret
        | apply emits_emit
        | apply emits_text
        | apply emits_barh
        | eapply emits_index; eassumption
        | eapply emits_when; intros _
        | eapply emits_bind ].

Ltac emit := repeat (cbv beta iota zeta; emit_step).

Definition bar_containers (cs : list ax_call) : list (list rectangle) :=
  flat_map (fun c => match c with BarContainer r _ => [r] | _ => [] end) cs.

Definition is_text (c : ax_call) : bool :=
  match c with Text _ _ _ _ => true | _ => false end.

Definition texts (cs : list ax_call) : list ax_call := filter is_text cs.

Definition label_kw : kwargs :=
  [("ha"%string, VStr "center"); ("va"%string, VStr "center");
   ("fontsize"%string, VInt ANNOTATION_SIZE); ("fontweight"%string, VStr "bold")].

(** The label of a span: present when [shown] holds, at [(x, i)], showing
    [width] followed by a percent sign, with [ha] and [va] set to center. *)
Definition label_if (shown : bool) (x : num) (i : nat) (width : num) : list ax_call :=
  if shown
  then [Text x (of_int A (Z.of_nat i)) [FmtF 0 width; Lit "%"] label_kw]
  else [].

(** The labels of one category, at vertical position [i]. *)
Definition satisfaction_label_calls (r : satisfaction num) (i : nat) : list ax_call :=
  let neutral_half := div A (neither r) (of_int A 2) in
  let dissatisfied_total := add A (somewhat_dissatisfied r) (very_dissatisfied r) in
  let satisfied_total := add A (somewhat_satisfied r) (very_satisfied r) in
  label_if (gtb A dissatisfied_total (of_int A 5))
    (add A (neg A (add A neutral_half dissatisfied_total))
       (div A dissatisfied_total (of_int A 2)))
    i dissatisfied_total
  ++ label_if (gtb A (neither r) (of_int A 5)) (of_int A 0) i (neither r)
  ++ label_if (gtb A satisfied_total (of_int A 5))
       (add A neutral_half (div A satisfied_total (of_int A 2))) i satisfied_total.

Lemma satisfaction_labels_emits (ax : nat) (rows : list (satisfaction num))
    (i : nat) (r : satisfaction num) :
  nth_error rows i = Some r ->
  emits ax
    (satisfaction_labels ax (map neither rows) (map somewhat_dissatisfied rows)
       (map very_dissatisfied rows) (map somewhat_satisfied rows)
       (map very_satisfied rows) i)
    tt (satisfaction_label_calls r i).
Proof.
  intros Hr.
  assert (Hn : nth_error (map neither rows) i = Some (neither r))
    by (rewrite nth_error_map, Hr; reflexivity).
  assert (Hsd : nth_error (map somewhat_dissatisfied rows) i = Some (somewhat_dissatisfied r))
    by (rewrite nth_error_map, Hr; reflexivity).
  assert (Hvd : nth_error (map very_dissatisfied rows) i = Some (very_dissatisfied r))
    by (rewrite nth_error_map, Hr; reflexivity).
  assert (Hss : nth_error (map somewhat_satisfied rows) i = Some (somewhat_satisfied r))
    by (rewrite nth_error_map, Hr; reflexivity).
  assert (Hvs : nth_error (map very_satisfied rows) i = Some (very_satisfied r))
    by (rewrite nth_error_map, Hr; reflexivity).
  unfold satisfaction_labels.
  eapply emits_eq; [emit|].
  unfold satisfaction_label_calls, label_if, label_kw. simpl.
  destruct (gtb A (neither r) (of_int A 5)); reflexivity.
Qed.

(** The five bar containers of the layout, in drawing order. *)
Definition diverging_rects (rows : list (satisfaction num)) : list (list rectangle) :=
  let y_pos := np_arange (List.length (map category rows)) in
  let bar_height := literal A 0.6 in
  let neutral_half := map (fun x => div A x (of_int A 2)) (map neither rows) in
  let dissatisfied_total :=
    map2 (add A) (map somewhat_dissatisfied rows) (map very_dissatisfied rows) in
  let very_dissatisfied_start := map (neg A) (map2 (add A) neutral_half dissatisfied_total) in
  [ barh_rects y_pos (map very_dissatisfied rows) bar_height very_dissatisfied_start;
    barh_rects y_pos (map somewhat_dissatisfied rows) bar_height
      (map2 (add A) very_dissatisfied_start (map very_dissatisfied rows));
    barh_rects y_pos (map neither rows) bar_height (map (neg A) neutral_half);
    barh_rects y_pos (map somewhat_satisfied rows) bar_height neutral_half;
    barh_rects y_pos (map very_satisfied rows) bar_height
      (map2 (add A) neutral_half (map somewhat_satisfied rows)) ].

Definition label_calls_at (rows : list (satisfaction num)) (i : nat) : list ax_call :=
  match nth_error rows i with
  | Some r => satisfaction_label_calls r i
  | None => []
  end.

Lemma label_calls_are_texts (rows : list (satisfaction num)) (i : nat) :
  texts (label_calls_at rows i) = label_calls_at rows i
  /\ bar_containers (label_calls_at rows i) = [].
Proof.
  unfold label_calls_at. destruct (nth_error rows i) as [r|]; [|split; reflexivity].
  unfold satisfaction_label_calls, label_if. cbv zeta.
  repeat match goal with |- context [if ?b then _ else _] => destruct b end;
    split; reflexivity.
Qed.

Lemma diverging_layout_emits (rows : list (satisfaction num)) :
  exists cs,
    (forall ax, emits ax (diverging_layout ax rows) tt cs)
    /\ bar_containers cs = diverging_rects rows
    /\ texts cs = flat_map (label_calls_at rows) (seq 0 (List.length rows)).
Proof.
  eexists. split; [|split].
  - intros ax. unfold diverging_layout. emit.
    apply emits_for with (g := label_calls_at rows).
    intros i Hi. apply in_seq in Hi. rewrite length_map in Hi.
    unfold label_calls_at.
    destruct (nth_error rows i) as [r|] eqn:Hr.
    + apply satisfaction_labels_emits. exact Hr.
    + apply nth_error_None in Hr. lia.
  - unfold bar_containers. repeat rewrite flat_map_app.
    rewrite (flat_map_flat_map_nil _ (label_calls_at rows));
      [reflexivity | intros i; apply label_calls_are_texts].
  - unfold texts. repeat rewrite filter_app. cbn [filter is_text app].
    rewrite length_map.
    induction (seq 0 (List.length rows)) as [|i t IH]; [reflexivity|].
    cbn [flat_map]. rewrite filter_app, IH.
    f_equal. apply label_calls_are_texts.
Qed.

Lemma barh_rects_at (y w : list num) (h : num) (left : list num) i yi wi li :
  nth_error y i = Some yi -> nth_error w i = Some wi -> nth_error left i = Some li ->
  nth_error (barh_rects y w h left) i
  = Some (mkRect li (sub A yi (div A h (of_int A 2))) wi h).
Proof.
  revert w left i. induction y as [|y0 y' IH]; intros [|w0 w'] [|l0 l'] [|i]; simpl;
    try discriminate.
  - intros [= ->] [= ->] [= ->]. reflexivity.
  - apply IH.
Qed.

(** The rectangles of category [i] in the five containers. *)
Lemma diverging_rects_at (rows : list (satisfaction num)) (i : nat)
    (r : satisfaction num) :
  nth_error rows i = Some r ->
  let nh := div A (neither r) (of_int A 2) in
  let start := neg A (add A nh (add A (somewhat_dissatisfied r) (very_dissatisfied r))) in
  let y := sub A (of_int A (Z.of_nat i)) (div A (literal A 0.6) (of_int A 2)) in
  map (fun b => nth_error b i) (diverging_rects rows)
  = [ Some (mkRect start y (very_dissatisfied r) (literal A 0.6));
      Some (mkRect (add A start (very_dissatisfied r)) y (somewhat_dissatisfied r)
              (literal A 0.6));
      Some (mkRect (neg A nh) y (neither r) (literal A 0.6));
      Some (mkRect nh y (somewhat_satisfied r) (literal A 0.6));
      Some (mkRect (add A nh (somewhat_satisfied r)) y (very_satisfied r)
              (literal A 0.6)) ].
Proof.
  intros Hr nh start y.
  assert (Hi : (i < List.length rows)%nat) by (apply nth_error_Some; congruence).
  assert (Hy : nth_error (np_arange (List.length (map category rows))) i
               = Some (of_int A (Z.of_nat i))).
  { unfold np_arange. rewrite nth_error_map, nth_error_seq, length_map.
    apply Nat.ltb_lt in Hi. rewrite Hi. reflexivity. }
  assert (Hcol : forall f : satisfaction num -> num,
             nth_error (map f rows) i = Some (f r))
    by (intros f; rewrite nth_error_map, Hr; reflexivity).
  assert (Hnh : nth_error (map (fun x => div A x (of_int A 2)) (map neither rows)) i
                = Some nh)
    by (rewrite nth_error_map, Hcol; reflexivity).
  assert (Hstart : nth_error
             (map (neg A)
                (map2 (add A) (map (fun x => div A x (of_int A 2)) (map neither rows))
                   (map2 (add A) (map somewhat_dissatisfied rows)
                      (map very_dissatisfied rows)))) i = Some start).
  { rewrite nth_error_map.
    rewrite (nth_error_map2 (add A) _ _ i nh
               (add A (somewhat_dissatisfied r) (very_dissatisfied r)) Hnh).
    - reflexivity.
    - apply nth_error_map2; apply Hcol. }
  unfold diverging_rects. cbv zeta. cbn [map].
  repeat f_equal.
  - apply barh_rects_at; auto.
  - apply barh_rects_at; auto. apply nth_error_map2; auto.
  - apply barh_rects_at; auto. rewrite nth_error_map, Hnh. reflexivity.
  - apply barh_rects_at; auto.
  - apply barh_rects_at; auto. apply nth_error_map2; auto.
Qed.

(** The call [c] is a text at the vertical position of a category other
    than [i]. *)
Definition label_elsewhere (i : nat) (c : ax_call) : Prop :=
  match c with
  | Text _ y _ _ => exists j, j <> i /\ y = of_int A (Z.of_nat j)
  | _ => False
  end.

Lemma labels_of_others (rows : list (satisfaction num)) (i : nat) (l : list nat) :
  ~ In i l -> Forall (label_elsewhere i) (flat_map (label_calls_at rows) l).
Proof.
  intros Hi. apply Forall_forall. intros c Hc.
  apply in_flat_map in Hc. destruct Hc as [j [Hj Hc]].
  assert (Hji : j <> i) by (intros ->; contradiction).
  unfold label_calls_at in Hc. destruct (nth_error rows j) as [r|]; [|destruct Hc].
  unfold satisfaction_label_calls, label_if in Hc. cbv zeta in Hc.
  repeat (apply in_app_or in Hc; destruct Hc as [Hc|Hc]);
    match type of Hc with
    | In _ (if ?b then _ else _) => destruct b
    end;
    simpl in Hc; try contradiction;
    destruct Hc as [<-|[]]; simpl; eauto.
Qed.

(** The run of the layout: the five containers with the bars of every
    category, and the labels of every category among the texts. *)
Lemma diverging_layout_run (rows : list (satisfaction num)) :
  exists cs,
    (forall ax st, (ax < List.length st)%nat ->
                   diverging_layout ax rows st = Ok (tt, append_calls ax cs st))
    /\ bar_containers cs = diverging_rects rows
    /\ forall (i : nat) (r : satisfaction num),
        nth_error rows i = Some r ->
        exists before after,
          texts cs = before ++ satisfaction_label_calls r i ++ after
          /\ Forall (label_elsewhere i) before
          /\ Forall (label_elsewhere i) after.
Proof.
  destruct (diverging_layout_emits rows) as [cs [Hemit [Hbars Htexts]]].
  exists cs. split; [exact Hemit|]. split; [exact Hbars|].
  intros i r Hr.
  assert (Hi : (i < List.length rows)%nat) by (apply nth_error_Some; congruence).
  exists (flat_map (label_calls_at rows) (seq 0 i)),
         (flat_map (label_calls_at rows) (seq (S i) (List.length rows - S i))).
  split; [|split].
  - rewrite Htexts, (seq_split_at _ i Hi), flat_map_app. simpl.
    unfold label_calls_at at 2. rewrite Hr. reflexivity.
  - apply labels_of_others. intros H. apply in_seq in H. lia.
  - apply labels_of_others. intros H. apply in_seq in H. lia.
Qed.

(** What a run on one empty axes object records. *)
Definition recorded (m : nat -> M unit) : list ax_call :=
  match m O [[]] with
  | Ok (_, st) => nth O st []
  | Raise _ => []
  end.

(** The numbers shown by a list of labels. *)
Definition shown (cs : list ax_call) : list num :=
  flat_map (fun c => match c with
                     | Text _ _ [FmtF _ v; Lit _] _ => [v]
                     | _ => []
                     end) cs.

End Layout.

Arguments mkRect {num}.
Arguments rect_x {num}.
Arguments rect_y {num}.
Arguments rect_width {num}.
Arguments rect_height {num}.
Arguments VStr {num}.
Arguments kw_lookup {num}.
Arguments Text {num}.
Arguments FmtF {num}.
Arguments Lit {num}.
Arguments label_kw {num}.
Arguments append_calls {num}.
Arguments bar_containers {num}.
Arguments texts {num}.
Arguments shown {num}.
Arguments recorded {num}.
Arguments label_if {num}.
Arguments label_elsewhere {num}.
Arguments diverging_layout {num}.
Arguments diverging_rects {num}.
Arguments satisfaction_label_calls {num}.
Arguments to_percentages {num}.
Arguments percentage_of_total {num}.

End Parametric.

(** *** The joins of the five bars *)










(** *** The labels *)

(** A category given by decimal literals. *)
Definition row_of {num} (A : arithmetic num) (name : string)
    (very_neg somewhat_neg neutral somewhat_pos very_pos : Q) : satisfaction num :=
  mkSatisfaction name (literal A very_pos) (literal A somewhat_pos) (literal A neutral)
    (literal A somewhat_neg) (literal A very_neg).

(** The numbers on the labels that the layout draws in binary64. *)
Definition b64_labels (rows : list (satisfaction binary64)) : list binary64 :=
  Parametric.shown
    (Parametric.texts
       (Parametric.recorded
          (fun ax => Parametric.diverging_layout binary64_arithmetic ax rows))).

(** C3.  In whatever arithmetic the layout is computed, binary64 included,
    the texts drawn at the vertical position of a category are exactly: a
    label for the combined dissatisfied total, one for the neutral share and
    one for the combined satisfied total, each present if and only if that
    width, as the code computes it, is strictly greater than 5, and showing
    that width.  Each label has [ha] set to center and stands at the start
    of its span plus half the width of the span: the dissatisfied span
    starts where the very dissatisfied bar starts, the satisfied span where
    the somewhat satisfied bar starts, and the label of the neutral bar,
    which starts at minus half its width, stands at 0.  In binary64 a width
    of exactly 5 gets no label and a width of 5.01 gets one; the percentages
    of the counts 2 and 1 of 60 add up to exactly 5.0 and get no label, those
    of the counts 12 and 1 of 260 add up to 5.000000000000001 and get one. *)
Theorem mode_a_labels :
  (forall (num : Type) (A : arithmetic num) (rows : list (satisfaction num))
          (ax : nat) (st : Parametric.axes_store num),
      (ax < List.length st)%nat ->
      exists cs very_neg_bars somewhat_neg_bars neutral_bars somewhat_pos_bars very_pos_bars,
        Parametric.diverging_layout A ax rows st
        = Ok (tt, Parametric.append_calls ax cs st)
        /\ Parametric.bar_containers cs
           = [very_neg_bars; somewhat_neg_bars; neutral_bars; somewhat_pos_bars;
              very_pos_bars]
        /\ forall (i : nat) (r : satisfaction num),
            nth_error rows i = Some r ->
            let dissatisfied := add A (somewhat_dissatisfied r) (very_dissatisfied r) in
            let satisfied := add A (somewhat_satisfied r) (very_satisfied r) in
            exists before after very_neg neutral somewhat_pos,
              nth_error very_neg_bars i = Some very_neg
              /\ nth_error neutral_bars i = Some neutral
              /\ nth_error somewhat_pos_bars i = Some somewhat_pos
              /\ Parametric.rect_x neutral = neg A (div A (neither r) (of_int A 2))
              /\ Parametric.texts cs
                 = before
                   ++ (Parametric.label_if A (gtb A dissatisfied (of_int A 5))
                         (add A (Parametric.rect_x very_neg)
                            (div A dissatisfied (of_int A 2)))
                         i dissatisfied
                       ++ Parametric.label_if A (gtb A (neither r) (of_int A 5))
                            (of_int A 0) i (neither r)
                       ++ Parametric.label_if A (gtb A satisfied (of_int A 5))
                            (add A (Parametric.rect_x somewhat_pos)
                               (div A satisfied (of_int A 2)))
                            i satisfied)
                   ++ after
              /\ Forall (Parametric.label_elsewhere A i) before
              /\ Forall (Parametric.label_elsewhere A i) after)
  /\ (forall num : Type,
        Parametric.kw_lookup "ha" (@Parametric.label_kw num)
        = Some (Parametric.VStr "center"))
  /\ b64_labels [row_of binary64_arithmetic "at threshold" 2 3 5 40 50]
     = [b64_of_Z 90]
  /\ b64_labels [row_of binary64_arithmetic "above threshold" 2 3.01 5.01 40 49.98]
     = [PrimFloat.add (b64_literal 3.01) (b64_of_Z 2); b64_literal 5.01;
        PrimFloat.add (b64_of_Z 40) (b64_literal 49.98)]
  /\ PrimFloat.ltb (b64_of_Z 5) (PrimFloat.add (b64_literal 3.01) (b64_of_Z 2)) = true
  /\ (let r := Parametric.to_percentages binary64_arithmetic 60
                 (mkSatisfaction "2 and 1 of 60" 30 20 7 2 1)%Z in
      PrimFloat.add (somewhat_dissatisfied r) (very_dissatisfied r) = b64_of_Z 5
      /\ b64_labels [r]
         = [neither r; PrimFloat.add (somewhat_satisfied r) (very_satisfied r)])
  /\ (let r := Parametric.to_percentages binary64_arithmetic 260
                 (mkSatisfaction "12 and 1 of 260" 130 100 17 12 1)%Z in
      PrimFloat.ltb (b64_of_Z 5)
        (PrimFloat.add (somewhat_dissatisfied r) (very_dissatisfied r)) = true
      /\ b64_labels [r]
         = [PrimFloat.add (somewhat_dissatisfied r) (very_dissatisfied r); neither r;
            PrimFloat.add (somewhat_satisfied r) (very_satisfied r)]).
Proof.
  split; [|split; [reflexivity | repeat split; vm_compute; reflexivity]].
  intros num A rows ax st Hst.
  destruct (Parametric.diverging_layout_run num A rows) as (cs & Hrun & Hbars & Hlab).
  exists cs. unfold Parametric.diverging_rects in Hbars. cbv zeta in Hbars.
  do 5 eexists. split; [apply Hrun; exact Hst|]. split; [exact Hbars|].
  intros i r Hr dissatisfied satisfied.
  pose proof (Parametric.diverging_rects_at num A rows i r Hr) as Hnth.
  unfold Parametric.diverging_rects in Hnth. cbv zeta in Hnth. cbn [map] in Hnth.
  injection Hnth as H1 H2 H3 H4 H5.
  destruct (Hlab i r Hr) as (before & after & Ht & Hb & Ha).
  exists before, after. do 3 eexists.
  split; [exact H1|]. split; [exact H3|]. split; [exact H4|].
  split; [reflexivity|].
  split; [exact Ht|]. split; assumption.
Qed.

Lemma mode_a_labels_witness :
  exists cs b1 b2 b3 b4 b5 before after very_neg somewhat_pos,
    Parametric.diverging_layout binary64_arithmetic 0
      [row_of binary64_arithmetic "above threshold" 2 3.01 5.01 40 49.98] [[]]
    = Ok (tt, Parametric.append_calls 0 cs [[]])
    /\ Parametric.bar_containers cs = [b1; b2; b3; b4; b5]
    /\ nth_error b1 0 = Some very_neg
    /\ nth_error b4 0 = Some somewhat_pos
    /\ Parametric.texts cs
       = before
         ++ (Parametric.label_if binary64_arithmetic true
               (PrimFloat.add (Parametric.rect_x very_neg)
                  (PrimFloat.div (PrimFloat.add (b64_literal 3.01) (b64_literal 2))
                     (b64_of_Z 2)))
               0 (PrimFloat.add (b64_literal 3.01) (b64_literal 2))
             ++ Parametric.label_if binary64_arithmetic true (b64_of_Z 0) 0 (b64_literal 5.01)
             ++ Parametric.label_if binary64_arithmetic true
                  (PrimFloat.add (Parametric.rect_x somewhat_pos)
                     (PrimFloat.div (PrimFloat.add (b64_literal 40) (b64_literal 49.98))
                        (b64_of_Z 2)))
                  0 (PrimFloat.add (b64_literal 40) (b64_literal 49.98)))
         ++ after.
Proof.
  destruct (proj1 mode_a_labels binary64 binary64_arithmetic
              [row_of binary64_arithmetic "above threshold" 2 3.01 5.01 40 49.98]
              0%nat [[]])
    as (cs & b1 & b2 & b3 & b4 & b5 & Hrun & Hb & Hlab).
  { simpl. lia. }
  destruct (Hlab 0%nat (row_of binary64_arithmetic "above threshold" 2 3.01 5.01 40 49.98))
    as (before & after & r1 & r3 & r4 & N1 & _ & N4 & _ & Ht & _).
  { reflexivity. }
  exists cs, b1, b2, b3, b4, b5, before, after, r1, r4.
  split; [exact Hrun|]. split; [exact Hb|]. split; [exact N1|]. split; [exact N4|].
  exact Ht.
Defined.

(** ** The sort order and the insertion argsort *)

Lemma sort_ltb_asym (x y : float) : sort_ltb x y = true -> sort_ltb y x = false.
Proof.
  destruct x as [a| | |], y as [b| | |]; unfold sort_ltb; simpl;
    try discriminate; try reflexivity.
  rewrite !orb_false_r, negb_true_iff, negb_false_iff.
  intros H. apply Qle_bool_iff. apply Qlt_le_weak.
  apply Qnot_le_lt. intros L. apply Qle_bool_iff in L. congruence.
Qed.

Lemma sort_ltb_trans (x y z : float) :
  sort_ltb x y = true -> sort_ltb y z = true -> sort_ltb x z = true.
Proof.
  destruct x as [a| | |], y as [b| | |], z as [c| | |]; unfold sort_ltb; simpl;
    try discriminate; try reflexivity.
  rewrite !orb_false_r, !negb_true_iff.
  intros H1 H2.
  destruct (Qle_bool c a) eqn:E; [|reflexivity].
  apply Qle_bool_iff in E.
  assert (L1 : a < b).
  { apply Qnot_le_lt. intros L. apply Qle_bool_iff in L. congruence. }
  assert (L2 : b < c).
  { apply Qnot_le_lt. intros L. apply Qle_bool_iff in L. congruence. }
  lra.
Qed.

Lemma sort_ltb_Fin (a b : Q) : sort_ltb (Fin a) (Fin b) = false <-> b <= a.
Proof.
  unfold sort_ltb. simpl. rewrite orb_false_r. rewrite negb_false_iff.
  apply Qle_bool_iff.
Qed.

Section InsertionArgsort.

Variable a : list float.

(** [i] may stand before [j] in an ascending order of the values of [a]. *)
Definition ascending (i j : nat) : Prop :=
  sort_ltb (at_index a j) (at_index a i) = false.

Lemma insert_index_perm (i : nat) (l : list nat) :
  Permutation (insert_index a i l) (i :: l).
Proof.
  induction l as [|j t IH]; simpl.
  - apply Permutation_refl.
  - destruct (sort_ltb (at_index a i) (at_index a j)).
    + apply Permutation_refl.
    + eapply perm_trans; [apply perm_skip; exact IH | apply perm_swap].
Qed.

Lemma insert_index_sorted (i : nat) (l : list nat) :
  StronglySorted ascending l -> StronglySorted ascending (insert_index a i l).
Proof.
  induction l as [|j t IH]; intros Hs; simpl.
  - constructor; constructor.
  - inversion Hs as [|? ? Ht Hj]; subst.
    destruct (sort_ltb (at_index a i) (at_index a j)) eqn:E.
    + constructor; [exact Hs|]. constructor.
      * unfold ascending. apply sort_ltb_asym. exact E.
      * apply Forall_forall. intros k Hk.
        rewrite Forall_forall in Hj. specialize (Hj k Hk).
        unfold ascending in *.
        destruct (sort_ltb (at_index a k) (at_index a i)) eqn:E'; [|reflexivity].
        rewrite (sort_ltb_trans _ _ _ E' E) in Hj. discriminate.
    + constructor; [apply IH; exact Ht|].
      apply Forall_forall. intros k Hk.
      apply (Permutation_in _ (insert_index_perm i t)) in Hk.
      destruct Hk as [<-|Hk].
      * exact E.
      * rewrite Forall_forall in Hj. apply Hj. exact Hk.
Qed.

Lemma fold_insert_perm (l acc : list nat) :
  Permutation (fold_left (fun sorted i => insert_index a i sorted) l acc) (acc ++ l).
Proof.
  revert acc. induction l as [|i t IH]; intros acc; simpl.
  - rewrite app_nil_r. apply Permutation_refl.
  - eapply perm_trans; [apply IH|].
    eapply perm_trans; [apply Permutation_app_tail; apply insert_index_perm|].
    simpl. apply Permutation_middle.
Qed.

Lemma fold_insert_sorted (l acc : list nat) :
  StronglySorted ascending acc ->
  StronglySorted ascending (fold_left (fun sorted i => insert_index a i sorted) l acc).
Proof.
  revert acc. induction l as [|i t IH]; intros acc Hs; simpl.
  - exact Hs.
  - apply IH. apply insert_index_sorted. exact Hs.
Qed.

Lemma insertion_argsort_perm :
  Permutation (insertion_argsort a) (seq 0 (List.length a)).
Proof. unfold insertion_argsort. apply (fold_insert_perm _ []). Qed.

Lemma insertion_argsort_sorted : StronglySorted ascending (insertion_argsort a).
Proof. unfold insertion_argsort. apply fold_insert_sorted. constructor. Qed.

End InsertionArgsort.

(** The insertion sort meets what the script relies on. *)
Definition insertion_Argsort : Argsort := {|
  np_argsort := insertion_argsort;
  np_argsort_perm := insertion_argsort_perm;
  np_argsort_sorted := insertion_argsort_sorted
|}.

(** ** What the dumbbell layout draws *)

Definition yticklabels (cs : list ax_call) : list (list string) :=
  flat_map (fun c => match c with SetYticklabels l _ => [l] | _ => [] end) cs.

Lemma yticklabels_app (cs cs' : list ax_call) :
  yticklabels (cs ++ cs') = yticklabels cs ++ yticklabels cs'.
Proof. apply flat_map_app. Qed.

Lemma yticklabels_flat_map_nil {A} (g : A -> list ax_call) (l : list A) :
  (forall x, yticklabels (g x) = []) -> yticklabels (flat_map g l) = [].
Proof.
  intros H. induction l as [|x t IH]; simpl; auto.
  rewrite yticklabels_app, H, IH. reflexivity.
Qed.

Lemma map2_map {A B C D} (f : B -> C -> D) (g : A -> B) (h : A -> C) (l : list A) :
  map2 f (map g l) (map h l) = map (fun x => f (g x) (h x)) l.
Proof. induction l as [|x t IH]; simpl; auto. f_equal. exact IH. Qed.

Definition default_intervention : intervention := mkIntervention "" NaN NaN.

(** [gap = |p_with - p_without|] *)
Definition gap_of (r : intervention) : float :=
  fabs (fsub (with_curriculum r) (without_curriculum r)).

Lemma gaps_column (rows : list intervention) :
  map fabs (map2 fsub (map with_curriculum rows) (map without_curriculum rows))
  = map gap_of rows.
Proof. rewrite map2_map, map_map. reflexivity. Qed.

Lemma take_column {A B} (f : A -> B) (rows : list A) (d : A) (idx : list nat) :
  map (fun i => nth i (map f rows) (f d)) idx
  = map f (map (fun i => nth i rows d) idx).
Proof.
  rewrite map_map. apply map_ext. intros i. apply List.map_nth.
Qed.

Definition dumbbell_kw_connector : kwargs :=
  [("color"%string, VStr COLOR_GRAY); ("linewidth"%string, VInt 2);
   ("markersize"%string, VInt 10); ("markerfacecolor"%string, VStr "white");
   ("markeredgewidth"%string, VInt 2)].

(** The three [plot] calls of the category at vertical position [k]: the
    connecting line from the "without" value to the "with" value, and the two
    dots. *)
Definition dumbbell_lines (r : intervention) (k : nat) : list ax_call :=
  [ Line2D [without_curriculum r; with_curriculum r] [of_nat k; of_nat k] "o-"
      dumbbell_kw_connector;
    Line2D [with_curriculum r] [of_nat k] "o"
      [("markersize"%string, VInt 12); ("color"%string, VStr COLOR_POSITIVE);
       ("zorder"%string, VInt 3)];
    Line2D [without_curriculum r] [of_nat k] "o"
      [("markersize"%string, VInt 12); ("color"%string, VStr COLOR_NEGATIVE);
       ("zorder"%string, VInt 3)] ].

(** The gap annotation of the category at vertical position [k]. *)
Definition gap_annotation (r : intervention) (k : nat) : ax_call :=
  Text (fdiv (fadd (with_curriculum r) (without_curriculum r)) (Fin 2))
       (fadd (of_nat k) (Fin 0.35))
       [Lit "Δ"; FmtF 1 (gap_of r); Lit "%"]
       [("ha"%string, VStr "center"); ("fontsize"%string, VInt ANNOTATION_SIZE);
        ("style"%string, VStr "italic")].

Definition at_row {A} (sorted : list intervention) (g : intervention -> nat -> list A)
    (k : nat) : list A :=
  match nth_error sorted k with
  | Some r => g r k
  | None => []
  end.

Section Figure2Facts.

Context {numpy_sort : Argsort}.

(** The categories in the order in which the layout places them, from
    vertical position 0 upwards. *)
Definition dumbbell_order (rows : list intervention) : list intervention :=
  map (fun i => nth i rows default_intervention)
      (rev (np_argsort (map gap_of rows))).

Lemma argsort_in_range (a : list float) :
  Forall (fun i => (i < List.length a)%nat) (np_argsort a).
Proof.
  apply Forall_forall. intros i Hi.
  apply (Permutation_in _ (np_argsort_perm a)) in Hi.
  apply in_seq in Hi. lia.
Qed.

Lemma argsort_length (a : list float) : List.length (np_argsort a) = List.length a.
Proof.
  rewrite (Permutation_length (np_argsort_perm a)). apply length_seq.
Qed.

Lemma dumbbell_order_length (rows : list intervention) :
  List.length (dumbbell_order rows) = List.length rows.
Proof.
  unfold dumbbell_order.
  rewrite length_map, length_rev, argsort_length, length_map. reflexivity.
Qed.

Lemma dumbbell_layout_draws (rows : list intervention) :
  exists cs,
    (forall ax, draws ax (dumbbell_layout ax rows) tt cs)
    /\ lines cs
       = flat_map (at_row (dumbbell_order rows) dumbbell_lines)
                  (seq 0 (List.length rows))
    /\ texts cs
       = flat_map (at_row (dumbbell_order rows) (fun r k => [gap_annotation r k]))
                  (seq 0 (List.length rows))
    /\ yticklabels cs = [map intervention_name (dumbbell_order rows)].
Proof.
  assert (Hidx : forall (A : Type) (col : list A), List.length col = List.length rows ->
             Forall (fun i => (i < List.length col)%nat)
                    (rev (np_argsort (map gap_of rows)))).
  { intros A col Hlen. apply Forall_rev.
    rewrite Hlen, <- (length_map gap_of rows). apply argsort_in_range. }
  assert (Hrow : forall k, In k (seq 0 (List.length (map intervention_name (dumbbell_order rows)))) ->
             exists r, nth_error (dumbbell_order rows) k = Some r).
  { intros k Hk. apply in_seq in Hk. rewrite length_map in Hk.
    destruct (nth_error (dumbbell_order rows) k) as [r|] eqn:E; [eauto|].
    apply nth_error_None in E. lia. }
  eexists. split; [|split; [|split]].
  - intros ax. unfold dumbbell_layout. cbv zeta. rewrite gaps_column.
    eapply draws_bind.
    { apply (draws_take ax _ _ (intervention_name default_intervention)).
      apply Hidx. apply length_map. }
    eapply draws_bind.
    { apply (draws_take ax _ _ (with_curriculum default_intervention)).
      apply Hidx. apply length_map. }
    eapply draws_bind.
    { apply (draws_take ax _ _ (without_curriculum default_intervention)).
      apply Hidx. apply length_map. }
    eapply draws_bind.
    { apply (draws_take ax _ _ (gap_of default_intervention)).
      apply Hidx. apply length_map. }
    rewrite !take_column. fold (dumbbell_order rows).
    eapply draws_bind.
    { apply draws_for with (g := at_row (dumbbell_order rows) dumbbell_lines).
      intros k Hk. destruct (Hrow k Hk) as [r Hr].
      unfold at_row. rewrite Hr.
      assert (Hw : nth_error (map with_curriculum (dumbbell_order rows)) k
                   = Some (with_curriculum r))
        by (rewrite nth_error_map, Hr; reflexivity).
      assert (Hwo : nth_error (map without_curriculum (dumbbell_order rows)) k
                    = Some (without_curriculum r))
        by (rewrite nth_error_map, Hr; reflexivity).
      eapply draws_eq; [draw | reflexivity]. }
    do 9 (eapply draws_bind; [apply draws_emit|]).
    apply draws_for
      with (g := at_row (dumbbell_order rows) (fun r k => [gap_annotation r k])).
    intros k Hk. destruct (Hrow k Hk) as [r Hr].
    unfold at_row. rewrite Hr.
    assert (Hw : nth_error (map with_curriculum (dumbbell_order rows)) k
                 = Some (with_curriculum r))
      by (rewrite nth_error_map, Hr; reflexivity).
    assert (Hwo : nth_error (map without_curriculum (dumbbell_order rows)) k
                  = Some (without_curriculum r))
      by (rewrite nth_error_map, Hr; reflexivity).
    assert (Hg : nth_error (map gap_of (dumbbell_order rows)) k = Some (gap_of r))
      by (rewrite nth_error_map, Hr; reflexivity).
    eapply draws_eq; [draw | reflexivity].
  - repeat rewrite lines_app. rewrite !lines_flat_map.
    rewrite length_map, dumbbell_order_length. simpl.
    rewrite (flat_map_nil_all
               (fun x => lines (at_row (dumbbell_order rows)
                                  (fun r k => [gap_annotation r k]) x))).
    + rewrite app_nil_r. apply flat_map_ext. intros k.
      unfold at_row. destruct (nth_error (dumbbell_order rows) k); reflexivity.
    + intros k. unfold at_row.
      destruct (nth_error (dumbbell_order rows) k); reflexivity.
  - repeat rewrite texts_app. rewrite !texts_flat_map.
    rewrite length_map, dumbbell_order_length. simpl.
    rewrite (flat_map_nil_all
               (fun x => texts (at_row (dumbbell_order rows) dumbbell_lines x))).
    + simpl. apply flat_map_ext. intros k.
      unfold at_row. destruct (nth_error (dumbbell_order rows) k); reflexivity.
    + intros k. unfold at_row.
      destruct (nth_error (dumbbell_order rows) k); reflexivity.
  - repeat rewrite yticklabels_app.
    rewrite !yticklabels_flat_map_nil; [reflexivity | |];
      intros k; unfold at_row;
      destruct (nth_error (dumbbell_order rows) k); reflexivity.
Qed.

End Figure2Facts.

(** ** The order of the dumbbell layout *)

Lemma StronglySorted_app_one {A} (R : A -> A -> Prop) (l : list A) (x : A) :
  StronglySorted R l -> Forall (fun y => R y x) l -> StronglySorted R (l ++ [x]).
Proof.
  induction l as [|y t IH]; intros Hs Hx; simpl.
  - constructor; constructor.
  - inversion Hs as [|? ? Ht Hy]; subst. inversion Hx as [|? ? Hyx Htx]; subst.
    constructor; [apply IH; assumption|].
    apply Forall_app. split; [exact Hy|]. constructor; [exact Hyx | constructor].
Qed.

Lemma StronglySorted_rev {A} (R : A -> A -> Prop) (l : list A) :
  StronglySorted R l -> StronglySorted (fun x y => R y x) (rev l).
Proof.
  induction l as [|x t IH]; intros Hs; simpl.
  - constructor.
  - inversion Hs as [|? ? Ht Hx]; subst.
    apply StronglySorted_app_one; [apply IH; exact Ht|].
    apply Forall_rev. exact Hx.
Qed.

Lemma StronglySorted_map {A B} (R : B -> B -> Prop) (f : A -> B) (l : list A) :
  StronglySorted (fun x y => R (f x) (f y)) l -> StronglySorted R (map f l).
Proof.
  induction l as [|x t IH]; intros Hs; simpl.
  - constructor.
  - inversion Hs as [|? ? Ht Hx]; subst.
    constructor; [apply IH; exact Ht|].
    apply Forall_forall. intros y Hy. apply in_map_iff in Hy.
    destruct Hy as [z [<- Hz]]. rewrite Forall_forall in Hx. apply Hx. exact Hz.
Qed.

Lemma StronglySorted_nth_error {A} (R : A -> A -> Prop) (l : list A) (i j : nat) x y :
  StronglySorted R l -> (i < j)%nat ->
  nth_error l i = Some x -> nth_error l j = Some y -> R x y.
Proof.
  intros Hs. revert i j. induction Hs as [|a t Ht IH Ha]; intros i j Hij Hi Hj.
  - destruct i; discriminate.
  - destruct j as [|j]; [lia|]. destruct i as [|i]; simpl in *.
    + injection Hi as <-. rewrite Forall_forall in Ha. apply Ha.
      eapply nth_error_In. exact Hj.
    + apply (IH i j); auto. lia.
Qed.

(** A sorted arrangement is unique when no two distinct elements are
    mutually in order. *)
Lemma sorted_permutation_unique {A} (R : A -> A -> Prop) (l l' : list A) :
  (forall x y, In x l -> In y l -> R x y -> R y x -> x = y) ->
  Permutation l l' -> StronglySorted R l -> StronglySorted R l' -> l = l'.
Proof.
  revert l'. induction l as [|x t IH]; intros l' Hanti Hp Hs Hs'.
  - apply Permutation_nil in Hp. subst. reflexivity.
  - destruct l' as [|y t'].
    + apply Permutation_sym, Permutation_nil in Hp. discriminate.
    + inversion Hs as [|? ? Ht Hx]; subst. inversion Hs' as [|? ? Ht' Hy]; subst.
      assert (Exy : x = y).
      { assert (Hx' : In x (y :: t')) by (apply (Permutation_in _ Hp); left; reflexivity).
        assert (Hy' : In y (x :: t))
          by (apply (Permutation_in _ (Permutation_sym Hp)); left; reflexivity).
        destruct Hx' as [->|Hx']; [reflexivity|].
        destruct Hy' as [->|Hy']; [reflexivity|].
        rewrite Forall_forall in Hx, Hy.
        apply Hanti; [left; reflexivity | right; exact Hy' | apply Hx; exact Hy'
                     | apply Hy; exact Hx']. }
      subst y. f_equal. apply IH; auto.
      * intros a b Ha Hb. apply Hanti; right; assumption.
      * eapply Permutation_cons_inv. exact Hp.
Qed.

Lemma map_nth_seq {A} (l : list A) (d : A) :
  map (fun i => nth i l d) (seq 0 (List.length l)) = l.
Proof.
  induction l as [|x t IH]; simpl; auto.
  f_equal. rewrite <- seq_shift, map_map. exact IH.
Qed.

(** [r] may stand before [r'] in a descending order of the gaps. *)
Definition gap_descending (r r' : intervention) : Prop :=
  sort_ltb (gap_of r) (gap_of r') = false.

Lemma gap_of_finite (r : intervention) (w wo : Q) :
  with_curriculum r = Fin w -> without_curriculum r = Fin wo ->
  gap_of r = Fin (Qabs (w - wo)).
Proof. intros Hw Hwo. unfold gap_of. rewrite Hw, Hwo. reflexivity. Qed.

Section DumbbellOrder.

Context {numpy_sort : Argsort}.

Lemma dumbbell_order_perm (rows : list intervention) :
  Permutation (dumbbell_order rows) rows.
Proof.
  unfold dumbbell_order.
  rewrite <- (map_nth_seq rows default_intervention) at 2.
  apply Permutation_map.
  eapply perm_trans; [apply Permutation_sym, Permutation_rev|].
  rewrite <- (length_map gap_of rows). apply np_argsort_perm.
Qed.

Lemma dumbbell_order_sorted (rows : list intervention) :
  StronglySorted gap_descending (dumbbell_order rows).
Proof.
  unfold dumbbell_order. apply StronglySorted_map.
  pose proof (StronglySorted_rev _ _ (np_argsort_sorted (map gap_of rows))) as H.
  eapply StronglySorted_ind with (P := StronglySorted _) in H; [exact H | constructor |].
  clear H. intros i l Hl IH Hi. constructor; [exact IH|].
  eapply Forall_impl; [|exact Hi]. intros j Hj. cbv beta in Hj.
  unfold gap_descending, at_index in *.
  change NaN with (gap_of default_intervention) in Hj.
  rewrite !List.map_nth in Hj. exact Hj.
Qed.

End DumbbellOrder.

Lemma nth_error_flat_map_seq {B} (g : nat -> list B) (c : nat) (n s k j : nat) :
  (forall i, (s <= i < s + n)%nat -> List.length (g i) = c) ->
  (k < n)%nat -> (j < c)%nat ->
  nth_error (flat_map g (seq s n)) (c * k + j) = nth_error (g (s + k)%nat) j.
Proof.
  revert s k. induction n as [|n IH]; intros s k Hlen Hk Hj; [lia|].
  simpl. destruct k as [|k].
  - rewrite Nat.mul_0_r, Nat.add_0_r. simpl.
    apply nth_error_app1. rewrite Hlen; lia.
  - rewrite nth_error_app2 by (rewrite Hlen; nia).
    rewrite Hlen by lia.
    replace (c * S k + j - c)%nat with (c * k + j)%nat by nia.
    rewrite IH; [|intros i Hi; apply Hlen; lia | lia | exact Hj].
    f_equal. f_equal. lia.
Qed.

(** Three categories with gaps 3, 10 and 1. *)
Definition gaps_example : list intervention :=
  [ mkIntervention "gap 3" (Fin 13) (Fin 10);
    mkIntervention "gap 10" (Fin 20) (Fin 10);
    mkIntervention "gap 1" (Fin 5) (Fin 4) ].

(** Two categories with the same gap, 3. *)
Definition tie_example : list intervention :=
  [ mkIntervention "first" (Fin 10) (Fin 7);
    mkIntervention "second" (Fin 5) (Fin 2) ].

Section ModeB.

Context {numpy_sort : Argsort}.

Lemma gaps_example_order :
  dumbbell_order gaps_example
  = [ mkIntervention "gap 10" (Fin 20) (Fin 10);
      mkIntervention "gap 3" (Fin 13) (Fin 10);
      mkIntervention "gap 1" (Fin 5) (Fin 4) ].
Proof.
  apply (sorted_permutation_unique gap_descending).
  - intros x y Hx Hy.
    apply (Permutation_in _ (dumbbell_order_perm gaps_example)) in Hx, Hy.
    simpl in Hx, Hy.
    destruct Hx as [<-|[<-|[<-|[]]]]; destruct Hy as [<-|[<-|[<-|[]]]];
      unfold gap_descending; simpl; intros H1 H2;
      try reflexivity; try discriminate H1; try discriminate H2.
  - eapply perm_trans; [apply dumbbell_order_perm|]. apply perm_swap.
  - apply dumbbell_order_sorted.
  - repeat constructor.
Qed.

(** C7, as the code has it.  Whatever function [np.argsort] is, within its
    contract, the dumbbell layout places the categories, from vertical
    position 0 upwards, in an order that is a rearrangement of the input and
    in which the gaps [|p_with - p_without|] descend; gaps [3, 10, 1] give
    the order [10, 3, 1].  Nothing is stated of the order of categories with
    equal gaps: it is the one of the reversed argsort, which the contract
    leaves open. *)
Theorem mode_b_ordering :
  (forall (rows : list intervention) (ax : nat) (s : pyplot),
      valid_ax ax s ->
      exists cs,
        dumbbell_layout ax rows s = Ok (tt, append_calls ax cs s)
        /\ Permutation (dumbbell_order rows) rows
        /\ yticklabels cs = [map intervention_name (dumbbell_order rows)]
        /\ lines cs = flat_map (at_row (dumbbell_order rows) dumbbell_lines)
                               (seq 0 (List.length rows))
        /\ forall (k k' : nat) (r r' : intervention) (w wo w' wo' : Q),
            (k < k')%nat ->
            nth_error (dumbbell_order rows) k = Some r ->
            nth_error (dumbbell_order rows) k' = Some r' ->
            with_curriculum r = Fin w -> without_curriculum r = Fin wo ->
            with_curriculum r' = Fin w' -> without_curriculum r' = Fin wo' ->
            Qabs (w' - wo') <= Qabs (w - wo))
  /\ Forall2 feq (map gap_of gaps_example) [Fin 3; Fin 10; Fin 1]
  /\ Forall2 feq (map gap_of (dumbbell_order gaps_example)) [Fin 10; Fin 3; Fin 1].
Proof.
  split; [|split].
  - intros rows ax s Hs.
    destruct (dumbbell_layout_draws rows) as (cs & Hdraw & Hlines & _ & Hticks).
    exists cs.
    split; [apply Hdraw; exact Hs|].
    split; [apply dumbbell_order_perm|].
    split; [exact Hticks|]. split; [exact Hlines|].
    intros k k' r r' w wo w' wo' Hk Hr Hr' Hw Hwo Hw' Hwo'.
    pose proof (StronglySorted_nth_error _ _ _ _ _ _
                  (dumbbell_order_sorted rows) Hk Hr Hr') as H.
    unfold gap_descending in H.
    rewrite (gap_of_finite r w wo Hw Hwo), (gap_of_finite r' w' wo' Hw' Hwo') in H.
    apply sort_ltb_Fin in H. exact H.
  - repeat constructor.
  - rewrite gaps_example_order. repeat constructor.
Qed.

End ModeB.

Lemma mode_b_ordering_witness :
  exists cs,
    @dumbbell_layout insertion_Argsort 0 gaps_example one_axes
    = Ok (tt, append_calls 0 cs one_axes)
    /\ Permutation (@dumbbell_order insertion_Argsort gaps_example) gaps_example
    /\ yticklabels cs
       = [map intervention_name (@dumbbell_order insertion_Argsort gaps_example)]
    /\ Qabs (13 - 10) <= Qabs (20 - 10).
Proof.
  destruct (proj1 (@mode_b_ordering insertion_Argsort) gaps_example 0%nat one_axes)
    as (cs & Hrun & Hperm & Hticks & _ & Hord).
  { unfold valid_ax. simpl. lia. }
  exists cs. repeat (split; [assumption|]).
  apply (Hord 0%nat 1%nat (mkIntervention "gap 10" (Fin 20) (Fin 10))
              (mkIntervention "gap 3" (Fin 13) (Fin 10)) 20 10 13 10);
    try reflexivity. lia.
Defined.

(** The contract of [np.argsort] does not keep categories of equal gap in
    input order: there is an argsort within the contract, the insertion sort,
    with which two categories of gap 3 come out in the reverse of their input
    order, the ascending order of the argsort being read backwards. *)
Lemma mode_b_ties_reversed :
  exists numpy_sort : Argsort,
    map intervention_name tie_example = ["first"%string; "second"%string]
    /\ Forall2 feq (map gap_of tie_example) [Fin 3; Fin 3]
    /\ map intervention_name (@dumbbell_order numpy_sort tie_example)
       = ["second"%string; "first"%string]
    /\ yticklabels
         (drawn_on_blank (fun ax => @dumbbell_layout numpy_sort ax tie_example))
       = [["second"%string; "first"%string]].
Proof.
  exists insertion_Argsort.
  split; [reflexivity|]. split; [repeat constructor|].
  split; reflexivity.
Qed.

(** ** Annotations and connectors of the dumbbell layout *)

(** The horizontal extent of a line drawn between two points. *)
Definition line_span (c : ax_call) : option (float * float) :=
  match c with
  | Line2D [x0; x1] _ _ _ => Some (fmin x0 x1, fmax x0 x1)
  | _ => None
  end.

Lemma fmin_Fin (a b : Q) : feq (fmin (Fin a) (Fin b)) (Fin (Qmin a b)).
Proof.
  unfold fmin. destruct (fltb (Fin b) (Fin a)) eqn:E.
  - apply fltb_Fin in E. simpl. symmetry. apply Q.min_r. lra.
  - apply fltb_Fin_false in E. simpl. symmetry. apply Q.min_l. exact E.
Qed.

Lemma fmax_Fin (a b : Q) : feq (fmax (Fin a) (Fin b)) (Fin (Qmax a b)).
Proof.
  unfold fmax. destruct (fltb (Fin a) (Fin b)) eqn:E.
  - apply fltb_Fin in E. simpl. symmetry. apply Q.max_r. lra.
  - apply fltb_Fin_false in E. simpl. symmetry. apply Q.max_l. exact E.
Qed.

(** The single category of the end-to-end example of Mode B. *)
Definition pair_example : list intervention :=
  [ mkIntervention "example" (Fin 76.47) (Fin 50.0) ].

Section ModeBAnnotations.

Context {numpy_sort : Argsort}.

(** What is drawn for the category at vertical position [k]. *)
Definition dumbbell_at (cs : list ax_call) (k : nat) (w wo : Q) : Prop :=
  (exists x y g kw,
      nth_error (texts cs) k = Some (Text x y [Lit "Δ"; FmtF 1 g; Lit "%"] kw)
      /\ feq x (Fin ((w + wo) / 2))
      /\ feq y (Fin (inject_Z (Z.of_nat k) + 0.35))
      /\ feq g (Fin (Qabs (w - wo)))
      /\ kw_lookup "ha" kw = Some (VStr "center"))
  /\ (exists connector lo hi,
         nth_error (lines cs) (3 * k) = Some connector
         /\ connector = Line2D [Fin wo; Fin w] [of_nat k; of_nat k] "o-"
                          dumbbell_kw_connector
         /\ line_span connector = Some (lo, hi)
         /\ feq lo (Fin (Qmin w wo)) /\ feq hi (Fin (Qmax w wo)))
  /\ (exists kw_with kw_without,
         nth_error (lines cs) (3 * k + 1) = Some (Line2D [Fin w] [of_nat k] "o" kw_with)
         /\ nth_error (lines cs) (3 * k + 2)
            = Some (Line2D [Fin wo] [of_nat k] "o" kw_without)).

Lemma dumbbell_layout_annotations (rows : list intervention) (ax : nat) (s : pyplot) :
  valid_ax ax s ->
  exists cs,
    dumbbell_layout ax rows s = Ok (tt, append_calls ax cs s)
    /\ Permutation (dumbbell_order rows) rows
    /\ List.length (texts cs) = List.length rows
    /\ forall (k : nat) (r : intervention) (w wo : Q),
        nth_error (dumbbell_order rows) k = Some r ->
        with_curriculum r = Fin w -> without_curriculum r = Fin wo ->
        dumbbell_at cs k w wo.
Proof.
  intros Hs.
  destruct (dumbbell_layout_draws rows) as (cs & Hdraw & Hlines & Htexts & _).
  exists cs.
  split; [apply Hdraw; exact Hs|]. split; [apply dumbbell_order_perm|].
  assert (Hone : forall i, (0 <= i < 0 + List.length rows)%nat ->
             List.length (at_row (dumbbell_order rows)
                            (fun r k => [gap_annotation r k]) i) = 1%nat).
  { intros i Hi. unfold at_row.
    destruct (nth_error (dumbbell_order rows) i) eqn:E; [reflexivity|].
    apply nth_error_None in E. rewrite dumbbell_order_length in E. lia. }
  assert (Hthree : forall i, (0 <= i < 0 + List.length rows)%nat ->
             List.length (at_row (dumbbell_order rows) dumbbell_lines i) = 3%nat).
  { intros i Hi. unfold at_row.
    destruct (nth_error (dumbbell_order rows) i) eqn:E; [reflexivity|].
    apply nth_error_None in E. rewrite dumbbell_order_length in E. lia. }
  split.
  - rewrite Htexts. rewrite (flat_map_constant_length (c := 1%nat)).
    + rewrite length_seq. lia.
    + intros i Hi. apply in_seq in Hi. apply Hone. lia.
  - intros k r w wo Hr Hw Hwo.
    assert (Hk : (k < List.length rows)%nat).
    { rewrite <- dumbbell_order_length. apply nth_error_Some. congruence. }
    assert (Htext : nth_error (texts cs) k = Some (gap_annotation r k)).
    { rewrite Htexts.
      replace k with (1 * k + 0)%nat at 1 by lia.
      rewrite (nth_error_flat_map_seq _ 1 _ 0 k 0 Hone Hk) by lia.
      simpl. unfold at_row. rewrite Hr. reflexivity. }
    assert (Hline : forall j, (j < 3)%nat ->
               nth_error (lines cs) (3 * k + j) = nth_error (dumbbell_lines r k) j).
    { intros j Hj. rewrite Hlines.
      rewrite (nth_error_flat_map_seq _ 3 _ 0 k j Hthree Hk Hj).
      simpl. unfold at_row. rewrite Hr. reflexivity. }
    unfold dumbbell_at. split; [|split].
    + do 4 eexists. split; [exact Htext|].
      rewrite (gap_of_finite r w wo Hw Hwo), Hw, Hwo. simpl.
      repeat split; reflexivity.
    + do 3 eexists. rewrite <- (Nat.add_0_r (3 * k)).
      rewrite (Hline 0%nat) by lia. simpl. rewrite Hw, Hwo.
      split; [reflexivity|]. split; [reflexivity|]. split; [reflexivity|].
      split.
      * eapply feq_trans; [apply fmin_Fin|]. simpl. apply Q.min_comm.
      * eapply feq_trans; [apply fmax_Fin|]. simpl. apply Q.max_comm.
    + do 2 eexists. rewrite (Hline 1%nat), (Hline 2%nat) by lia.
      simpl. rewrite Hw, Hwo. split; reflexivity.
Qed.

Lemma dumbbell_order_single (r : intervention) : dumbbell_order [r] = [r].
Proof.
  apply Permutation_length_1_inv. apply Permutation_sym. apply dumbbell_order_perm.
Qed.

(** C8. For every category of the dumbbell layout, whatever its gap, there is
    one annotation showing the gap, at the horizontal midpoint
    (p_with + p_without)/2 and 0.35 above the vertical position of the
    category, and a connector from p_without to p_with at that position,
    which spans [min(p_with, p_without), max(p_with, p_without)]; for
    p_with = 76.47 and p_without = 50.0 the gap is 26.47 and the connector
    spans [50.0, 76.47]. *)
Theorem mode_b_annotations :
  (forall (rows : list intervention) (ax : nat) (s : pyplot),
      valid_ax ax s ->
      exists cs,
        dumbbell_layout ax rows s = Ok (tt, append_calls ax cs s)
        /\ Permutation (dumbbell_order rows) rows
        /\ List.length (texts cs) = List.length rows
        /\ forall (k : nat) (r : intervention) (p_with p_without : Q),
            nth_error (dumbbell_order rows) k = Some r ->
            with_curriculum r = Fin p_with -> without_curriculum r = Fin p_without ->
            dumbbell_at cs k p_with p_without)
  /\ (forall (ax : nat) (s : pyplot),
        valid_ax ax s ->
        exists cs,
          dumbbell_layout ax pair_example s = Ok (tt, append_calls ax cs s)
          /\ dumbbell_at cs 0 76.47 50.0)
  /\ Qabs (76.47 - 50.0) == 26.47
  /\ Qmin 76.47 50.0 == 50.0 /\ Qmax 76.47 50.0 == 76.47.
Proof.
  split; [|split].
  - intros rows ax s Hs. apply dumbbell_layout_annotations. exact Hs.
  - intros ax s Hs.
    destruct (dumbbell_layout_annotations pair_example ax s Hs)
      as (cs & Hrun & _ & _ & Hat).
    exists cs. split; [exact Hrun|].
    apply (Hat 0%nat (mkIntervention "example" (Fin 76.47) (Fin 50.0)));
      [|reflexivity|reflexivity].
    unfold pair_example. rewrite dumbbell_order_single. reflexivity.
  - repeat split.
Qed.

End ModeBAnnotations.

Lemma mode_b_annotations_witness :
  exists cs,
    @dumbbell_layout insertion_Argsort 0 gaps_example one_axes
    = Ok (tt, append_calls 0 cs one_axes)
    /\ List.length (texts cs) = 3%nat
    /\ dumbbell_at cs 0 20 10.
Proof.
  destruct (proj1 (@mode_b_annotations insertion_Argsort) gaps_example 0%nat one_axes)
    as (cs & Hrun & _ & Hlen & Hat).
  { unfold valid_ax. simpl. lia. }
  exists cs. split; [exact Hrun|]. split; [exact Hlen|].
  apply (Hat 0%nat (mkIntervention "gap 10" (Fin 20) (Fin 10)) 20 10); reflexivity.
Defined.

(** ** Whole figures: from any state of pyplot to the written document *)

(** [m] appends the calls [cs] to the axes [h] and then goes on as [rest]. *)
Definition steps {B} (h : nat) (m : M B) (cs : list ax_call) (rest : M B) : Prop :=
  forall s, valid_ax h s -> m s = rest (append_calls h cs s).

Lemma steps_done {B} (h : nat) (m : M B) : steps h m [] m.
Proof. intros s _. rewrite append_calls_nil. reflexivity. Qed.

Lemma steps_bind {A B} (h : nat) (m : M A) (k : A -> M B) a cs1 cs2 (rest : M B) :
  draws h m a cs1 -> steps h (k a) cs2 rest -> steps h (bind m k) (cs1 ++ cs2) rest.
Proof.
  intros Hm Hk s Hs. unfold bind. rewrite (Hm s Hs).
  rewrite (Hk _ (valid_ax_append h h cs1 s Hs)).
  rewrite append_calls_app. reflexivity.
Qed.

Lemma steps_eq {B} (h : nat) (m : M B) (cs cs' : list ax_call) (rest : M B) :
  steps h m cs rest -> cs = cs' -> steps h m cs' rest.
Proof. intros H <-. exact H. Qed.

(** The state after a figure with one axes has been created, drawn with the
    calls [cs], laid out, saved and announced. *)
Definition after_single_figure (fkw : kwargs) (cs : list ax_call) (path : string)
    (skw : kwargs) (msg : string) (s : pyplot) : pyplot :=
  mkPyplot (axes_store s ++ [cs])
           (fig_store s
              ++ [mkFigure fkw [((1, 1, 1)%nat, List.length (axes_store s))] true])
           (Some (List.length (fig_store s)))
           ((path, mkDocument fkw [((1, 1, 1)%nat, cs)] true skw) :: files s)
           (stdout s ++ [msg]).

Ltac norm_state :=
  cbv beta delta [set_axes_store set_fig_store set_gcf set_files set_stdout];
  cbn [axes_store fig_store gcf files stdout fig_kw fig_axes fig_tight].

Lemma single_figure_run (fkw : kwargs) (body : nat -> M unit) (cs : list ax_call)
    (path : string) (skw : kwargs) (msg : string) :
  (forall ax, steps ax (body ax) cs
                (bind plt_tight_layout (fun _ =>
                 bind (plt_savefig path skw) (fun _ => print msg)))) ->
  forall s,
    bind (plt_subplots fkw) (fun x => match x with (_, ax) => body ax end) s
    = Ok (tt, after_single_figure fkw cs path skw msg s).
Proof.
  intros Hbody s. destruct s as [st fs g fl out].
  unfold bind at 1. unfold plt_subplots, bind, plt_figure, add_subplot, ret.
  norm_state.
  rewrite Hbody.
  2:{ unfold valid_ax. norm_state. rewrite length_app. simpl. lia. }
  unfold append_calls, plt_tight_layout, plt_savefig, plt_gcf, print, bind.
  norm_state.
  rewrite !update_at_app_length. norm_state.
  rewrite nth_error_app_length.
  unfold after_single_figure, snapshot, resolve_axes.
  norm_state. cbn [map fst snd app].
  rewrite nth_app_length. reflexivity.
Qed.

Lemma flat_map_single {A B} (f : A -> B) (l : list A) :
  flat_map (fun x => [f x]) l = map f l.
Proof. induction l as [|x t IH]; simpl; congruence. Qed.

Definition save_kw : kwargs :=
  [("dpi"%string, VInt DPI); ("bbox_inches"%string, VStr "tight")].

Section FigureRuns.

Context {numpy_sort : Argsort}.

Lemma create_figure2_run (rows : list intervention) :
  exists cs,
    (forall ax, draws ax (dumbbell_layout ax rows) tt cs)
    /\ forall s,
        create_figure2_with rows s
        = Ok (tt, after_single_figure
                    [("figsize"%string, VTuple [VInt 10; VInt 8])] cs figure2_path save_kw
                    "✓ Figure 2 created: ASP Interventions Dumbbell Plot" s).
Proof.
  destruct (dumbbell_layout_draws rows) as (cs & Hdraw & _).
  exists cs. split; [exact Hdraw|].
  intros s. unfold create_figure2_with.
  apply (single_figure_run _
           (fun ax => bind (dumbbell_layout ax rows) (fun _ =>
                      bind plt_tight_layout (fun _ =>
                      bind (plt_savefig figure2_path save_kw) (fun _ =>
                      print "✓ Figure 2 created: ASP Interventions Dumbbell Plot"))))).
  intros ax. eapply steps_eq.
  - eapply steps_bind; [apply Hdraw | apply steps_done].
  - apply app_nil_r.
Qed.

(** The barriers in the order in which the bar chart places them, from
    vertical position 0 upwards. *)
Definition barriers_order (rows : list (string * float)) : list (string * float) :=
  map (fun i => nth i rows (EmptyString, NaN)) (np_argsort (map snd rows)).

Definition barriers_rects (rows : list (string * float)) : list rectangle :=
  let percentages_sorted := map snd (barriers_order rows) in
  let y_pos := np_arange (List.length (map fst (barriers_order rows))) in
  barh_rects y_pos percentages_sorted (Fin 0.7) (repeat (Fin 0) (List.length y_pos)).

Definition barriers_bar_kw (color : string) : kwargs :=
  [("color"%string, VStr color); ("edgecolor"%string, VStr "black");
   ("linewidth"%string, VNum (Fin 1.2))].

(** The value label of one bar, to the right of its end. *)
Definition barrier_label (bar_pct : rectangle * float) : ax_call :=
  Text (fadd (get_width (fst bar_pct)) (Fin 1.5))
       (fadd (get_y (fst bar_pct)) (fdiv (get_height (fst bar_pct)) (Fin 2)))
       [FmtF 1 (snd bar_pct); Lit "%"]
       [("ha"%string, VStr "left"); ("va"%string, VStr "center");
        ("fontsize"%string, VInt TICK_SIZE); ("fontweight"%string, VStr "bold")].

Lemma barriers_in_range {A} (rows : list (string * float)) (col : list A) :
  List.length col = List.length rows ->
  Forall (fun i => (i < List.length col)%nat) (np_argsort (map snd rows)).
Proof.
  intros Hlen. rewrite Hlen, <- (length_map snd rows). apply argsort_in_range.
Qed.

Ltac barriers_steps rows :=
  eapply steps_bind;
    [ apply (draws_take _ _ _ (fst (EmptyString, NaN)));
      apply barriers_in_range; apply length_map |];
  eapply steps_bind;
    [ apply (draws_take _ _ _ (snd (EmptyString, NaN)));
      apply barriers_in_range; apply length_map |];
  rewrite !take_column; fold (barriers_order rows);
  eapply steps_bind; [apply draws_barh|];
  do 8 (eapply steps_bind; [apply draws_emit|]);
  eapply steps_bind;
    [ apply draws_for with (g := fun bar_pct => [barrier_label bar_pct]);
      intros bar_pct _; apply draws_text |];
  apply steps_done.

Lemma barriers_charts_run (rows : list (string * float)) :
  exists rest,
    (forall s,
        create_figure3_with rows s
        = Ok (tt, after_single_figure
                    [("figsize"%string, VTuple [VInt 10; VInt 6])]
                    (BarContainer (barriers_rects rows) (barriers_bar_kw COLOR_POSITIVE)
                       :: rest)
                    figure3_path save_kw
                    "✓ Figure 3 created: Barriers to Education" s))
    /\ (forall s,
          create_figure3_red_with rows s
          = Ok (tt, after_single_figure
                      [("figsize"%string, VTuple [VInt 10; VInt 6])]
                      (BarContainer (barriers_rects rows) (barriers_bar_kw COLOR_NEGATIVE)
                         :: rest)
                      figure3_red_path save_kw
                      "✓ Figure 3 (Red version) created: Barriers to Education" s))
    /\ bar_containers rest = []
    /\ yticklabels rest = [map fst (barriers_order rows)]
    /\ texts rest
       = map barrier_label (zip (barriers_rects rows) (map snd (barriers_order rows))).
Proof.
  eexists. split; [|split; [|split; [|split]]].
  - intros s. unfold create_figure3_with.
    eapply single_figure_run. intros ax. cbv zeta.
    eapply steps_eq; [barriers_steps rows|].
    cbn [app]. reflexivity.
  - intros s. unfold create_figure3_red_with.
    eapply single_figure_run. intros ax. cbv zeta.
    eapply steps_eq; [barriers_steps rows|].
    cbn [app]. reflexivity.
  - rewrite !app_nil_r. cbn [bar_containers flat_map app].
    apply (bar_containers_flat_map_nil (fun bar_pct => [barrier_label bar_pct])).
    reflexivity.
  - rewrite !app_nil_r. cbn [yticklabels flat_map app]. f_equal.
    apply (yticklabels_flat_map_nil (fun bar_pct => [barrier_label bar_pct])).
    reflexivity.
  - rewrite !app_nil_r. cbn [texts filter is_text].
    change (filter is_text ?l) with (texts l).
    rewrite texts_flat_map. cbn [texts filter is_text barrier_label].
    apply flat_map_single.
Qed.

End FigureRuns.

(** ** The two barriers charts *)

(** Replace the fill colour of the bars. *)
Definition recolor (color : string) (c : ax_call) : ax_call :=
  match c with
  | BarContainer r kw =>
      BarContainer r
        (map (fun kv => if String.eqb (fst kv) "color" then (fst kv, VStr color) else kv) kw)
  | _ => c
  end.

Definition recolor_document (color : string) (d : document) : document :=
  mkDocument (doc_fig_kw d)
             (map (fun a => (fst a, map (recolor color) (snd a))) (doc_axes d))
             (doc_tight d) (doc_save_kw d).

Definition bar_colors (cs : list ax_call) : list (option value) :=
  flat_map (fun c => match c with
                     | BarContainer _ kw => [kw_lookup "color" kw]
                     | _ => []
                     end) cs.

Lemma recolor_no_bars (color : string) (cs : list ax_call) :
  bar_containers cs = [] -> map (recolor color) cs = cs.
Proof.
  induction cs as [|c t IH]; simpl; auto.
  destruct c; simpl; try discriminate; intros H; f_equal; auto.
Qed.

Lemma bar_colors_no_bars (cs : list ax_call) :
  bar_containers cs = [] -> bar_colors cs = [].
Proof.
  induction cs as [|c t IH]; simpl; auto.
  destruct c; simpl; try discriminate; auto.
Qed.

Lemma read_file_written (path : string) (d : document) (fs : list (string * document)) :
  read_file path ((path, d) :: fs) = Some d.
Proof. simpl. rewrite String.eqb_refl. reflexivity. Qed.

(** [r] may stand before [r'] in an ascending order of the percentages. *)
Definition percentage_ascending (r r' : string * float) : Prop :=
  sort_ltb (snd r') (snd r) = false.

Section Barriers.

Context {numpy_sort : Argsort}.

Lemma barriers_order_perm (rows : list (string * float)) :
  Permutation (barriers_order rows) rows.
Proof.
  unfold barriers_order.
  rewrite <- (map_nth_seq rows (EmptyString, NaN)) at 2.
  apply Permutation_map.
  rewrite <- (length_map snd rows). apply np_argsort_perm.
Qed.

Lemma barriers_order_sorted (rows : list (string * float)) :
  StronglySorted percentage_ascending (barriers_order rows).
Proof.
  unfold barriers_order. apply StronglySorted_map.
  pose proof (np_argsort_sorted (map snd rows)) as H.
  eapply StronglySorted_ind with (P := StronglySorted _) in H; [exact H | constructor |].
  clear H. intros i l Hl IH Hi. constructor; [exact IH|].
  eapply Forall_impl; [|exact Hi]. intros j Hj. cbv beta in Hj.
  unfold percentage_ascending, at_index in *.
  change NaN with (snd (EmptyString, NaN)) in Hj.
  rewrite !List.map_nth in Hj. exact Hj.
Qed.

Lemma barriers_rects_nth (rows : list (string * float)) (k : nat) (r : string * float) :
  nth_error (barriers_order rows) k = Some r ->
  nth_error (barriers_rects rows) k
  = Some (mkRect (Fin 0) (fsub (of_nat k) (fdiv (Fin 0.7) (Fin 2))) (snd r) (Fin 0.7)).
Proof.
  intros Hr.
  assert (Hk : (k < List.length (barriers_order rows))%nat)
    by (apply nth_error_Some; congruence).
  unfold barriers_rects. cbv zeta. apply barh_rects_nth.
  - apply nth_error_np_arange. rewrite length_map. exact Hk.
  - rewrite nth_error_map, Hr. reflexivity.
  - rewrite nth_error_repeat; [reflexivity|].
    unfold np_arange. rewrite !length_map, length_seq. exact Hk.
Qed.

(** The two charts written from one state of pyplot. *)
Lemma barriers_documents (rows : list (string * float)) (s : pyplot) :
  exists rest s3 s3_red,
    create_figure3_with rows s = Ok (tt, s3)
    /\ create_figure3_red_with rows s = Ok (tt, s3_red)
    /\ read_file figure3_path (files s3)
       = Some (mkDocument [("figsize"%string, VTuple [VInt 10; VInt 6])]
                 [((1, 1, 1)%nat,
                   BarContainer (barriers_rects rows) (barriers_bar_kw COLOR_POSITIVE)
                     :: rest)]
                 true save_kw)
    /\ read_file figure3_red_path (files s3_red)
       = Some (mkDocument [("figsize"%string, VTuple [VInt 10; VInt 6])]
                 [((1, 1, 1)%nat,
                   BarContainer (barriers_rects rows) (barriers_bar_kw COLOR_NEGATIVE)
                     :: rest)]
                 true save_kw)
    /\ bar_containers rest = []
    /\ yticklabels rest = [map fst (barriers_order rows)]
    /\ texts rest
       = map barrier_label (zip (barriers_rects rows) (map snd (barriers_order rows))).
Proof.
  destruct (barriers_charts_run rows) as (rest & H3 & H3r & Hb & Hy & Ht).
  exists rest. do 2 eexists.
  split; [apply H3|]. split; [apply H3r|].
  unfold after_single_figure. cbn [files].
  rewrite !read_file_written. auto.
Qed.

End Barriers.

(** ** Figure 1 as a whole *)

Lemma calculate_interest_career_stats_ok (total : Z) :
  total <> 0%Z ->
  exists avg_interest avg_career,
    calculate_interest_career_stats_with total = Ok (avg_interest, avg_career).
Proof.
  intros Hn. unfold calculate_interest_career_stats_with.
  destruct (weighted_midpoint_average_value [12.5; 37.5; 62.5; 87.5]
              interest_counts total Hn) as [vi [Hi _]].
  destruct (weighted_midpoint_average_value [12.5; 37.5; 62.5; 87.5]
              career_counts total Hn) as [vc [Hc _]].
  change (map Fin [12.5; 37.5; 62.5; 87.5]) with midpoints in Hi, Hc.
  rewrite Hi, Hc. simpl. eauto.
Qed.

Lemma career_funnel_draws (total : Z) :
  total <> 0%Z -> exists cs, forall ax, draws ax (career_funnel ax total) tt cs.
Proof.
  intros Hn.
  destruct (calculate_interest_career_stats_ok total Hn) as (ai & ac & Hstats).
  eexists. intros ax. unfold career_funnel.
  do 3 (eapply draws_bind; [apply draws_emit|]).
  eapply draws_bind; [apply draws_lift; exact Hstats|].
  draw.
Qed.

Lemma career_funnel_raises (ax : nat) (s : pyplot) :
  valid_ax ax s -> career_funnel ax 0 s = Raise ZeroDivisionError.
Proof.
  intros Hs. unfold career_funnel.
  unfold bind at 1. rewrite (draws_emit ax _ s Hs).
  unfold bind at 1. rewrite (draws_emit ax _ _ (valid_ax_append _ _ _ _ Hs)).
  unfold bind at 1.
  rewrite (draws_emit ax _ _ (valid_ax_append _ _ _ _ (valid_ax_append _ _ _ _ Hs))).
  reflexivity.
Qed.

Definition figure1_kw : kwargs := [("figsize"%string, VTuple [VInt 12; VInt 8])].

(** The state after Figure 1 has been written, with the calls [cs1] on the
    upper axes and [cs2] on the lower one. *)
Definition after_figure1 (cs1 cs2 : list ax_call) (s : pyplot) : pyplot :=
  mkPyplot (axes_store s ++ [cs1; cs2])
           (fig_store s
              ++ [mkFigure figure1_kw
                    [((2, 1, 1)%nat, List.length (axes_store s));
                     ((2, 1, 2)%nat, S (List.length (axes_store s)))] true])
           (Some (List.length (fig_store s)))
           ((figure1_path,
             mkDocument figure1_kw [((2, 1, 1)%nat, cs1); ((2, 1, 2)%nat, cs2)] true save_kw)
              :: files s)
           (stdout s ++ ["✓ Figure 1 created: Leadership Preparedness Gap"%string]).

Lemma create_figure1_run (total : Z) (counts : list (satisfaction Z)) :
  total <> 0%Z ->
  exists cs1 cs2,
    (forall ax, draws ax (diverging_layout ax (map (to_percentages total) counts)) tt cs2)
    /\ forall s, create_figure1_with total counts s = Ok (tt, after_figure1 cs1 cs2 s).
Proof.
  intros Hn.
  destruct (career_funnel_draws total Hn) as [cs1 H1].
  destruct (diverging_layout_draws (map (to_percentages total) counts))
    as (cs2 & H2 & _).
  exists cs1, cs2. split; [exact H2|].
  intros [st fs g fl out]. unfold create_figure1_with.
  unfold bind at 1. unfold plt_figure. norm_state.
  unfold bind at 1. unfold plt_subplot, bind at 1, plt_gcf, add_subplot. norm_state.
  rewrite update_at_app_length. norm_state.
  unfold bind at 1. rewrite H1.
  2:{ unfold valid_ax. norm_state. rewrite length_app. simpl. lia. }
  unfold append_calls. norm_state. rewrite update_at_app_length.
  unfold bind at 1. unfold plt_subplot, bind at 1, plt_gcf, add_subplot. norm_state.
  rewrite update_at_app_length. norm_state.
  unfold bind at 1. rewrite H2.
  2:{ unfold valid_ax. norm_state. rewrite (length_app (st ++ _)). simpl. lia. }
  unfold append_calls. norm_state. rewrite update_at_app_length.
  unfold plt_tight_layout, plt_savefig, plt_gcf, print, bind.
  norm_state. rewrite update_at_app_length. norm_state.
  rewrite nth_error_app_length.
  unfold after_figure1, snapshot, resolve_axes.
  norm_state. cbn [map fst snd app].
  rewrite nth_app_length.
  rewrite <- (app_assoc st). cbn [app].
  rewrite nth_app_length.
  rewrite length_app. cbn [List.length]. rewrite Nat.add_1_r.
  reflexivity.
Qed.

Lemma create_figure1_zero (counts : list (satisfaction Z)) (s : pyplot) :
  create_figure1_with 0 counts s = Raise ZeroDivisionError.
Proof.
  destruct s as [st fs g fl out]. unfold create_figure1_with.
  unfold bind at 1. unfold plt_figure. norm_state.
  unfold bind at 1. unfold plt_subplot, bind at 1, plt_gcf, add_subplot. norm_state.
  unfold bind at 1. rewrite career_funnel_raises; [reflexivity|].
  unfold valid_ax. norm_state. rewrite length_app. simpl. lia.
Qed.

(** ** Determinism *)

(** The document found at [path] after running [m] from the state [s], or the
    exception raised. *)
Definition written (path : string) (m : M unit) (s : pyplot) : result (option document) :=
  match m s with
  | Ok (_, s') => Ok (read_file path (files s'))
  | Raise e => Raise e
  end.

Section Determinism.

Context {numpy_sort : Argsort}.

Lemma written_figure1 (total : Z) (counts : list (satisfaction Z)) :
  exists out, forall s, written figure1_path (create_figure1_with total counts) s = out.
Proof.
  destruct (Z.eq_dec total 0) as [->|Hn].
  - exists (Raise ZeroDivisionError). intros s. unfold written.
    rewrite create_figure1_zero. reflexivity.
  - destruct (create_figure1_run total counts Hn) as (cs1 & cs2 & _ & Hrun).
    eexists. intros s. unfold written. rewrite Hrun.
    unfold after_figure1. cbn [files]. rewrite read_file_written. reflexivity.
Qed.

Lemma written_figure2 (rows : list intervention) :
  exists out, forall s, written figure2_path (create_figure2_with rows) s = out.
Proof.
  destruct (create_figure2_run rows) as (cs & _ & Hrun).
  eexists. intros s. unfold written. rewrite Hrun.
  unfold after_single_figure. cbn [files]. rewrite read_file_written. reflexivity.
Qed.

Lemma written_twice (path : string) (m : M unit) (out : result (option document)) :
  (forall s, written path m s = out) ->
  forall s, written path (bind m (fun _ => m)) s = out.
Proof.
  intros H s. pose proof (H s) as Hs. unfold written, bind in *.
  destruct (m s) as [[[] s']|e]; [apply H | exact Hs].
Qed.

(** C9. Both layouts are functions of their input alone.  The calls that the
    Mode A layout and the Mode B layout append to their axes are the same
    whatever the state of pyplot and whichever axes object they are given;
    the document that [create_figure1] and [create_figure2] write (or the
    exception raised) is the same from every state of pyplot, and running a
    figure a second time right after the first writes the same document
    again. *)
Theorem layouts_deterministic :
  (forall rows : list (satisfaction float),
      exists cs, forall (ax : nat) (s : pyplot),
          valid_ax ax s -> diverging_layout ax rows s = Ok (tt, append_calls ax cs s))
  /\ (forall rows : list intervention,
        exists cs, forall (ax : nat) (s : pyplot),
            valid_ax ax s -> dumbbell_layout ax rows s = Ok (tt, append_calls ax cs s))
  /\ (forall (total : Z) (counts : list (satisfaction Z)) (s1 s2 : pyplot),
        written figure1_path (create_figure1_with total counts) s1
        = written figure1_path (create_figure1_with total counts) s2)
  /\ (forall (rows : list intervention) (s1 s2 : pyplot),
        written figure2_path (create_figure2_with rows) s1
        = written figure2_path (create_figure2_with rows) s2)
  /\ (forall (total : Z) (counts : list (satisfaction Z)) (s : pyplot),
        written figure1_path
          (bind (create_figure1_with total counts)
                (fun _ => create_figure1_with total counts)) s
        = written figure1_path (create_figure1_with total counts) s)
  /\ (forall (rows : list intervention) (s : pyplot),
        written figure2_path
          (bind (create_figure2_with rows) (fun _ => create_figure2_with rows)) s
        = written figure2_path (create_figure2_with rows) s).
Proof.
  repeat split.
  - intros rows. destruct (diverging_layout_draws rows) as (cs & Hdraw & _).
    exists cs. intros ax s Hs. apply Hdraw. exact Hs.
  - intros rows. destruct (dumbbell_layout_draws rows) as (cs & Hdraw & _).
    exists cs. intros ax s Hs. apply Hdraw. exact Hs.
  - intros total counts s1 s2.
    destruct (written_figure1 total counts) as [out H]. rewrite !H. reflexivity.
  - intros rows s1 s2.
    destruct (written_figure2 rows) as [out H]. rewrite !H. reflexivity.
  - intros total counts s.
    destruct (written_figure1 total counts) as [out H].
    rewrite (written_twice _ _ out H), H. reflexivity.
  - intros rows s.
    destruct (written_figure2 rows) as [out H].
    rewrite (written_twice _ _ out H), H. reflexivity.
Qed.

End Determinism.

(** Two states of pyplot to start from: a fresh one, and one in which another
    figure is already open and drawn on. *)
Definition busy_pyplot : pyplot :=
  mkPyplot [[SetXlim (Fin 0) (Fin 1)]; []]
           [mkFigure [] [((1, 1, 1)%nat, 0%nat); ((1, 2, 2)%nat, 1%nat)] false]
           (Some 0%nat) [] ["earlier output"%string].

Lemma layouts_deterministic_witness :
  (exists cs,
      diverging_layout 0 [tiling_row] one_axes = Ok (tt, append_calls 0 cs one_axes)
      /\ diverging_layout 1 [tiling_row] busy_pyplot
         = Ok (tt, append_calls 1 cs busy_pyplot))
  /\ (exists cs,
        @dumbbell_layout insertion_Argsort 0 tie_example one_axes
        = Ok (tt, append_calls 0 cs one_axes)
        /\ @dumbbell_layout insertion_Argsort 1 tie_example busy_pyplot
           = Ok (tt, append_calls 1 cs busy_pyplot)).
Proof.
  destruct (@layouts_deterministic insertion_Argsort) as (HA & HB & _).
  split.
  - destruct (HA [tiling_row]) as [cs Hcs]. exists cs. split.
    + apply Hcs. unfold valid_ax. simpl. lia.
    + apply Hcs. unfold valid_ax. simpl. lia.
  - destruct (HB tie_example) as [cs Hcs]. exists cs. split.
    + apply Hcs. unfold valid_ax. simpl. lia.
    + apply Hcs. unfold valid_ax. simpl. lia.
Defined.

(** ** Equivalence of the two barriers charts *)

Section BarriersEquivalence.

Context {numpy_sort : Argsort}.

(** The geometry that the two barriers charts share: the bars, the barrier
    names on the vertical axis and the value labels. *)
Definition barriers_geometry (rows : list (string * float)) (order : list (string * float))
    (cs : list ax_call) : Prop :=
  bar_containers cs = [barriers_rects rows]
  /\ yticklabels cs = [map fst order]
  /\ texts cs = map barrier_label (zip (barriers_rects rows) (map snd order)).

(** C10. From any state of pyplot and for any table of barriers,
    [create_figure3] and [create_figure3_red] write documents that are equal
    once the bars are given one colour: the same bars (the bar at vertical
    position [k] is as wide as the [k]-th smallest percentage and starts at
    0), the same barrier names in that ascending order, the same value
    labels.  They differ in the fill colour of the bars, [COLOR_POSITIVE]
    against [COLOR_NEGATIVE], and in the file written; the two literal tables
    of the source are the same table. *)
Theorem barriers_charts_equivalent :
  (forall (rows : list (string * float)) (s : pyplot),
      exists d d_red s3 s3_red cs cs_red,
        create_figure3_with rows s = Ok (tt, s3)
        /\ create_figure3_red_with rows s = Ok (tt, s3_red)
        /\ read_file figure3_path (files s3) = Some d
        /\ read_file figure3_red_path (files s3_red) = Some d_red
        /\ d_red = recolor_document COLOR_NEGATIVE d
        /\ d = recolor_document COLOR_POSITIVE d_red
        /\ doc_axes d = [((1, 1, 1)%nat, cs)]
        /\ doc_axes d_red = [((1, 1, 1)%nat, cs_red)]
        /\ barriers_geometry rows (barriers_order rows) cs
        /\ barriers_geometry rows (barriers_order rows) cs_red
        /\ bar_colors cs = [Some (VStr COLOR_POSITIVE)]
        /\ bar_colors cs_red = [Some (VStr COLOR_NEGATIVE)]
        /\ Permutation (barriers_order rows) rows
        /\ (forall (k : nat) (r : string * float),
              nth_error (barriers_order rows) k = Some r ->
              nth_error (barriers_rects rows) k
              = Some (mkRect (Fin 0) (fsub (of_nat k) (fdiv (Fin 0.7) (Fin 2)))
                             (snd r) (Fin 0.7)))
        /\ (forall (k k' : nat) (r r' : string * float) (p p' : Q),
              (k < k')%nat ->
              nth_error (barriers_order rows) k = Some r ->
              nth_error (barriers_order rows) k' = Some r' ->
              snd r = Fin p -> snd r' = Fin p' -> p <= p'))
  /\ figure3_path <> figure3_red_path
  /\ COLOR_POSITIVE <> COLOR_NEGATIVE
  /\ barriers_data = barriers_data_red.
Proof.
  split; [|split; [|split]]; try discriminate; try reflexivity.
  intros rows s.
  destruct (barriers_documents rows s)
    as (rest & s3 & s3r & H3 & H3r & Hd & Hdr & Hb & Hy & Ht).
  do 2 eexists. exists s3, s3r. do 2 eexists.
  split; [exact H3|]. split; [exact H3r|].
  split; [exact Hd|]. split; [exact Hdr|].
  split.
  { unfold recolor_document. cbn [doc_fig_kw doc_axes doc_tight doc_save_kw map fst snd].
    rewrite (recolor_no_bars _ rest Hb). reflexivity. }
  split.
  { unfold recolor_document. cbn [doc_fig_kw doc_axes doc_tight doc_save_kw map fst snd].
    rewrite (recolor_no_bars _ rest Hb). reflexivity. }
  split; [reflexivity|]. split; [reflexivity|].
  split.
  { unfold barriers_geometry. cbn [bar_containers flat_map app yticklabels].
    fold (bar_containers rest). fold (yticklabels rest).
    rewrite Hb, Hy. split; [reflexivity|]. split; [reflexivity | exact Ht]. }
  split.
  { unfold barriers_geometry. cbn [bar_containers flat_map app yticklabels].
    fold (bar_containers rest). fold (yticklabels rest).
    rewrite Hb, Hy. split; [reflexivity|]. split; [reflexivity | exact Ht]. }
  split.
  { cbn [bar_colors flat_map app]. fold (bar_colors rest).
    rewrite (bar_colors_no_bars rest Hb). reflexivity. }
  split.
  { cbn [bar_colors flat_map app]. fold (bar_colors rest).
    rewrite (bar_colors_no_bars rest Hb). reflexivity. }
  split; [apply barriers_order_perm|].
  split; [apply barriers_rects_nth|].
  intros k k' r r' p p' Hk Hr Hr' Hp Hp'.
  pose proof (StronglySorted_nth_error _ _ _ _ _ _
                (barriers_order_sorted rows) Hk Hr Hr') as H.
  unfold percentage_ascending in H. rewrite Hp, Hp' in H.
  apply sort_ltb_Fin in H. exact H.
Qed.

End BarriersEquivalence.

Lemma barriers_charts_equivalent_witness :
  exists d d_red s3 s3_red,
    @create_figure3 insertion_Argsort empty_pyplot = Ok (tt, s3)
    /\ @create_figure3_red insertion_Argsort empty_pyplot = Ok (tt, s3_red)
    /\ read_file figure3_path (files s3) = Some d
    /\ read_file figure3_red_path (files s3_red) = Some d_red
    /\ d_red = recolor_document COLOR_NEGATIVE d
    /\ 7.41 <= 14.81.
Proof.
  destruct (proj1 (@barriers_charts_equivalent insertion_Argsort)
              barriers_data empty_pyplot)
    as (d & d_red & s3 & s3r & cs & csr & H3 & H3r & Hd & Hdr & Hre & _ & _ & _ & _
        & _ & _ & _ & _ & _ & Hord).
  exists d, d_red, s3, s3r.
  split; [exact H3|]. split; [exact H3r|].
  split; [exact Hd|]. split; [exact Hdr|]. split; [exact Hre|].
  apply (Hord 0%nat 1%nat ("Lack of AS interventions"%string, Fin 7.41)
              ("Lack of AS projects"%string, Fin 14.81));
    try reflexivity. lia.
Defined.

(* ===================================================================== *)
(** * Further properties of the script *)
(* ===================================================================== *)

(** ** The weighted average: errors and range *)

(** An integer that Python converts to a float: beyond the range of binary64
    the conversion raises [OverflowError], which [of_Z] does not model. *)
Definition fits_binary64 (n : Z) : Prop := (Z.abs n < 2 ^ 1023)%Z.

(** X1. For counts and a sample size within the range of binary64, the
    weighted average raises exactly when the sample size is 0, and then it
    is [ZeroDivisionError]: whatever the midpoints (infinite or nan included)
    and whether the two lists have one length or not, no other exception
    comes out of it. *)
Theorem weighted_midpoint_average_raises_iff :
  forall (mids : list float) (counts : list Z) (sample_size : Z) (e : exn),
    Forall fits_binary64 counts ->
    fits_binary64 sample_size ->
    (weighted_midpoint_average mids counts sample_size = Raise e
     <-> sample_size = 0%Z /\ e = ZeroDivisionError).
Proof.
  intros mids counts n e _ _. split.
  - destruct (Z.eq_dec n 0) as [->|Hn].
    + rewrite weighted_midpoint_average_zero. intros [= <-]. auto.
    + unfold weighted_midpoint_average, py_truediv, of_Z.
      rewrite (inject_Z_nonzero n Hn). discriminate.
  - intros [-> ->]. apply weighted_midpoint_average_zero.
Qed.

Lemma weighted_midpoint_average_raises_iff_witness :
  weighted_midpoint_average midpoints interest_counts 0 = Raise ZeroDivisionError.
Proof.
  apply (proj2 (weighted_midpoint_average_raises_iff midpoints interest_counts 0
                  ZeroDivisionError
                  ltac:(repeat constructor) ltac:(reflexivity))).
  split; reflexivity.
Defined.

(** ** Counts to percentages *)

Lemma percentage_of_total_finite (count total : Z) :
  total <> 0%Z ->
  percentage_of_total count total = Fin (inject_Z count / inject_Z total * 100).
Proof.
  intros Hn. unfold percentage_of_total, of_Z. simpl.
  rewrite (inject_Z_nonzero total Hn). reflexivity.
Qed.

(** X3. With a positive total, the conversion of a count between 0 and the
    total is a finite percentage between 0 and 100 (count and total being
    integers of 64 bits, as numpy holds them). *)
Theorem percentage_of_total_range :
  forall (total count : Z),
    (0 < total < 2 ^ 63)%Z ->
    (0 <= count <= total)%Z ->
    exists p, percentage_of_total count total = Fin p /\ 0 <= p /\ p <= 100.
Proof.
  intros total count [Ht _] [H0 H1].
  assert (Hq : 0 < inject_Z total) by (unfold Qlt; simpl; lia).
  eexists. split; [apply percentage_of_total_finite; lia|].
  assert (Hc0 : 0 <= inject_Z count) by (unfold Qle; simpl; lia).
  assert (Hc1 : inject_Z count <= inject_Z total) by (rewrite <- Zle_Qle; exact H1).
  assert (Hd0 : 0 <= inject_Z count / inject_Z total).
  { apply Qle_shift_div_l; [exact Hq | lra]. }
  assert (Hd1 : inject_Z count / inject_Z total <= 1).
  { apply Qle_shift_div_r; [exact Hq | lra]. }
  split; lra.
Qed.

Lemma percentage_of_total_range_witness :
  exists p, percentage_of_total 9 27 = Fin p /\ 0 <= p /\ p <= 100.
Proof.
  apply (percentage_of_total_range 27 9); split; try reflexivity; discriminate.
Defined.

(** ** The chart constructors: what they leave alone *)

(** [s'] is [s] with [n_axes] more axes objects, one more figure, which is
    open and current, one more file, at [path], and one more line of output;
    the axes, the figures and the other files of [s] are as they were. *)
Definition adds_figure (path : string) (n_axes : nat) (s s' : pyplot) : Prop :=
  firstn (List.length (axes_store s)) (axes_store s') = axes_store s
  /\ List.length (axes_store s') = (List.length (axes_store s) + n_axes)%nat
  /\ firstn (List.length (fig_store s)) (fig_store s') = fig_store s
  /\ List.length (fig_store s') = S (List.length (fig_store s))
  /\ gcf s' = Some (List.length (fig_store s))
  /\ (exists d, files s' = (path, d) :: files s)
  /\ (forall p, p <> path -> read_file p (files s') = read_file p (files s))
  /\ (exists line, stdout s' = stdout s ++ [line]).

Lemma firstn_app_length {A} (l r : list A) : firstn (List.length l) (l ++ r) = l.
Proof.
  rewrite firstn_app, Nat.sub_diag, firstn_all. simpl. apply app_nil_r.
Qed.

Lemma read_file_other (p path : string) (d : document) (fs : list (string * document)) :
  p <> path -> read_file p ((path, d) :: fs) = read_file p fs.
Proof.
  intros H. simpl. destruct (String.eqb p path) eqn:E; [|reflexivity].
  apply String.eqb_eq in E. contradiction.
Qed.

Lemma after_single_figure_adds (fkw : kwargs) (cs : list ax_call) (path : string)
    (skw : kwargs) (msg : string) (s : pyplot) :
  adds_figure path 1 s (after_single_figure fkw cs path skw msg s).
Proof.
  unfold adds_figure, after_single_figure. simpl.
  rewrite !firstn_app_length, !length_app. simpl.
  repeat split; try lia; eauto.
  intros p Hp. destruct (String.eqb p path) eqn:E; [|reflexivity].
  apply String.eqb_eq in E. contradiction.
Qed.

Lemma after_figure1_adds (cs1 cs2 : list ax_call) (s : pyplot) :
  adds_figure figure1_path 2 s (after_figure1 cs1 cs2 s).
Proof.
  unfold adds_figure, after_figure1. cbn [axes_store fig_store gcf files stdout].
  rewrite !firstn_app_length, !length_app. cbn [List.length].
  repeat split; try lia; eauto.
  intros p Hp. apply read_file_other. exact Hp.
Qed.

Section ConstructorFrames.

Context {numpy_sort : Argsort}.

(** X6. A chart constructor that completes leaves every axes object, every
    figure and every file that existed before as it was (a file at its own
    path apart, which it replaces): it adds its axes (two for Figure 1, one
    for the others) and one figure, which it never closes and leaves as the
    current figure, writes its one file and prints one line. *)
Theorem constructors_add_one_figure :
  (forall (total : Z) (counts : list (satisfaction Z)) (s s' : pyplot),
      create_figure1_with total counts s = Ok (tt, s') ->
      adds_figure figure1_path 2 s s')
  /\ (forall (rows : list intervention) (s s' : pyplot),
        create_figure2_with rows s = Ok (tt, s') ->
        adds_figure figure2_path 1 s s')
  /\ (forall (rows : list (string * float)) (s s' : pyplot),
        create_figure3_with rows s = Ok (tt, s') ->
        adds_figure figure3_path 1 s s')
  /\ (forall (rows : list (string * float)) (s s' : pyplot),
        create_figure3_red_with rows s = Ok (tt, s') ->
        adds_figure figure3_red_path 1 s s').
Proof.
  split; [|split; [|split]].
  - intros total counts s s' H.
    destruct (Z.eq_dec total 0) as [->|Hn].
    + rewrite create_figure1_zero in H. discriminate.
    + destruct (create_figure1_run total counts Hn) as (cs1 & cs2 & _ & Hrun).
      rewrite Hrun in H. injection H as <-. apply after_figure1_adds.
  - intros rows s s' H. destruct (create_figure2_run rows) as (cs & _ & Hrun).
    rewrite Hrun in H. injection H as <-. apply after_single_figure_adds.
  - intros rows s s' H. destruct (barriers_charts_run rows) as (rest & H3 & _).
    rewrite H3 in H. injection H as <-. apply after_single_figure_adds.
  - intros rows s s' H. destruct (barriers_charts_run rows) as (rest & _ & H3r & _).
    rewrite H3r in H. injection H as <-. apply after_single_figure_adds.
Qed.

End ConstructorFrames.

Lemma constructors_add_one_figure_witness :
  exists s',
    create_figure1 busy_pyplot = Ok (tt, s')
    /\ adds_figure figure1_path 2 busy_pyplot s'.
Proof.
  unfold create_figure1.
  destruct (create_figure1_with TOTAL_PROGRAMS satisfaction_counts busy_pyplot)
    as [[[] s']|e] eqn:E.
  - exists s'. split; [reflexivity|].
    apply (proj1 (@constructors_add_one_figure insertion_Argsort)
             TOTAL_PROGRAMS satisfaction_counts busy_pyplot s').
    exact E.
  - destruct (create_figure1_run TOTAL_PROGRAMS satisfaction_counts ltac:(discriminate))
      as (cs1 & cs2 & _ & Hrun).
    rewrite Hrun in E. discriminate E.
Defined.

(** ** The four constructors in sequence *)

(** From every state, [m] completes, adds one figure with [n_axes] axes,
    writes the document [d] at [path] and prints [line]. *)
Definition writes_figure (m : M unit) (path : string) (n_axes : nat) (d : document)
    (line : string) : Prop :=
  forall s, exists s',
    m s = Ok (tt, s')
    /\ adds_figure path n_axes s s'
    /\ files s' = (path, d) :: files s
    /\ stdout s' = stdout s ++ [line].

Section Sequence.

Context {numpy_sort : Argsort}.

Lemma create_figure1_writes (total : Z) (counts : list (satisfaction Z)) :
  total <> 0%Z ->
  exists d, writes_figure (create_figure1_with total counts) figure1_path 2 d
              "✓ Figure 1 created: Leadership Preparedness Gap".
Proof.
  intros Hn. destruct (create_figure1_run total counts Hn) as (cs1 & cs2 & _ & Hrun).
  eexists. intros s. eexists. split; [apply Hrun|].
  split; [apply after_figure1_adds|]. split; reflexivity.
Qed.

Lemma create_figure2_writes (rows : list intervention) :
  exists d, writes_figure (create_figure2_with rows) figure2_path 1 d
              "✓ Figure 2 created: ASP Interventions Dumbbell Plot".
Proof.
  destruct (create_figure2_run rows) as (cs & _ & Hrun).
  eexists. intros s. eexists. split; [apply Hrun|].
  split; [apply after_single_figure_adds|]. split; reflexivity.
Qed.

Lemma create_figure3_writes (rows : list (string * float)) :
  exists d, writes_figure (create_figure3_with rows) figure3_path 1 d
              "✓ Figure 3 created: Barriers to Education".
Proof.
  destruct (barriers_charts_run rows) as (rest & Hrun & _).
  eexists. intros s. eexists. split; [apply Hrun|].
  split; [apply after_single_figure_adds|]. split; reflexivity.
Qed.

Lemma create_figure3_red_writes (rows : list (string * float)) :
  exists d, writes_figure (create_figure3_red_with rows) figure3_red_path 1 d
              "✓ Figure 3 (Red version) created: Barriers to Education".
Proof.
  destruct (barriers_charts_run rows) as (rest & _ & Hrun & _).
  eexists. intros s. eexists. split; [apply Hrun|].
  split; [apply after_single_figure_adds|]. split; reflexivity.
Qed.

(** The four calls of lines 475 to 478, with the tables and the sample size
    as arguments. *)
Definition create_figures_with (total : Z) (counts : list (satisfaction Z))
    (interventions : list intervention) (barriers barriers_red : list (string * float))
  : M unit :=
  bind (create_figure1_with total counts) (fun _ =>
  bind (create_figure2_with interventions) (fun _ =>
  bind (create_figure3_with barriers) (fun _ =>
  create_figure3_red_with barriers_red))).

(** Lines 475 to 478 of the main block. *)
Definition create_figures : M unit :=
  bind create_figure1 (fun _ =>
  bind create_figure2 (fun _ =>
  bind create_figure3 (fun _ => create_figure3_red))).

Lemma create_figures_run (total : Z) (counts : list (satisfaction Z))
    (interventions : list intervention) (barriers barriers_red : list (string * float)) :
  total <> 0%Z ->
  exists d1 d2 d3 d4,
    writes_figure (create_figure1_with total counts) figure1_path 2 d1
      "✓ Figure 1 created: Leadership Preparedness Gap"
    /\ writes_figure (create_figure2_with interventions) figure2_path 1 d2
         "✓ Figure 2 created: ASP Interventions Dumbbell Plot"
    /\ writes_figure (create_figure3_with barriers) figure3_path 1 d3
         "✓ Figure 3 created: Barriers to Education"
    /\ writes_figure (create_figure3_red_with barriers_red) figure3_red_path 1 d4
         "✓ Figure 3 (Red version) created: Barriers to Education".
Proof.
  intros Hn.
  destruct (create_figure1_writes total counts Hn) as [d1 W1].
  destruct (create_figure2_writes interventions) as [d2 W2].
  destruct (create_figure3_writes barriers) as [d3 W3].
  destruct (create_figure3_red_writes barriers_red) as [d4 W4].
  exists d1, d2, d3, d4. auto.
Qed.

(** In the model the sequence completes for a non-zero sample size. *)
Lemma create_figures_completes (total : Z) (counts : list (satisfaction Z))
    (interventions : list intervention) (barriers barriers_red : list (string * float))
    (s : pyplot) :
  total <> 0%Z ->
  exists s',
    create_figures_with total counts interventions barriers barriers_red s = Ok (tt, s').
Proof.
  intros Hn.
  destruct (create_figures_run total counts interventions barriers barriers_red Hn)
    as (d1 & d2 & d3 & d4 & W1 & W2 & W3 & W4).
  destruct (W1 s) as (s1 & R1 & _). destruct (W2 s1) as (s2 & R2 & _).
  destruct (W3 s2) as (s3 & R3 & _). destruct (W4 s3) as (s4 & R4 & _).
  exists s4. unfold create_figures_with, bind. rewrite R1, R2, R3. exact R4.
Qed.

Lemma writes_figure_file (m : M unit) (path : string) (n : nat) (d : document)
    (line : string) (s s' : pyplot) :
  writes_figure m path n d line -> m s = Ok (tt, s') ->
  read_file path (files s') = Some d.
Proof.
  intros W H. destruct (W s) as (s'' & R & _ & F & _).
  rewrite R in H. injection H as <-. rewrite F. apply read_file_written.
Qed.

(** X7. When the four constructors, run one after the other as in the main
    block from any state of pyplot, all complete, each of the four files
    holds the document that its constructor writes whenever it completes on
    its own, from whatever state: no chart depends on the charts drawn
    before it, and no file is replaced by a later chart.  Four figures are
    left open, the last one current, four lines are printed, and the other
    files are as they were. *)
Theorem create_figures_independent :
  forall (total : Z) (counts : list (satisfaction Z)) (interventions : list intervention)
         (barriers barriers_red : list (string * float)) (s s' : pyplot),
    create_figures_with total counts interventions barriers barriers_red s = Ok (tt, s') ->
    (forall s0 s0', create_figure1_with total counts s0 = Ok (tt, s0') ->
                    read_file figure1_path (files s0') = read_file figure1_path (files s'))
    /\ (forall s0 s0', create_figure2_with interventions s0 = Ok (tt, s0') ->
                       read_file figure2_path (files s0') = read_file figure2_path (files s'))
    /\ (forall s0 s0', create_figure3_with barriers s0 = Ok (tt, s0') ->
                       read_file figure3_path (files s0') = read_file figure3_path (files s'))
    /\ (forall s0 s0', create_figure3_red_with barriers_red s0 = Ok (tt, s0') ->
                       read_file figure3_red_path (files s0')
                       = read_file figure3_red_path (files s'))
    /\ (exists d1 d2 d3 d4,
          read_file figure1_path (files s') = Some d1
          /\ read_file figure2_path (files s') = Some d2
          /\ read_file figure3_path (files s') = Some d3
          /\ read_file figure3_red_path (files s') = Some d4)
    /\ (forall p, ~ In p [figure1_path; figure2_path; figure3_path; figure3_red_path] ->
                  read_file p (files s') = read_file p (files s))
    /\ List.length (fig_store s') = (List.length (fig_store s) + 4)%nat
    /\ gcf s' = Some (List.length (fig_store s) + 3)%nat
    /\ List.length (stdout s') = (List.length (stdout s) + 4)%nat.
Proof.
  intros total counts rows2 rows3 rows3r s s' Hrun.
  assert (Hn : total <> 0%Z).
  { intros ->. unfold create_figures_with, bind in Hrun.
    rewrite create_figure1_zero in Hrun. discriminate Hrun. }
  destruct (create_figures_run total counts rows2 rows3 rows3r Hn)
    as (d1 & d2 & d3 & d4 & W1 & W2 & W3 & W4).
  destruct (W1 s) as (s1 & R1 & A1 & F1 & O1).
  destruct (W2 s1) as (s2 & R2 & A2 & F2 & O2).
  destruct (W3 s2) as (s3 & R3 & A3 & F3 & O3).
  destruct (W4 s3) as (s4 & R4 & A4 & F4 & O4).
  unfold create_figures_with, bind in Hrun. rewrite R1, R2, R3, R4 in Hrun.
  injection Hrun as <-.
  assert (E12 : figure1_path <> figure2_path) by (intros H; vm_compute in H; discriminate H).
  assert (E13 : figure1_path <> figure3_path) by (intros H; vm_compute in H; discriminate H).
  assert (E14 : figure1_path <> figure3_red_path)
    by (intros H; vm_compute in H; discriminate H).
  assert (E23 : figure2_path <> figure3_path) by (intros H; vm_compute in H; discriminate H).
  assert (E24 : figure2_path <> figure3_red_path)
    by (intros H; vm_compute in H; discriminate H).
  assert (E34 : figure3_path <> figure3_red_path)
    by (intros H; vm_compute in H; discriminate H).
  assert (G1 : read_file figure1_path (files s4) = Some d1).
  { rewrite F4, F3, F2, F1. rewrite !read_file_other by assumption.
    apply read_file_written. }
  assert (G2 : read_file figure2_path (files s4) = Some d2).
  { rewrite F4, F3, F2. rewrite !read_file_other by assumption.
    apply read_file_written. }
  assert (G3 : read_file figure3_path (files s4) = Some d3).
  { rewrite F4, F3. rewrite !read_file_other by assumption. apply read_file_written. }
  assert (G4 : read_file figure3_red_path (files s4) = Some d4).
  { rewrite F4. apply read_file_written. }
  split.
  { intros s0 s0' H0. rewrite G1. apply (writes_figure_file _ _ _ _ _ _ _ W1 H0). }
  split.
  { intros s0 s0' H0. rewrite G2. apply (writes_figure_file _ _ _ _ _ _ _ W2 H0). }
  split.
  { intros s0 s0' H0. rewrite G3. apply (writes_figure_file _ _ _ _ _ _ _ W3 H0). }
  split.
  { intros s0 s0' H0. rewrite G4. apply (writes_figure_file _ _ _ _ _ _ _ W4 H0). }
  split.
  { exists d1, d2, d3, d4. auto. }
  split.
  { intros p Hp. simpl in Hp. rewrite F4, F3, F2, F1.
    rewrite !read_file_other; [reflexivity | | | |]; intros ->; apply Hp; auto 6. }
  destruct A1 as (_ & _ & _ & L1 & _). destruct A2 as (_ & _ & _ & L2 & _).
  destruct A3 as (_ & _ & _ & L3 & _).
  destruct A4 as (_ & _ & _ & L4 & G & _).
  split; [lia|]. split.
  { rewrite G. f_equal. lia. }
  rewrite O4, O3, O2, O1, !length_app. simpl. lia.
Qed.

End Sequence.

Lemma create_figures_independent_witness :
  exists s',
    @create_figures_with insertion_Argsort TOTAL_PROGRAMS satisfaction_counts
      interventions_data barriers_data barriers_data_red busy_pyplot
    = Ok (tt, s')
    /\ List.length (fig_store s') = 5%nat.
Proof.
  destruct (@create_figures_completes insertion_Argsort TOTAL_PROGRAMS
              satisfaction_counts interventions_data barriers_data barriers_data_red
              busy_pyplot ltac:(discriminate)) as [s' Hrun].
  exists s'. split; [exact Hrun|].
  destruct (@create_figures_independent insertion_Argsort TOTAL_PROGRAMS
              satisfaction_counts interventions_data barriers_data barriers_data_red
              busy_pyplot s' Hrun)
    as (_ & _ & _ & _ & _ & _ & Hlen & _).
  exact Hlen.
Defined.

(** ** The constructors in any order *)

Inductive chart : Type := Figure1 | Figure2 | Figure3 | Figure3Red.

Definition chart_path (c : chart) : string :=
  match c with
  | Figure1 => figure1_path
  | Figure2 => figure2_path
  | Figure3 => figure3_path
  | Figure3Red => figure3_red_path
  end.

Lemma chart_path_injective (c c' : chart) : chart_path c = chart_path c' -> c = c'.
Proof.
  destruct c, c'; intros H; try reflexivity; vm_compute in H; discriminate H.
Qed.

Lemma writes_figure_swap (m1 m2 : M unit) (p1 p2 : string) (n1 n2 : nat)
    (d1 d2 : document) (l1 l2 : string) :
  writes_figure m1 p1 n1 d1 l1 -> writes_figure m2 p2 n2 d2 l2 -> p1 <> p2 ->
  forall s s12 s21 p,
    bind m1 (fun _ => m2) s = Ok (tt, s12) ->
    bind m2 (fun _ => m1) s = Ok (tt, s21) ->
    read_file p (files s12) = read_file p (files s21).
Proof.
  intros W1 W2 Hp s s12 s21 p H12 H21.
  destruct (W1 s) as (s1 & R1 & _ & F1 & _). destruct (W2 s1) as (t12 & R12 & _ & F12 & _).
  destruct (W2 s) as (s2 & R2 & _ & F2 & _). destruct (W1 s2) as (t21 & R21 & _ & F21 & _).
  unfold bind in H12, H21. rewrite R1, R12 in H12. rewrite R2, R21 in H21.
  injection H12 as <-. injection H21 as <-.
  rewrite F12, F1, F21, F2. simpl.
  destruct (String.eqb p p2) eqn:E2, (String.eqb p p1) eqn:E1; try reflexivity.
  apply String.eqb_eq in E1, E2. subst. contradiction.
Qed.

Section AnyOrder.

Context {numpy_sort : Argsort}.

Variable total : Z.
Variable counts : list (satisfaction Z).
Variable interventions : list intervention.
Variable barriers barriers_red : list (string * float).

(** The call of one constructor, as the main block makes it. *)
Definition run_chart (c : chart) : M unit :=
  match c with
  | Figure1 => create_figure1_with total counts
  | Figure2 => create_figure2_with interventions
  | Figure3 => create_figure3_with barriers
  | Figure3Red => create_figure3_red_with barriers_red
  end.

(** In the model a constructor either writes its figure from every state or
    raises from every state. *)
Lemma run_chart_writes (c : chart) :
  (exists n d line, writes_figure (run_chart c) (chart_path c) n d line)
  \/ (forall s, exists e, run_chart c s = Raise e).
Proof.
  destruct c; simpl.
  - destruct (Z.eq_dec total 0) as [E|Hn].
    + right. intros s. exists ZeroDivisionError. rewrite E. apply create_figure1_zero.
    + left. destruct (create_figure1_writes total counts Hn) as [d W]. eauto.
  - left. destruct (create_figure2_writes interventions) as [d W]. eauto.
  - left. destruct (create_figure3_writes barriers) as [d W]. eauto.
  - left. destruct (create_figure3_red_writes barriers_red) as [d W]. eauto.
Qed.

(** X8. The order in which two different constructors are called does not
    matter for the files: when calling one and then the other completes, and
    calling them the other way round completes too, the two runs leave the
    same document at every path. *)
Theorem charts_commute :
  forall (c c' : chart), c <> c' ->
    forall (s s1 s2 : pyplot),
      bind (run_chart c) (fun _ => run_chart c') s = Ok (tt, s1) ->
      bind (run_chart c') (fun _ => run_chart c) s = Ok (tt, s2) ->
      forall p : string, read_file p (files s1) = read_file p (files s2).
Proof.
  intros c c' Hc s s1 s2 H1 H2 p.
  destruct (run_chart_writes c) as [(n & d & l & W)|R].
  - destruct (run_chart_writes c') as [(n' & d' & l' & W')|R'].
    + apply (writes_figure_swap _ _ _ _ _ _ _ _ _ _ W W'
               ltac:(intros E; apply Hc; apply chart_path_injective; exact E)
               s s1 s2 p H1 H2).
    + destruct (R' s) as [e E]. unfold bind in H2. rewrite E in H2. discriminate H2.
  - destruct (R s) as [e E]. unfold bind in H1. rewrite E in H1. discriminate H1.
Qed.

End AnyOrder.

Lemma charts_commute_witness :
  exists s1 s2,
    bind (@run_chart insertion_Argsort TOTAL_PROGRAMS satisfaction_counts
            interventions_data barriers_data barriers_data_red Figure1)
         (fun _ => @run_chart insertion_Argsort TOTAL_PROGRAMS satisfaction_counts
                     interventions_data barriers_data barriers_data_red Figure3Red)
         busy_pyplot = Ok (tt, s1)
    /\ bind (@run_chart insertion_Argsort TOTAL_PROGRAMS satisfaction_counts
               interventions_data barriers_data barriers_data_red Figure3Red)
            (fun _ => @run_chart insertion_Argsort TOTAL_PROGRAMS satisfaction_counts
                        interventions_data barriers_data barriers_data_red Figure1)
            busy_pyplot = Ok (tt, s2)
    /\ read_file figure3_red_path (files s1) = read_file figure3_red_path (files s2).
Proof.
  destruct (@create_figure1_writes TOTAL_PROGRAMS satisfaction_counts ltac:(discriminate))
    as [d1 W1].
  destruct (@create_figure3_red_writes insertion_Argsort barriers_data_red) as [d4 W4].
  destruct (W1 busy_pyplot) as (t1 & R1 & _). destruct (W4 t1) as (s1 & R14 & _).
  destruct (W4 busy_pyplot) as (t4 & R4 & _). destruct (W1 t4) as (s2 & R41 & _).
  assert (H1 : bind (@run_chart insertion_Argsort TOTAL_PROGRAMS satisfaction_counts
                       interventions_data barriers_data barriers_data_red Figure1)
                 (fun _ => @run_chart insertion_Argsort TOTAL_PROGRAMS satisfaction_counts
                             interventions_data barriers_data barriers_data_red Figure3Red)
                 busy_pyplot = Ok (tt, s1)).
  { unfold bind, run_chart. rewrite R1. exact R14. }
  assert (H2 : bind (@run_chart insertion_Argsort TOTAL_PROGRAMS satisfaction_counts
                       interventions_data barriers_data barriers_data_red Figure3Red)
                 (fun _ => @run_chart insertion_Argsort TOTAL_PROGRAMS satisfaction_counts
                             interventions_data barriers_data barriers_data_red Figure1)
                 busy_pyplot = Ok (tt, s2)).
  { unfold bind, run_chart. rewrite R4. exact R41. }
  exists s1, s2. split; [exact H1|]. split; [exact H2|].
  apply (@charts_commute insertion_Argsort TOTAL_PROGRAMS satisfaction_counts
           interventions_data barriers_data barriers_data_red Figure1 Figure3Red
           ltac:(discriminate) busy_pyplot s1 s2 H1 H2).
Defined.

(** ** What a drawing block appends *)

Lemma nth_update_at {A} (i : nat) (f : A -> A) (l : list A) (d : A) :
  (i < List.length l)%nat -> nth i (update_at i f l) d = f (nth i l d).
Proof.
  revert i. induction l as [|a t IH]; intros [|i] H; simpl in *; try lia; auto.
  apply IH. lia.
Qed.

(** A state with the axes objects 0 to [h], all empty. *)
Definition blank_axes (h : nat) : pyplot := mkPyplot (repeat [] (S h)) [] None [] [].

Lemma blank_axes_valid (h : nat) : valid_ax h (blank_axes h).
Proof. unfold valid_ax, blank_axes. simpl. rewrite repeat_length. lia. Qed.

Lemma append_calls_blank (h : nat) (cs : list ax_call) :
  nth h (axes_store (append_calls h cs (blank_axes h))) [] = cs.
Proof.
  unfold append_calls, set_axes_store. cbn [axes_store].
  rewrite nth_update_at.
  - unfold blank_axes. cbn [axes_store].
    rewrite (nth_repeat_lt _ _ (Nat.lt_succ_diag_r h)). reflexivity.
  - apply blank_axes_valid.
Qed.

(** What a drawing block appends is determined by the block. *)
Lemma draws_unique {A} (h : nat) (m : M A) (a a' : A) (cs cs' : list ax_call) :
  draws h m a cs -> draws h m a' cs' -> cs = cs'.
Proof.
  intros H H'.
  pose proof (H _ (blank_axes_valid h)) as E.
  rewrite (H' _ (blank_axes_valid h)) in E.
  assert (E' : append_calls h cs' (blank_axes h) = append_calls h cs (blank_axes h))
    by congruence.
  apply (f_equal (fun s => nth h (axes_store s) [])) in E'. cbv beta in E'.
  rewrite !append_calls_blank in E'. symmetry. exact E'.
Qed.

(** ** The axis of the satisfaction chart *)

Definition xlims (cs : list ax_call) : list (float * float) :=
  flat_map (fun c => match c with SetXlim lo hi => [(lo, hi)] | _ => [] end) cs.

Definition yticks (cs : list ax_call) : list (list float) :=
  flat_map (fun c => match c with SetYticks t => [t] | _ => [] end) cs.

Lemma flat_map_texts_nil {C} (f : ax_call -> list C) (cs : list ax_call) :
  (forall x y t kw, f (Text x y t kw) = []) ->
  Forall (fun c => is_text c = true) cs ->
  flat_map f cs = [].
Proof.
  intros Hf H. induction H as [|c t Hc Ht IH]; simpl; auto.
  destruct c; try discriminate. rewrite Hf, IH. reflexivity.
Qed.

Lemma label_calls_at_are_texts (rows : list (satisfaction float)) (i : nat) :
  Forall (fun c => is_text c = true) (label_calls_at rows i).
Proof.
  apply Forall_forall. intros c Hc.
  apply label_calls_at_position in Hc. destruct Hc as (x & t & kw & ->). reflexivity.
Qed.

Lemma diverging_layout_axis (rows : list (satisfaction float)) :
  exists cs,
    (forall ax, draws ax (diverging_layout ax rows) tt cs)
    /\ xlims cs = [(Fin (-60), Fin 100)]
    /\ yticks cs = [np_arange (List.length rows)]
    /\ yticklabels cs = [map category rows]
    /\ bar_containers cs = diverging_rects rows.
Proof.
  eexists. split; [|split; [|split; [|split]]].
  - intros ax. unfold diverging_layout. draw.
    apply draws_for with (g := label_calls_at rows).
    intros i Hi. apply in_seq in Hi. rewrite length_map in Hi.
    unfold label_calls_at.
    destruct (nth_error rows i) as [r|] eqn:Hr.
    + apply satisfaction_labels_draws. exact Hr.
    + apply nth_error_None in Hr. lia.
  - unfold xlims. repeat rewrite flat_map_app.
    rewrite (flat_map_flat_map_nil _ (label_calls_at rows)); [reflexivity|].
    intros i. apply flat_map_texts_nil; [reflexivity | apply label_calls_at_are_texts].
  - unfold yticks. repeat rewrite flat_map_app.
    rewrite (flat_map_flat_map_nil _ (label_calls_at rows)).
    + rewrite length_map. reflexivity.
    + intros i. apply flat_map_texts_nil; [reflexivity | apply label_calls_at_are_texts].
  - unfold yticklabels. repeat rewrite flat_map_app.
    rewrite (flat_map_flat_map_nil _ (label_calls_at rows)); [reflexivity|].
    intros i. apply flat_map_texts_nil; [reflexivity | apply label_calls_at_are_texts].
  - repeat rewrite bar_containers_app.
    rewrite (bar_containers_flat_map_nil (label_calls_at rows)
               _ (bar_containers_label_calls_at rows)).
    reflexivity.
Qed.

(** The bar of category [i] in a container is vertically centred on the tick
    [i]. *)
Definition centred_on_tick (bars : list rectangle) (i : nat) : Prop :=
  exists rect,
    nth_error bars i = Some rect
    /\ feq (fadd (rect_y rect) (fdiv (rect_height rect) (Fin 2))) (of_nat i).

(** X10. The satisfaction chart puts tick [i] with the name of category [i]
    on the vertical axis and centres the five bars of category [i] on that
    tick.  Its horizontal axis is fixed to [-60, 100] whatever the data: for
    non-negative percentages adding up to 100 the right end of the bars is
    never beyond 100, but the left end is inside the axis only when the
    dissatisfied percentages plus half the neutral one are at most 60. *)
Theorem satisfaction_chart_axis :
  forall (rows : list (satisfaction float)) (ax : nat) (s : pyplot),
    valid_ax ax s ->
    exists cs b1 b2 b3 b4 b5,
      diverging_layout ax rows s = Ok (tt, append_calls ax cs s)
      /\ xlims cs = [(Fin (-60), Fin 100)]
      /\ yticks cs = [np_arange (List.length rows)]
      /\ yticklabels cs = [map category rows]
      /\ bar_containers cs = [b1; b2; b3; b4; b5]
      /\ forall (i : nat) (r : satisfaction float) (very_neg somewhat_neg neutral
                   somewhat_pos very_pos : Q),
          nth_error rows i = Some r ->
          very_dissatisfied r = Fin very_neg ->
          somewhat_dissatisfied r = Fin somewhat_neg ->
          neither r = Fin neutral ->
          somewhat_satisfied r = Fin somewhat_pos ->
          very_satisfied r = Fin very_pos ->
          0 <= very_neg -> 0 <= somewhat_neg -> 0 <= neutral ->
          0 <= somewhat_pos -> 0 <= very_pos ->
          very_neg + somewhat_neg + neutral + somewhat_pos + very_pos == 100 ->
          Forall (fun b => centred_on_tick b i) [b1; b2; b3; b4; b5]
          /\ exists left_end x5 : Q,
               segment_at b1 i left_end very_neg
               /\ segment_at b5 i x5 very_pos
               /\ x5 + very_pos <= 100
               /\ (-60 <= left_end <-> neutral / 2 + very_neg + somewhat_neg <= 60).
Proof.
  intros rows ax s Hs.
  destruct (diverging_layout_axis rows) as (cs & Hdraw & Hx & Hy & Hl & Hb).
  exists cs. unfold diverging_rects in Hb. cbv zeta in Hb.
  do 5 eexists. split; [apply Hdraw; exact Hs|].
  split; [exact Hx|]. split; [exact Hy|]. split; [exact Hl|]. split; [exact Hb|].
  intros i r vn sn n sp vp Hr Hvn Hsn Hn Hsp Hvp Pvn Psn Pn Psp Pvp Hsum.
  pose proof (diverging_rects_nth rows i r Hr) as Hnth.
  unfold diverging_rects in Hnth. cbv zeta in Hnth. cbn [map] in Hnth.
  rewrite Hvn, Hsn, Hn, Hsp, Hvp in Hnth.
  injection Hnth as H1 H2 H3 H4 H5.
  split.
  - repeat constructor; eexists; (split; [eassumption|]);
      unfold of_nat, of_Z; simpl; field.
  - exists (- (n / 2 + (sn + vn))), (n / 2 + sp).
    split; [eexists; split; [exact H1|]; simpl; split; reflexivity|].
    split; [eexists; split; [exact H5|]; simpl; split; reflexivity|].
    assert (Hh : n == 2 * (n / 2)) by field.
    set (h := n / 2) in *. clearbody h.
    split; [lra|]. split; intros H; lra.
Qed.

Lemma satisfaction_chart_axis_witness :
  exists cs b1 b2 b3 b4 b5,
    diverging_layout 0 [tiling_row] one_axes = Ok (tt, append_calls 0 cs one_axes)
    /\ xlims cs = [(Fin (-60), Fin 100)]
    /\ yticklabels cs = [["tiling"%string]]
    /\ bar_containers cs = [b1; b2; b3; b4; b5]
    /\ Forall (fun b => centred_on_tick b 0) [b1; b2; b3; b4; b5]
    /\ exists left_end x5 : Q,
         segment_at b1 0 left_end 3 /\ segment_at b5 0 x5 30
         /\ x5 + 30 <= 100
         /\ (-60 <= left_end <-> 20 / 2 + 3 + 7 <= 60).
Proof.
  destruct (satisfaction_chart_axis [tiling_row] 0%nat one_axes)
    as (cs & b1 & b2 & b3 & b4 & b5 & Hrun & Hx & _ & Hl & Hb & Hax).
  { unfold valid_ax. simpl. lia. }
  exists cs, b1, b2, b3, b4, b5.
  split; [exact Hrun|]. split; [exact Hx|]. split; [exact Hl|]. split; [exact Hb|].
  apply (Hax 0%nat tiling_row 3 7 20 40 30); try reflexivity; unfold Qle; simpl; lia.
Defined.

(** ** How many labels a category gets *)

Lemma expected_labels_count (vn sn n sp vp : Q) :
  0 <= vn -> 0 <= sn -> 0 <= n -> 0 <= sp -> 0 <= vp ->
  vn + sn + n + sp + vp == 100 ->
  (1 <= List.length (expected_labels vn sn n sp vp) <= 3)%nat.
Proof.
  intros Pvn Psn Pn Psp Pvp Hsum. unfold expected_labels. cbv zeta.
  destruct (Qlt_le_dec 5 (sn + vn)), (Qlt_le_dec 5 n), (Qlt_le_dec 5 (sp + vp));
    simpl; try lia.
  exfalso. lra.
Qed.

(** X11. In the satisfaction chart every category whose percentages are
    non-negative and add up to 100 gets at least one label and at most three:
    the three spans cannot all be 5 or narrower. *)
Theorem satisfaction_chart_label_count :
  forall (rows : list (satisfaction float)) (ax : nat) (s : pyplot),
    valid_ax ax s ->
    exists cs,
      diverging_layout ax rows s = Ok (tt, append_calls ax cs s)
      /\ forall (i : nat) (r : satisfaction float) (very_neg somewhat_neg neutral
                   somewhat_pos very_pos : Q),
          nth_error rows i = Some r ->
          very_dissatisfied r = Fin very_neg ->
          somewhat_dissatisfied r = Fin somewhat_neg ->
          neither r = Fin neutral ->
          somewhat_satisfied r = Fin somewhat_pos ->
          very_satisfied r = Fin very_pos ->
          0 <= very_neg -> 0 <= somewhat_neg -> 0 <= neutral ->
          0 <= somewhat_pos -> 0 <= very_pos ->
          very_neg + somewhat_neg + neutral + somewhat_pos + very_pos == 100 ->
          exists before labels after,
            texts cs = before ++ labels ++ after
            /\ Forall (label_elsewhere i) before
            /\ Forall (label_elsewhere i) after
            /\ Forall (fun c => exists x t kw, c = Text x (of_nat i) t kw) labels
            /\ (1 <= List.length labels <= 3)%nat.
Proof.
  intros rows ax s Hs.
  destruct (diverging_layout_labels rows ax s Hs) as [cs [Hrun Hlab]].
  exists cs. split; [exact Hrun|].
  intros i r vn sn n sp vp Hr Hvn Hsn Hn Hsp Hvp Pvn Psn Pn Psp Pvp Hsum.
  destruct (Hlab i r Hr) as (before & after & Ht & Hb & Ha).
  exists before, (satisfaction_label_calls r i), after.
  repeat (split; [assumption|]).
  split.
  - apply Forall_forall. intros c Hc.
    apply (label_calls_at_position rows i). unfold label_calls_at. rewrite Hr. exact Hc.
  - rewrite (Forall2_length
               (satisfaction_label_calls_expected r i vn sn n sp vp Hvn Hsn Hn Hsp Hvp)).
    apply expected_labels_count; assumption.
Qed.

Lemma satisfaction_chart_label_count_witness :
  exists cs,
    diverging_layout 0 [row_at_threshold] one_axes = Ok (tt, append_calls 0 cs one_axes)
    /\ exists before labels after,
         texts cs = before ++ labels ++ after
         /\ Forall (label_elsewhere 0) before
         /\ Forall (label_elsewhere 0) after
         /\ Forall (fun c => exists x t kw, c = Text x (of_nat 0) t kw) labels
         /\ (1 <= List.length labels <= 3)%nat.
Proof.
  destruct (satisfaction_chart_label_count [row_at_threshold] 0%nat one_axes)
    as (cs & Hrun & Hlab).
  { unfold valid_ax. simpl. lia. }
  exists cs. split; [exact Hrun|].
  apply (Hlab 0%nat row_at_threshold 2 3 5 40 50);
    try reflexivity; unfold Qle; simpl; lia.
Defined.

(** ** The gap annotation and its connector *)

Section DumbbellLabel.

Context {numpy_sort : Argsort}.

(** X12. In the dumbbell chart the annotation of a category stands over its
    connector: its horizontal position is the centre of the connector's
    extent, and the gap it shows is the length of the connector, which is
    never negative. *)
Theorem dumbbell_label_on_connector :
  forall (rows : list intervention) (ax : nat) (s : pyplot),
    valid_ax ax s ->
    exists cs,
      dumbbell_layout ax rows s = Ok (tt, append_calls ax cs s)
      /\ forall (k : nat) (r : intervention) (p_with p_without : Q),
          nth_error (dumbbell_order rows) k = Some r ->
          with_curriculum r = Fin p_with -> without_curriculum r = Fin p_without ->
          exists tx ty tg kw connector clo chi,
            nth_error (texts cs) k = Some (Text tx ty [Lit "Δ"; FmtF 1 tg; Lit "%"] kw)
            /\ nth_error (lines cs) (3 * k) = Some connector
            /\ line_span connector = Some (clo, chi)
            /\ exists x g lo hi : Q,
                 feq tx (Fin x) /\ feq tg (Fin g)
                 /\ feq clo (Fin lo) /\ feq chi (Fin hi)
                 /\ lo <= x /\ x <= hi
                 /\ x - lo == hi - x
                 /\ g == hi - lo
                 /\ 0 <= g.
Proof.
  intros rows ax s Hs.
  destruct (dumbbell_layout_annotations rows ax s Hs) as (cs & Hrun & _ & _ & Hat).
  exists cs. split; [exact Hrun|].
  intros k r w wo Hr Hw Hwo.
  destruct (Hat k r w wo Hr Hw Hwo)
    as ((tx & ty & tg & kw & Ht & Ex & _ & Eg & _)
        & (connector & clo & chi & Hc & _ & Hspan & Elo & Ehi) & _).
  exists tx, ty, tg, kw, connector, clo, chi.
  split; [exact Ht|]. split; [exact Hc|]. split; [exact Hspan|].
  exists ((w + wo) / 2), (Qabs (w - wo)), (Qmin w wo), (Qmax w wo).
  repeat (split; [assumption|]).
  assert (Hh : w + wo == 2 * ((w + wo) / 2)) by field.
  set (x := (w + wo) / 2) in *. clearbody x.
  destruct (Qlt_le_dec w wo) as [L|L].
  - rewrite (Q.min_l w wo), (Q.max_r w wo) by lra.
    rewrite (Qabs_neg (w - wo)) by lra. repeat split; lra.
  - rewrite (Q.min_r w wo), (Q.max_l w wo) by lra.
    rewrite (Qabs_pos (w - wo)) by lra. repeat split; lra.
Qed.

End DumbbellLabel.

Lemma dumbbell_label_on_connector_witness :
  exists cs,
    @dumbbell_layout insertion_Argsort 0 pair_example one_axes
    = Ok (tt, append_calls 0 cs one_axes)
    /\ exists tx ty tg kw connector clo chi,
         nth_error (texts cs) 0 = Some (Text tx ty [Lit "Δ"; FmtF 1 tg; Lit "%"] kw)
         /\ nth_error (lines cs) (3 * 0) = Some connector
         /\ line_span connector = Some (clo, chi)
         /\ exists x g lo hi : Q,
              feq tx (Fin x) /\ feq tg (Fin g)
              /\ feq clo (Fin lo) /\ feq chi (Fin hi)
              /\ lo <= x /\ x <= hi /\ x - lo == hi - x /\ g == hi - lo /\ 0 <= g.
Proof.
  destruct (@dumbbell_label_on_connector insertion_Argsort pair_example 0%nat one_axes)
    as (cs & Hrun & Hat).
  { unfold valid_ax. simpl. lia. }
  exists cs. split; [exact Hrun|].
  apply (Hat 0%nat (mkIntervention "example" (Fin 76.47) (Fin 50.0)) 76.47 50.0);
    reflexivity.
Defined.

(** ** The value labels of the barriers charts *)

Lemma nth_error_zip {A B} (l : list A) (l' : list B) (k : nat) (a : A) (b : B) :
  nth_error l k = Some a -> nth_error l' k = Some b ->
  nth_error (zip l l') k = Some (a, b).
Proof.
  revert l' k. induction l as [|x t IH]; intros [|y t'] [|k]; simpl; try discriminate.
  - intros [= ->] [= ->]. reflexivity.
  - apply IH.
Qed.

Lemma zip_length {A B} (l : list A) (l' : list B) :
  List.length (zip l l') = Nat.min (List.length l) (List.length l').
Proof.
  revert l'. induction l as [|x t IH]; intros [|y t']; simpl; auto.
Qed.

Lemma barh_rects_length (y w : list float) (h : float) (left : list float) :
  List.length (barh_rects y w h left)
  = Nat.min (List.length y) (Nat.min (List.length w) (List.length left)).
Proof.
  revert w left. induction y as [|y0 y' IH]; intros [|w0 w'] [|l0 l']; simpl; auto.
Qed.

(** The call at place [k] among the texts is the value label of a bar that
    ends at [p] and sits at vertical position [k]. *)
Definition value_label_at (cs : list ax_call) (k : nat) (p : Q) : Prop :=
  exists x y kw,
    nth_error (texts cs) k = Some (Text x y [FmtF 1 (Fin p); Lit "%"] kw)
    /\ feq x (Fin (p + 1.5))
    /\ feq y (of_nat k)
    /\ kw_lookup "ha" kw = Some (VStr "left")
    /\ kw_lookup "va" kw = Some (VStr "center").

Section BarrierLabels.

Context {numpy_sort : Argsort}.

Lemma barriers_order_length (rows : list (string * float)) :
  List.length (barriers_order rows) = List.length rows.
Proof. apply Permutation_length. apply barriers_order_perm. Qed.

Lemma barriers_rects_length (rows : list (string * float)) :
  List.length (barriers_rects rows) = List.length rows.
Proof.
  unfold barriers_rects. cbv zeta. rewrite barh_rects_length.
  unfold np_arange. rewrite repeat_length.
  repeat rewrite ?length_map, ?length_seq.
  rewrite barriers_order_length. lia.
Qed.

Lemma barrier_labels_facts (rows : list (string * float)) (rest : list ax_call)
    (kw0 : kwargs) :
  texts rest
  = map barrier_label (zip (barriers_rects rows) (map snd (barriers_order rows))) ->
  List.length (texts (BarContainer (barriers_rects rows) kw0 :: rest)) = List.length rows
  /\ forall (k : nat) (r : string * float) (p : Q),
      nth_error (barriers_order rows) k = Some r -> snd r = Fin p ->
      value_label_at (BarContainer (barriers_rects rows) kw0 :: rest) k p.
Proof.
  intros Ht. cbn [texts filter is_text]. fold (texts rest). rewrite Ht. split.
  - rewrite length_map, zip_length, barriers_rects_length, length_map,
      barriers_order_length. lia.
  - intros k r p Hr Hp. unfold value_label_at.
    cbn [texts filter is_text]. fold (texts rest). rewrite Ht.
    rewrite nth_error_map.
    rewrite (nth_error_zip _ _ k _ (snd r) (barriers_rects_nth rows k r Hr))
      by (rewrite nth_error_map, Hr; reflexivity).
    rewrite Hp. do 3 eexists. split; [reflexivity|].
    unfold get_width, get_y, get_height, of_nat, of_Z. simpl.
    repeat split; try reflexivity. field.
Qed.

(** X13. In both barriers charts every bar has one value label, the [k]-th
    text for the bar at vertical position [k]: it shows the percentage of
    that bar, starts 1.5 to the right of the end of the bar, which starts at
    0, and is vertically centred on the bar. *)
Theorem barriers_value_labels :
  forall (rows : list (string * float)) (s : pyplot),
    exists d d_red cs cs_red,
      written figure3_path (create_figure3_with rows) s = Ok (Some d)
      /\ written figure3_red_path (create_figure3_red_with rows) s = Ok (Some d_red)
      /\ doc_axes d = [((1, 1, 1)%nat, cs)]
      /\ doc_axes d_red = [((1, 1, 1)%nat, cs_red)]
      /\ List.length (texts cs) = List.length rows
      /\ List.length (texts cs_red) = List.length rows
      /\ forall (k : nat) (r : string * float) (p : Q),
          nth_error (barriers_order rows) k = Some r -> snd r = Fin p ->
          value_label_at cs k p /\ value_label_at cs_red k p
          /\ exists bar,
               bar_containers cs = [barriers_rects rows]
               /\ bar_containers cs_red = [barriers_rects rows]
               /\ nth_error (barriers_rects rows) k = Some bar
               /\ rect_x bar = Fin 0 /\ rect_width bar = Fin p.
Proof.
  intros rows s.
  destruct (barriers_documents rows s)
    as (rest & s3 & s3r & H3 & H3r & Hd & Hdr & Hb & _ & Ht).
  do 4 eexists.
  split; [unfold written; rewrite H3, Hd; reflexivity|].
  split; [unfold written; rewrite H3r, Hdr; reflexivity|].
  split; [reflexivity|]. split; [reflexivity|].
  destruct (barrier_labels_facts rows rest (barriers_bar_kw COLOR_POSITIVE) Ht)
    as [Hlen Hlab].
  destruct (barrier_labels_facts rows rest (barriers_bar_kw COLOR_NEGATIVE) Ht)
    as [Hlen' Hlab'].
  split; [exact Hlen|]. split; [exact Hlen'|].
  intros k r p Hr Hp.
  split; [apply (Hlab k r p Hr Hp)|]. split; [apply (Hlab' k r p Hr Hp)|].
  eexists. cbn [bar_containers flat_map app]. fold (bar_containers rest). rewrite Hb.
  split; [reflexivity|]. split; [reflexivity|].
  split; [apply (barriers_rects_nth rows k r Hr)|].
  split; [reflexivity | exact Hp].
Qed.

End BarrierLabels.

Lemma barriers_value_labels_witness :
  exists d cs,
    written figure3_path (@create_figure3_with insertion_Argsort barriers_data) empty_pyplot
    = Ok (Some d)
    /\ doc_axes d = [((1, 1, 1)%nat, cs)]
    /\ value_label_at cs 5 44.44.
Proof.
  destruct (@barriers_value_labels insertion_Argsort barriers_data empty_pyplot)
    as (d & d_red & cs & cs_red & Hw & _ & Hd & _ & _ & _ & Hlab).
  exists d, cs. split; [exact Hw|]. split; [exact Hd|].
  apply (Hlab 5%nat ("Lack of educator time"%string, Fin 44.44) 44.44); reflexivity.
Defined.

(** ** Empty tables *)

Section EmptyTables.

Context {numpy_sort : Argsort}.

Lemma dumbbell_order_nil : dumbbell_order [] = [].
Proof. apply length_zero_iff_nil. apply (dumbbell_order_length []). Qed.

Lemma barriers_order_nil : barriers_order [] = [].
Proof. apply length_zero_iff_nil. apply (barriers_order_length []). Qed.

Lemma barriers_rects_nil : barriers_rects [] = [].
Proof. apply length_zero_iff_nil. apply (barriers_rects_length []). Qed.

(** X14. With a table that has no rows, every chart is still drawn and
    written: the satisfaction layout draws its five bar containers without a
    bar and no label, the dumbbell layout no line and no annotation, the
    barriers chart one bar container without a bar and no value label, and
    each sets an empty list of tick labels. *)
Theorem empty_tables :
  (forall (ax : nat) (s : pyplot),
      valid_ax ax s ->
      exists cs,
        diverging_layout ax [] s = Ok (tt, append_calls ax cs s)
        /\ bar_containers cs = [[]; []; []; []; []]
        /\ texts cs = []
        /\ yticklabels cs = [[]])
  /\ (forall (ax : nat) (s : pyplot),
        valid_ax ax s ->
        exists cs,
          dumbbell_layout ax [] s = Ok (tt, append_calls ax cs s)
          /\ lines cs = []
          /\ texts cs = []
          /\ yticklabels cs = [[]])
  /\ (forall (s : pyplot),
        exists d cs,
          written figure3_path (create_figure3_with []) s = Ok (Some d)
          /\ doc_axes d = [((1, 1, 1)%nat, cs)]
          /\ bar_containers cs = [[]]
          /\ texts cs = []
          /\ yticklabels cs = [[]]).
Proof.
  split; [|split].
  - intros ax s Hs.
    destruct (diverging_layout_draws []) as (cs & Hdraw & Hb & Ht).
    destruct (diverging_layout_axis []) as (cs' & Hdraw' & _ & _ & Hl & _).
    rewrite <- (draws_unique 0 _ _ _ _ _ (Hdraw 0%nat) (Hdraw' 0%nat)) in Hl.
    exists cs. split; [apply Hdraw; exact Hs|].
    split; [exact Hb|]. split; [exact Ht | exact Hl].
  - intros ax s Hs.
    destruct (dumbbell_layout_draws []) as (cs & Hdraw & Hl & Ht & Hy).
    rewrite dumbbell_order_nil in Hy.
    exists cs. split; [apply Hdraw; exact Hs|].
    split; [exact Hl|]. split; [exact Ht | exact Hy].
  - intros s.
    destruct (barriers_documents [] s)
      as (rest & s3 & s3r & H3 & _ & Hd & _ & Hb & Hy & Ht).
    do 2 eexists.
    split; [unfold written; rewrite H3, Hd; reflexivity|].
    split; [reflexivity|].
    rewrite barriers_rects_nil in *. rewrite barriers_order_nil in *.
    cbn [bar_containers texts yticklabels flat_map filter is_text app].
    fold (bar_containers rest). fold (texts rest). fold (yticklabels rest).
    rewrite Hb, Ht, Hy. repeat split.
Qed.

End EmptyTables.

Lemma empty_tables_witness :
  (exists cs,
      diverging_layout 1 [] busy_pyplot = Ok (tt, append_calls 1 cs busy_pyplot)
      /\ bar_containers cs = [[]; []; []; []; []]
      /\ texts cs = []
      /\ yticklabels cs = [[]])
  /\ (exists cs,
        @dumbbell_layout insertion_Argsort 1 [] busy_pyplot
        = Ok (tt, append_calls 1 cs busy_pyplot)
        /\ lines cs = []
        /\ texts cs = []
        /\ yticklabels cs = [[]]).
Proof.
  destruct (@empty_tables insertion_Argsort) as (HA & HB & _).
  split; [apply HA | apply HB]; unfold valid_ax; simpl; lia.
Defined.
